(** * mappino: transformation and validation pipeline

    A shallow embedding of the backend services

      - [app/services/validators/base.py]        (result model, validator interface)
      - [app/services/validators/registry.py]    (orchestration, aggregation, comparison)
      - [app/services/validators/xsd.py]         (local structural validator)
      - [app/services/validators/schematron.py]  (local rule-based validator)
      - [app/services/validators/helger.py]      (remote validator)
      - [app/services/transformer.py]            (XSLT version detection and transformation)

    The libraries the services call (lxml, zeep, saxonche, hashlib, pathlib,
    the codecs) are not part of the repository: they enter the model as
    interfaces (type classes), and every statement below holds for each of
    their implementations.  Module-level caches are threaded as explicit
    state. *)

From stdpp Require Import base option list strings gmap sorting pretty.
From Stdlib Require Import NArith Ascii.

Set Warnings "-register-all".
Local Open Scope string_scope.

(** ** Python values shared by all services *)

(** [bytes] objects. *)
Abbreviation bytes := (list Byte.byte).

(** A decoded [str], one code point per element.  Only the version detector
    looks inside decoded text; everywhere else a [str] is a Rocq [string]. *)
Abbreviation text := (list N).

(** What a call produces: a value, or an exception ([Raised] carries
    [str(e)] of an instance of [Exception]). *)
Inductive outcome (A : Type) : Type :=
| Returned (a : A)
| Raised (e : string).
Arguments Returned {A} a.
Arguments Raised {A} e.

(** A [dict] with string keys whose iteration order matters: insertion
    ordered, one entry per key, assignment to an existing key keeps its
    place. *)
Definition pydict (V : Type) : Type := list (string * V).

Fixpoint dict_get {V} (d : pydict V) (k : string) : option V :=
  match d with
  | [] => None
  | (k', v) :: d' => if String.eqb k' k then Some v else dict_get d' k
  end.

Fixpoint dict_set {V} (d : pydict V) (k : string) (v : V) : pydict V :=
  match d with
  | [] => [(k, v)]
  | (k', v') :: d' =>
      if String.eqb k' k then (k', v) :: d' else (k', v') :: dict_set d' k v
  end.

Definition dict_values {V} (d : pydict V) : list V := map snd d.

(** Truthiness of an optional string ([if schema_path:], [if not vesid:]). *)
Definition truthy (o : option string) : bool :=
  match o with
  | Some s => negb (String.eqb s "")
  | None => false
  end.

(** [sorted(s)] for a set of strings: Python compares [str] by code point,
    which on UTF-8 encoded strings is the bytewise lexicographic order. *)
Definition str_le (a b : string) : Prop := String.leb a b = true.

#[global] Instance str_le_dec (a b : string) : Decision (str_le a b).
Proof. unfold str_le. apply _. Defined.

Definition sorted (s : gset string) : list string :=
  merge_sort str_le (elements s).

(** ** base.py *)

Inductive Severity : Type := ERROR | WARNING | INFO.

Definition Severity_value (s : Severity) : string :=
  match s with
  | ERROR => "error"
  | WARNING => "warning"
  | INFO => "info"
  end.

Definition Severity_eqb (a b : Severity) : bool :=
  match a, b with
  | ERROR, ERROR | WARNING, WARNING | INFO, INFO => true
  | _, _ => false
  end.

Record ValidationIssue : Type := mkIssue {
  severity : Severity;
  rule_id : string;
  message : string;
  location : option string;
  source : option string
}.

(** One entry of the remote report, as [zeep.helpers.serialize_object]
    yields it; [Item] holds the nested entries. *)
Inductive ReportItem : Type :=
| mkReportItem (errorLevel mostSevereErrorLevel : option string)
               (errorID errorText errorLocation : string)
               (Item : list ReportItem).

Record Report : Type := mkReport { Result : list ReportItem }.

(** The Python runtime: string methods, codecs, hashing, paths, the clock. *)
Class Python : Type := {
  Time : Type;
  (** [(time.time() - start_time) * 1000] *)
  elapsed_ms : Time;
  str_lower : string -> string;
  str_strip : string -> string;
  (** [b.decode("utf-8")]; it raises [UnicodeDecodeError] *)
  decode_utf8 : bytes -> outcome string;
  (** [b.decode("utf-8", errors="ignore")] *)
  decode_utf8_ignore : bytes -> text;
  (** [s.encode("utf-8")] *)
  encode_utf8 : string -> bytes;
  (** [hashlib.md5(b).hexdigest()] *)
  md5_hexdigest : bytes -> string;
  Path_is_absolute : string -> bool;
  (** [dir / name] *)
  Path_join : string -> string -> string;
  Path_exists : string -> bool;
  XSD_DIR : string;
  SCHEMATRON_DIR : string
}.

Section ResultModel.
Context `{Python}.

Record ValidationResult : Type := mkResult {
  validator_name : string;
  validator_type : string;
  success : bool;
  issues : list ValidationIssue;
  raw_response : option Report;
  execution_time_ms : option Time
}.

(** [ValidationResult.errors] *)
Definition errors (r : ValidationResult) : list ValidationIssue :=
  filter (fun i => Severity_eqb (severity i) ERROR = true) (issues r).

(** [ValidationResult.warnings] *)
Definition warnings (r : ValidationResult) : list ValidationIssue :=
  filter (fun i => Severity_eqb (severity i) WARNING = true) (issues r).

(** Keyword arguments handed through the registry to every validator;
    [None] is an absent (or [None]) argument. *)
Record Kwargs : Type := mkKwargs {
  kw_schema_path : option string;
  kw_auto_detect : option bool;
  kw_schematron : option string;
  kw_profile : option string;
  kw_vesid : option string
}.

(** [BaseValidator]: the interface every validator implements.  [World] is
    the mutable state validators share (their class-level caches). *)
Record BaseValidator (World : Type) : Type := mkValidator {
  v_name : string;
  v_validator_type : string;
  v_description : string;
  v_is_local : bool;
  v_supported_formats : list string;
  v_validate : bytes -> Kwargs -> World -> outcome ValidationResult * World
}.

End ResultModel.

Arguments v_name {_ _} _.
Arguments v_validator_type {_ _} _.
Arguments v_description {_ _} _.
Arguments v_is_local {_ _} _.
Arguments v_supported_formats {_ _} _.
Arguments v_validate {_ _} _ _ _ _.

(** ** registry.py *)

Section Registry.
Context `{Python} {World : Type}.

Record MultiValidationResult : Type := mkMulti {
  results : list ValidationResult;
  overall_success : bool;
  total_errors : nat;
  total_warnings : nat
}.

(** [ValidatorRegistry._validators] *)
Definition ValidatorRegistry : Type := pydict (BaseValidator World).

Definition register (reg : ValidatorRegistry) (v : BaseValidator World)
  : ValidatorRegistry :=
  dict_set reg (v_validator_type v) v.

Definition get_local_validators (reg : ValidatorRegistry) : list (BaseValidator World) :=
  filter (fun v => v_is_local v = true) (dict_values reg).

Definition get_external_validators (reg : ValidatorRegistry) : list (BaseValidator World) :=
  filter (fun v => v_is_local v = false) (dict_values reg).

(** The validators a selection resolves to: [None] and the empty list mean
    all of them, names that are not registered are skipped. *)
Definition resolve (reg : ValidatorRegistry) (validator_types : option (list string))
  : list (BaseValidator World) :=
  match validator_types with
  | Some ((_ :: _) as ts) => omap (dict_get reg) ts
  | _ => dict_values reg
  end.

(** The result that stands for a validator that raised. *)
Definition error_result (vname vtype e : string) (src : option string) : ValidationResult :=
  mkResult vname vtype false
    [mkIssue ERROR "VALIDATOR_ERROR" e None src] None None.

(** [asyncio.gather] over the local tasks with [return_exceptions=True]: no validator
    awaits, so the coroutines run to completion one after the other, in
    order, each on the state its predecessor left. *)
Fixpoint gather (local : list (BaseValidator World)) (xml_bytes : bytes)
    (kwargs : Kwargs) (w : World) : list (outcome ValidationResult) * World :=
  match local with
  | [] => ([], w)
  | v :: rest =>
      let '(o, w1) := v_validate v xml_bytes kwargs w in
      let '(os, w2) := gather rest xml_bytes kwargs w1 in
      (o :: os, w2)
  end.

(** [for r in local_results: ...] *)
Fixpoint collect_local (local_results : list (outcome ValidationResult))
    (acc : list ValidationResult) : list ValidationResult :=
  match local_results with
  | [] => acc
  | Returned r :: rest => collect_local rest (acc ++ [r])
  | Raised e :: rest =>
      collect_local rest (acc ++ [error_result "Unknown" "error" e None])
  end.

(** [for v in external: try: ... except Exception as e: ...] *)
Fixpoint run_external (external : list (BaseValidator World)) (xml_bytes : bytes)
    (kwargs : Kwargs) (acc : list ValidationResult) (w : World)
  : list ValidationResult * World :=
  match external with
  | [] => (acc, w)
  | v :: rest =>
      match v_validate v xml_bytes kwargs w with
      | (Returned result, w1) =>
          run_external rest xml_bytes kwargs (acc ++ [result]) w1
      | (Raised e, w1) =>
          run_external rest xml_bytes kwargs
            (acc ++ [error_result (v_name v) (v_validator_type v) e (Some (v_name v))]) w1
      end
  end.

Definition sum_list (l : list nat) : nat := foldr Nat.add 0 l.

(** [ValidatorRegistry.validate] *)
Definition validate (reg : ValidatorRegistry) (xml_bytes : bytes)
    (validator_types : option (list string)) (kwargs : Kwargs) (w : World)
  : MultiValidationResult * World :=
  let validators := resolve reg validator_types in
  match validators with
  | [] => (mkMulti [] false 0 0, w)
  | _ =>
      let local := filter (fun v => v_is_local v = true) validators in
      let external := filter (fun v => v_is_local v = false) validators in
      let '(local_results, w1) := gather local xml_bytes kwargs w in
      let results0 := collect_local local_results [] in
      let '(results, w2) := run_external external xml_bytes kwargs results0 w1 in
      (mkMulti results
         (forallb success results)
         (sum_list (map (fun r => length (errors r)) results))
         (sum_list (map (fun r => length (warnings r)) results)),
       w2)
  end.

(** [ValidatorRegistry.validate_local_only] *)
Definition validate_local_only (reg : ValidatorRegistry) (xml_bytes : bytes)
    (kwargs : Kwargs) (w : World) : MultiValidationResult * World :=
  let local_types := map v_validator_type (get_local_validators reg) in
  validate reg xml_bytes (Some local_types) kwargs w.

(** One cell of the comparison matrix: [{"found": True, "severity": ...,
    "message": ...}] or [{"found": False}]. *)
Record Cell : Type := mkCell {
  found : bool;
  cell_severity : option string;
  cell_message : option string
}.

(** One row: [{"rule_id": rule_id, "validators": {...}}]. *)
Record Row : Type := mkRow {
  row_rule_id : string;
  row_validators : gmap string Cell
}.

Definition cell_of (r : ValidationResult) (rid : string) : Cell :=
  let matching := filter (fun i => rule_id i = rid) (issues r) in
  match matching with
  | m :: _ => mkCell true (Some (Severity_value (severity m))) (Some (message m))
  | [] => mkCell false None None
  end.

(** The inner loop: [row["validators"][r.validator_name] = ...] for each
    result in turn. *)
Definition fill_row (rs : list ValidationResult) (rid : string) : gmap string Cell :=
  foldl (fun d r => <[validator_name r := cell_of r rid]> d) ∅ rs.

(** [all_rule_ids] *)
Definition all_rule_ids (rs : list ValidationResult) : gset string :=
  foldl (fun s r => foldl (fun s i => s ∪ {[rule_id i]}) s (issues r)) ∅ rs.

Definition comparison_matrix (rs : list ValidationResult) : list Row :=
  map (fun rid => mkRow rid (fill_row rs rid)) (sorted (all_rule_ids rs)).

(** What [validate_with_comparison] returns: the fields of
    [result.to_dict()] are those of [cmp_result], next to the matrix. *)
Record Comparison : Type := mkComparison {
  cmp_result : MultiValidationResult;
  comparison : list Row
}.

(** [ValidatorRegistry.validate_with_comparison] *)
Definition validate_with_comparison (reg : ValidatorRegistry) (xml_bytes : bytes)
    (validator_types : list string) (kwargs : Kwargs) (w : World)
  : Comparison * World :=
  let '(result, w1) := validate reg xml_bytes (Some validator_types) kwargs w in
  (mkComparison result (comparison_matrix (results result)), w1).

End Registry.

Arguments ValidatorRegistry {_} World.

(** ** The libraries behind the validators *)

(** [lxml.etree.XMLSyntaxError]: [str(e)] and [e.lineno] ([None] when the
    exception has no such attribute). *)
Record XMLSyntaxError : Type := mkXMLSyntaxError {
  xse_str : string;
  xse_lineno : option Z
}.

(** An entry of [schema.error_log]. *)
Record LogEntry : Type := mkLogEntry {
  log_message : string;
  log_line : Z;
  log_column : Z
}.

(** [schema.assertValid(doc)]: it returns, raises [DocumentInvalid], or
    raises something else ([XMLSchemaValidateError], an internal error). *)
Inductive Validity : Type :=
| Valid
| DocumentInvalid
| ValidateRaised (e : string).

(** [xslt(doc)]: a result tree, [XSLTApplyError], or another exception. *)
Inductive Applied (T : Type) : Type :=
| ApplyOk (t : T)
| XSLTApplyError (e : string)
| ApplyRaised (e : string).
Arguments ApplyOk {T} t.
Arguments XSLTApplyError {T} e.
Arguments ApplyRaised {T} e.

(** [lxml.etree], as far as the services use it. *)
Class Lxml : Type := {
  Element : Type;
  XMLSchema : Type;
  XSLT : Type;
  ResultTree : Type;
  (** [ET.fromstring(b)] *)
  ET_fromstring : bytes -> XMLSyntaxError + Element;
  (** [doc.tag] *)
  Element_tag : Element -> string;
  (** [ET.parse(str(path))]; [None] when it raises *)
  ET_parse : string -> option Element;
  (** [ET.XMLSchema(schema_doc)]; [None] when it raises *)
  ET_XMLSchema : Element -> option XMLSchema;
  (** [ET.XSLT(xslt_doc)]; [inl] is [str(e)] of [XSLTParseError] *)
  ET_XSLT : Element -> string + XSLT;
  XMLSchema_assertValid : XMLSchema -> Element -> Validity;
  (** [schema.error_log] after that validation *)
  XMLSchema_error_log : XMLSchema -> Element -> list LogEntry;
  (** [transform(doc, **str_params)]; without parameters the list is empty *)
  XSLT_call : XSLT -> Element -> list (string * string) -> Applied ResultTree;
  (** [ET.tostring(result, encoding="utf-8", xml_declaration=True)]; [None]
      for a result tree without a root *)
  ET_tostring : ResultTree -> option bytes;
  (** [svrl.getroot()] *)
  ResultTree_getroot : ResultTree -> option Element;
  (** [el.iter(tag)], in document order *)
  Element_iter : Element -> string -> list Element;
  (** [el.get(name)] *)
  Element_get : Element -> string -> option string;
  (** [el.find(tag)] *)
  Element_find : Element -> string -> option Element;
  (** [el.text] *)
  Element_text : Element -> option string
}.

(** The SOAP client: [_service.validate(XML=..., VESID=..., displayLocale=...)],
    serialized. *)
Class Zeep : Type := {
  service_validate : string -> string -> string -> outcome Report
}.

(** ** Helpers on [str] *)

(** [c in s] for a one-character [c]. *)
Fixpoint contains_char (c : Ascii.ascii) (s : string) : bool :=
  match s with
  | EmptyString => false
  | String a s' => if Ascii.eqb a c then true else contains_char c s'
  end.

(** [s.split(c)[0]] *)
Fixpoint before_char (c : Ascii.ascii) (s : string) : string :=
  match s with
  | EmptyString => EmptyString
  | String a s' => if Ascii.eqb a c then EmptyString else String a (before_char c s')
  end.

Fixpoint lstrip_char (c : Ascii.ascii) (s : string) : string :=
  match s with
  | EmptyString => EmptyString
  | String a s' => if Ascii.eqb a c then lstrip_char c s' else s
  end.

Fixpoint rstrip_char (c : Ascii.ascii) (s : string) : string :=
  match s with
  | EmptyString => EmptyString
  | String a s' =>
      match rstrip_char c s' with
      | EmptyString => if Ascii.eqb a c then EmptyString else String a EmptyString
      | t => String a t
      end
  end.

(** [s.strip(c)] *)
Definition strip_char (c : Ascii.ascii) (s : string) : string :=
  rstrip_char c (lstrip_char c s).

(** [doc.tag.split("}")[0].strip("{") if "}" in doc.tag else None] *)
Definition tag_namespace (tag : string) : option string :=
  if contains_char "}"%char tag
  then Some (strip_char "{"%char (before_char "}"%char tag))
  else None.

(** [x or y] on optional strings. *)
Definition or_else (x y : option string) : option string :=
  if truthy x then x else y.

(** [f"line {n}"] and the like. *)
Definition str_of_Z (n : Z) : string := pretty n.

(** ** xsd.py *)

Module XSDValidator.
Section XSDValidator.
Context `{Python} `{Lxml}.

Definition name : string := "XSD Schema".
Definition validator_type : string := "xsd".
Definition description : string :=
  "Local XML Schema validation. Fast structural check, no business rules.".
Definition is_local : bool := true.
Definition supported_formats : list string := ["xml"; "ubl"; "cii"].

(** Built-in schema mappings (namespace -> schema file). *)
Definition SCHEMA_MAP : pydict string :=
  [ ("urn:oasis:names:specification:ubl:schema:xsd:Invoice-2", "UBL-Invoice-2.1.xsd");
    ("urn:oasis:names:specification:ubl:schema:xsd:CreditNote-2", "UBL-CreditNote-2.1.xsd") ].

(** What a schema path loads from disk, cache aside (the body of the [try]). *)
Definition load_from_disk (schema_path : string) : option XMLSchema :=
  let path :=
    if Path_is_absolute schema_path then schema_path
    else Path_join XSD_DIR schema_path in
  if negb (Path_exists path) then None
  else
    match ET_parse path with
    | None => None
    | Some schema_doc => ET_XMLSchema schema_doc
    end.

(** [XSDValidator._load_schema], on the class-level [_schema_cache]. *)
Definition _load_schema (schema_path : string) (_schema_cache : gmap string XMLSchema)
  : option XMLSchema * gmap string XMLSchema :=
  match _schema_cache !! schema_path with
  | Some schema => (Some schema, _schema_cache)
  | None =>
      match load_from_disk schema_path with
      | Some schema => (Some schema, <[schema_path := schema]> _schema_cache)
      | None => (None, _schema_cache)
      end
  end.

(** [XSDValidator._detect_schema] *)
Definition _detect_schema (doc : Element) (_schema_cache : gmap string XMLSchema)
  : option XMLSchema * gmap string XMLSchema :=
  match tag_namespace (Element_tag doc) with
  | Some ns =>
      if truthy (Some ns) then
        match dict_get SCHEMA_MAP ns with
        | Some schema_file =>
            if truthy (Some schema_file) then _load_schema schema_file _schema_cache
            else (None, _schema_cache)
        | None => (None, _schema_cache)
        end
      else (None, _schema_cache)
  | None => (None, _schema_cache)
  end.

(** The single issue of an input that does not parse. *)
Definition syntax_issue (vname : string) (e : XMLSyntaxError) : ValidationIssue :=
  mkIssue ERROR "XML_SYNTAX" ("XML parsing error: " ++ xse_str e)
    (match xse_lineno e with
     | Some n => Some ("line " ++ str_of_Z n)
     | None => None
     end)
    (Some vname).

(** The result of a well-formed document for which there is no schema. *)
Definition no_schema_result : ValidationResult :=
  mkResult name validator_type true
    [mkIssue INFO "XSD_NO_SCHEMA"
       "XML is well-formed. No XSD schema found for validation." None (Some name)]
    None (Some elapsed_ms).

Definition invalid_issue (error : LogEntry) : ValidationIssue :=
  mkIssue ERROR "XSD_INVALID" (log_message error)
    (Some ("line " ++ str_of_Z (log_line error) ++ ", column " ++ str_of_Z (log_column error)))
    (Some name).

(** The [# Get schema] block of [validate].  A schema object is truthy, so
    [if not schema] asks whether one was found. *)
Definition get_schema (schema_path : option string) (auto_detect : bool)
    (doc : Element) (_schema_cache : gmap string XMLSchema)
  : option XMLSchema * gmap string XMLSchema :=
  if truthy schema_path then _load_schema (default "" schema_path) _schema_cache
  else if auto_detect then _detect_schema doc _schema_cache
  else (None, _schema_cache).

(** [XSDValidator.validate] *)
Definition validate (xml_bytes : bytes) (schema_path : option string)
    (auto_detect : bool) (_schema_cache : gmap string XMLSchema)
  : outcome ValidationResult * gmap string XMLSchema :=
  match ET_fromstring xml_bytes with
  | inl e =>
      (Returned (mkResult name validator_type false [syntax_issue name e]
                   None (Some elapsed_ms)),
       _schema_cache)
  | inr doc =>
      let '(schema, cache1) := get_schema schema_path auto_detect doc _schema_cache in
      match schema with
      | None => (Returned no_schema_result, cache1)
      | Some schema =>
          match XMLSchema_assertValid schema doc with
          | Valid =>
              (Returned (mkResult name validator_type true [] None (Some elapsed_ms)),
               cache1)
          | DocumentInvalid =>
              (Returned (mkResult name validator_type false
                           (map invalid_issue (XMLSchema_error_log schema doc))
                           None (Some elapsed_ms)),
               cache1)
          | ValidateRaised e => (Raised e, cache1)
          end
      end
  end.

End XSDValidator.
End XSDValidator.

(** ** schematron.py *)

Module SchematronValidator.
Section SchematronValidator.
Context `{Python} `{Lxml}.

Definition name : string := "Schematron".
Definition validator_type : string := "schematron".
Definition description : string :=
  "Business rule validation using Schematron. Checks EN 16931 and Peppol BIS rules.".
Definition is_local : bool := true.
Definition supported_formats : list string := ["ubl"; "cii"].

Definition SVRL_NS : string := "http://purl.oclc.org/dml/svrl".

(** Schematron mappings: profile -> xslt file. *)
Definition SCHEMATRON_MAP : pydict string :=
  [ ("peppol-bis3", "peppol-bis3.xslt");
    ("en16931-ubl", "en16931-ubl.xslt");
    ("en16931-cii", "en16931-cii.xslt") ].

(** Namespace to profile detection. *)
Definition PROFILE_DETECTION : pydict string :=
  [ ("urn:oasis:names:specification:ubl:schema:xsd:Invoice-2", "peppol-bis3");
    ("urn:oasis:names:specification:ubl:schema:xsd:CreditNote-2", "peppol-bis3");
    ("urn:un:unece:uncefact:data:standard:CrossIndustryInvoice:100", "en16931-cii") ].

(** [SchematronValidator._load_xslt], on the class-level [_xslt_cache]. *)
Definition _load_xslt (path : string) (_xslt_cache : gmap string XSLT)
  : option XSLT * gmap string XSLT :=
  match _xslt_cache !! path with
  | Some xslt => (Some xslt, _xslt_cache)
  | None =>
      let p :=
        if Path_is_absolute path then path else Path_join SCHEMATRON_DIR path in
      if negb (Path_exists p) then (None, _xslt_cache)
      else
        match ET_parse p with
        | None => (None, _xslt_cache)
        | Some xslt_doc =>
            match ET_XSLT xslt_doc with
            | inr xslt => (Some xslt, <[path := xslt]> _xslt_cache)
            | inl _ => (None, _xslt_cache)
            end
        end
  end.

(** [SchematronValidator._load_profile] *)
Definition _load_profile (profile : string) (_xslt_cache : gmap string XSLT)
  : option XSLT * gmap string XSLT :=
  match dict_get SCHEMATRON_MAP profile with
  | Some xslt_file =>
      if truthy (Some xslt_file) then _load_xslt xslt_file _xslt_cache
      else (None, _xslt_cache)
  | None => (None, _xslt_cache)
  end.

(** [SchematronValidator._detect_profile] *)
Definition _detect_profile (doc : Element) (_xslt_cache : gmap string XSLT)
  : option XSLT * gmap string XSLT :=
  match tag_namespace (Element_tag doc) with
  | Some ns =>
      if truthy (Some ns) then
        match dict_get PROFILE_DETECTION ns with
        | Some profile =>
            if truthy (Some profile) then _load_profile profile _xslt_cache
            else (None, _xslt_cache)
        | None => (None, _xslt_cache)
        end
      else (None, _xslt_cache)
  | None => (None, _xslt_cache)
  end.

(** Map flag to severity. *)
Definition flag_severity (flag : string) : Severity :=
  if String.eqb flag "fatal" || String.eqb flag "error" then ERROR
  else if String.eqb flag "warning" then WARNING
  else INFO.

(** The body of both loops of [_parse_svrl]: the issue of one
    [failed-assert] (default flag ["error"], default message
    ["Assertion failed"]) or [successful-report] (["info"], ["Report"]). *)
Definition svrl_issue (default_flag default_message : string) (el : Element)
  : ValidationIssue :=
  let rule_id := default "UNKNOWN" (Element_get el "id") in
  let location := default "" (Element_get el "location") in
  let flag := str_lower (default default_flag (Element_get el "flag")) in
  let text_el := Element_find el ("{" ++ SVRL_NS ++ "}text") in
  let message :=
    match text_el with
    | Some t =>
        if truthy (Element_text t) then str_strip (default "" (Element_text t))
        else default_message
    | None => default_message
    end in
  mkIssue (flag_severity flag) rule_id message (Some location) (Some name).

(** [SchematronValidator._parse_svrl] *)
Definition _parse_svrl (svrl : ResultTree) : list ValidationIssue :=
  match ResultTree_getroot svrl with
  | None => []
  | Some svrl_root =>
      map (svrl_issue "error" "Assertion failed")
          (Element_iter svrl_root ("{" ++ SVRL_NS ++ "}failed-assert"))
      ++ map (svrl_issue "info" "Report")
          (Element_iter svrl_root ("{" ++ SVRL_NS ++ "}successful-report"))
  end.

Definition syntax_issue (e : XMLSyntaxError) : ValidationIssue :=
  XSDValidator.syntax_issue name e.

Definition no_rules_result : ValidationResult :=
  mkResult name validator_type true
    [mkIssue INFO "SCH_NO_RULES"
       "No Schematron rules found for this document type." None (Some name)]
    None (Some elapsed_ms).

(** The [# Get XSLT transformer] block of [validate]. *)
Definition get_xslt (schematron profile : option string) (doc : Element)
    (_xslt_cache : gmap string XSLT) : option XSLT * gmap string XSLT :=
  if truthy schematron then _load_xslt (default "" schematron) _xslt_cache
  else if truthy profile then _load_profile (default "" profile) _xslt_cache
  else _detect_profile doc _xslt_cache.

(** [SchematronValidator.validate] *)
Definition validate (xml_bytes : bytes) (schematron profile : option string)
    (_xslt_cache : gmap string XSLT)
  : outcome ValidationResult * gmap string XSLT :=
  match ET_fromstring xml_bytes with
  | inl e =>
      (Returned (mkResult name validator_type false [syntax_issue e]
                   None (Some elapsed_ms)),
       _xslt_cache)
  | inr doc =>
      let '(xslt, cache1) := get_xslt schematron profile doc _xslt_cache in
      match xslt with
      | None => (Returned no_rules_result, cache1)
      | Some xslt =>
          match XSLT_call xslt doc [] with
          | ApplyOk svrl_result =>
              let issues := _parse_svrl svrl_result in
              let success :=
                negb (existsb (fun i => Severity_eqb (severity i) ERROR) issues) in
              (Returned (mkResult name validator_type success issues
                           None (Some elapsed_ms)),
               cache1)
          | XSLTApplyError e =>
              (Returned (mkResult name validator_type false
                           [mkIssue ERROR "SCH_TRANSFORM_ERROR"
                              ("Schematron transform error: " ++ e) None (Some name)]
                           None (Some elapsed_ms)),
               cache1)
          | ApplyRaised e => (Raised e, cache1)
          end
      end
  end.

End SchematronValidator.
End SchematronValidator.

(** ** helger.py *)

Module HelgerValidator.
Section HelgerValidator.
Context `{Python} `{Zeep}.

Definition name : string := "Helger WSDVS".
Definition validator_type : string := "helger".
Definition description : string :=
  "External validation via Helger's WSDVS SOAP service. Supports many standards.".
Definition is_local : bool := false.
Definition supported_formats : list string := ["ubl"; "cii"; "zugferd"; "facturx"].

(** Common VESIDs. *)
Definition VESIDS : pydict string :=
  [ ("peppol_invoice", "eu.peppol.bis3:invoice:2025.5");
    ("peppol_creditnote", "eu.peppol.bis3:creditnote:2025.5");
    ("en16931_ubl", "eu.cen.en16931:ubl:1.3.15");
    ("en16931_cii", "eu.cen.en16931:cii:1.3.15");
    ("zugferd_en16931", "de.zugferd:en16931:2.3.3");
    ("zugferd_extended", "de.zugferd:extended:2.3.3");
    ("facturx_en16931", "fr.factur-x:en16931:1.0.7-3");
    ("xrechnung_ubl", "de.xrechnung:ubl-invoice:3.0.2") ].

(** [HelgerValidator._parse_issue] *)
Definition _parse_issue (item : ReportItem) : option ValidationIssue :=
  match item with
  | mkReportItem errorLevel mostSevereErrorLevel error_id text location _ =>
      let level := or_else errorLevel mostSevereErrorLevel in
      if negb (truthy level) then None
      else
        let severity :=
          if String.eqb (default "" level) "ERROR" then ERROR
          else if String.eqb (default "" level) "WARN" then WARNING
          else INFO in
        Some (mkIssue severity error_id text
                (if truthy (Some location) then Some location else None)
                (Some name))
  end.

(** The loop over [result_dict.get("Result", [])]: nested items (one level)
    replace their parent. *)
Definition flatten (items : list ReportItem) : list ValidationIssue :=
  flat_map
    (fun item =>
       match item with
       | mkReportItem _ _ _ _ _ ((_ :: _) as subs) => omap _parse_issue subs
       | mkReportItem _ _ _ _ _ [] => option_list (_parse_issue item)
       end)
    items.

(** [HelgerValidator.validate].  The pacing sleep before the call is not
    modelled: it changes no value. *)
Definition validate (xml_bytes : bytes) (vesid : option string)
  : outcome ValidationResult :=
  let vesid :=
    if negb (truthy vesid) then default "" (dict_get VESIDS "peppol_invoice")
    else default "" vesid in
  match decode_utf8 xml_bytes with
  | Raised e => Raised e
  | Returned xml_string =>
      match service_validate xml_string vesid "en" with
      | Raised e =>
          Returned (mkResult name validator_type false
                      [mkIssue ERROR "HELGER_CONNECTION"
                         ("Validation service error: " ++ e) None (Some name)]
                      None (Some elapsed_ms))
      | Returned result_dict =>
          let issues := flatten (Result result_dict) in
          let errors := filter (fun i => Severity_eqb (severity i) ERROR = true) issues in
          Returned (mkResult name validator_type (Nat.eqb (length errors) 0) issues
                      (Some result_dict) (Some elapsed_ms))
      end
  end.

End HelgerValidator.
End HelgerValidator.

(** ** The registry's built-in validators *)

Section Defaults.
Context `{Python} `{Lxml} `{Zeep}.

(** The class-level caches of the two local validators. *)
Record Caches : Type := mkCaches {
  _schema_cache : gmap string XMLSchema;
  _xslt_cache : gmap string XSLT
}.

Definition helger : BaseValidator Caches :=
  mkValidator Caches
    HelgerValidator.name HelgerValidator.validator_type HelgerValidator.description
    HelgerValidator.is_local HelgerValidator.supported_formats
    (fun xml_bytes kwargs w => (HelgerValidator.validate xml_bytes (kw_vesid kwargs), w)).

Definition xsd : BaseValidator Caches :=
  mkValidator Caches
    XSDValidator.name XSDValidator.validator_type XSDValidator.description
    XSDValidator.is_local XSDValidator.supported_formats
    (fun xml_bytes kwargs w =>
       let '(o, c) :=
         XSDValidator.validate xml_bytes (kw_schema_path kwargs)
           (default true (kw_auto_detect kwargs)) (_schema_cache w) in
       (o, mkCaches c (_xslt_cache w))).

Definition schematron : BaseValidator Caches :=
  mkValidator Caches
    SchematronValidator.name SchematronValidator.validator_type
    SchematronValidator.description
    SchematronValidator.is_local SchematronValidator.supported_formats
    (fun xml_bytes kwargs w =>
       let '(o, c) :=
         SchematronValidator.validate xml_bytes (kw_schematron kwargs)
           (kw_profile kwargs) (_xslt_cache w) in
       (o, mkCaches (_schema_cache w) c)).

(** [ValidatorRegistry._register_defaults], from the empty registry. *)
Definition _register_defaults : ValidatorRegistry Caches :=
  register (register (register [] helger) xsd) schematron.

End Defaults.

(** ** Regular expressions, as [re] matches them

    The version detector is one [re.search] with [re.IGNORECASE] over
    decoded text.  The pattern is kept as data and run by a backtracking
    matcher with the priorities of [re]: alternatives left to right,
    repetitions greedy, the leftmost start first. *)

Local Open Scope N_scope.

Definition text_of (s : string) : text := map N_of_ascii (String.list_ascii_of_string s).

(** The code point of an ASCII character. *)
Definition chr (c : Ascii.ascii) : N := N_of_ascii c.

Definition in_range (lo hi c : N) : bool := (lo <=? c) && (c <=? hi).

(** [\s] on [str]: the Unicode whitespace characters. *)
Definition re_space (c : N) : bool :=
  in_range 0x09 0x0d c || in_range 0x1c 0x20 c || (c =? 0x85) || (c =? 0xa0)
  || (c =? 0x1680) || in_range 0x2000 0x200a c || (c =? 0x2028) || (c =? 0x2029)
  || (c =? 0x202f) || (c =? 0x205f) || (c =? 0x3000).

(** First code points of the blocks of ten decimal digits (category Nd,
    Unicode 14, the database of CPython 3.11). *)
Definition digit_blocks : list N :=
  [ 0x30; 0x660; 0x6f0; 0x7c0; 0x966; 0x9e6; 0xa66; 0xae6; 0xb66; 0xbe6; 0xc66;
    0xce6; 0xd66; 0xde6; 0xe50; 0xed0; 0xf20; 0x1040; 0x1090; 0x17e0; 0x1810;
    0x1946; 0x19d0; 0x1a80; 0x1a90; 0x1b50; 0x1bb0; 0x1c40; 0x1c50; 0xa620;
    0xa8d0; 0xa900; 0xa9d0; 0xa9f0; 0xaa50; 0xabf0; 0xff10; 0x104a0; 0x10d30;
    0x11066; 0x110f0; 0x11136; 0x111d0; 0x112f0; 0x11450; 0x114d0; 0x11650;
    0x116c0; 0x11730; 0x118e0; 0x11950; 0x11c50; 0x11d50; 0x11da0; 0x16a60;
    0x16ac0; 0x16b50; 0x1e140; 0x1e2f0; 0x1e950; 0x1fbf0 ].

(** [\d] on [str]: any Unicode decimal digit (the mathematical digits
    U+1D7CE..U+1D7FF are five blocks in a row). *)
Definition re_digit (c : N) : bool :=
  existsb (fun lo => in_range lo (lo + 9) c) digit_blocks || in_range 0x1d7ce 0x1d7ff c.

(** [[^>]] *)
Definition not_gt (c : N) : bool := negb (c =? chr ">").

(** The character class of the two quotation marks, double and single. *)
Definition quote (c : N) : bool := (c =? 0x22) || (c =? 0x27).

Definition is_upper (c : N) : bool := in_range 0x41 0x5a c.
Definition is_lower (c : N) : bool := in_range 0x61 0x7a c.
Definition to_lower (c : N) : N := if is_upper c then c + 32 else c.

(** A pattern character [p] against a text character [t] under
    [re.IGNORECASE]: an ASCII letter matches both its cases, and [i], [s],
    [k] also match the characters that case-fold onto them (dotted and
    dotless I, long s, the Kelvin sign). *)
Definition ignorecase_eq (p t : N) : bool :=
  (t =? p)
  || ((is_upper p || is_lower p)
      && ((to_lower t =? to_lower p) && (is_upper t || is_lower t)
          || (to_lower p =? chr "i") && ((t =? 0x130) || (t =? 0x131))
          || (to_lower p =? chr "s") && (t =? 0x17f)
          || (to_lower p =? chr "k") && (t =? 0x212a))).

Inductive regex : Type :=
| Eps
| Lit (c : N)
| Class (p : N -> bool)
| Seq (r1 r2 : regex)
| Alt (r1 r2 : regex)
| Star (p : N -> bool)
| Plus (p : N -> bool)
| Group (r : regex).

Definition Cat (rs : list regex) : regex := foldr Seq Eps rs.

(** A literal word. *)
Definition lit (w : string) : regex := Cat (map Lit (text_of w)).

(** A greedy run of characters of class [p], then [k] on what is left:
    the longest run first, one character less on each failure. *)
Fixpoint greedy {R} (p : N -> bool) (s : text) (k : text -> option R) : option R :=
  match s with
  | c :: s' =>
      if p c then
        match greedy p s' k with
        | Some r => Some r
        | None => k s
        end
      else k s
  | [] => k []
  end.

(** [rmatch r s g k]: match [r] at the head of [s], then continue with [k]
    on the rest; [g] is the text of group 1 so far. *)
Fixpoint rmatch {R} (r : regex) (s : text) (g : text)
    (k : text -> text -> option R) : option R :=
  match r with
  | Eps => k s g
  | Lit c =>
      match s with
      | t :: s' => if ignorecase_eq c t then k s' g else None
      | [] => None
      end
  | Class p =>
      match s with
      | t :: s' => if p t then k s' g else None
      | [] => None
      end
  | Seq r1 r2 => rmatch r1 s g (fun s1 g1 => rmatch r2 s1 g1 k)
  | Alt r1 r2 =>
      match rmatch r1 s g k with
      | Some x => Some x
      | None => rmatch r2 s g k
      end
  | Star p => greedy p s (fun s1 => k s1 g)
  | Plus p =>
      match s with
      | t :: s' => if p t then greedy p s' (fun s1 => k s1 g) else None
      | [] => None
      end
  | Group r1 =>
      rmatch r1 s g (fun s1 _ => k s1 (take (length s - length s1) s))
  end.

(** A match at the very start of [s]: [Some] of group 1. *)
Definition match_here (r : regex) (s : text) : option text :=
  rmatch r s [] (fun _ g => Some g).

(** [re.search(r, s)], then [.group(1)]. *)
Fixpoint re_search (r : regex) (s : text) : option text :=
  match match_here r s with
  | Some g => Some g
  | None =>
      match s with
      | [] => None
      | _ :: s' => re_search r s'
      end
  end.

Local Close Scope N_scope.

(** ** The XSLT processors *)

(** [saxonche], the optional processor for XSLT 2.0 and 3.0. *)
Class Saxon : Type := {
  (** whether [from saxonche import PySaxonProcessor] succeeded *)
  SAXON_AVAILABLE : bool;
  SaxonProcessor : Type;
  Xslt30Processor : Type;
  XdmNode : Type;
  Executable : Type;
  (** [PySaxonProcessor(license=False)] *)
  PySaxonProcessor : SaxonProcessor;
  new_xslt30_processor : SaxonProcessor -> outcome Xslt30Processor;
  parse_xml : SaxonProcessor -> string -> outcome XdmNode;
  compile_stylesheet : Xslt30Processor -> string -> outcome Executable;
  (** [executable.set_parameter(key, proc.make_string_value(str(value)))] *)
  set_parameter : SaxonProcessor -> Executable -> string -> string -> outcome Executable;
  transform_to_string : Executable -> XdmNode -> outcome (option string);
  (** [xslt_proc.error_message], [None] without that attribute *)
  error_message : Xslt30Processor -> option string
}.

(** Sequencing of calls that may raise. *)
#[global] Instance outcome_ret : MRet outcome := fun _ a => Returned a.
#[global] Instance outcome_bind : MBind outcome := fun _ _ f m =>
  match m with
  | Returned a => f a
  | Raised e => Raised e
  end.

(** ** transformer.py *)

Inductive XSLTVersion : Type := V1_0 | V2_0 | V3_0.

Definition XSLTVersion_value (v : XSLTVersion) : string :=
  match v with
  | V1_0 => "1.0"
  | V2_0 => "2.0"
  | V3_0 => "3.0"
  end.

Record TransformResult : Type := mkTransformResult {
  tr_success : bool;
  output : option bytes;
  error : option string;
  xslt_version : option XSLTVersion;
  processor : option string
}.

(** The pattern of the search,
    [<xsl:(?:stylesheet|transform)[^>]+version\s*=\s*Q(\d+\.\d+)Q],
    where [Q] is the class of the two quotation marks; its second half is
    the version attribute. *)
Definition VERSION_ATTR_RE : regex :=
  Cat [ lit "version"; Star re_space; Lit (chr "="); Star re_space; Class quote;
        Group (Cat [Plus re_digit; Lit (chr "."); Plus re_digit]); Class quote ].

Definition XSLT_VERSION_RE : regex :=
  Cat [ lit "<xsl:"; Alt (lit "stylesheet") (lit "transform"); Plus not_gt;
        VERSION_ATTR_RE ].

(** [version.startswith(c)] for a one-character [c]. *)
Definition startswith (version : text) (c : Ascii.ascii) : bool :=
  match version with
  | x :: _ => N.eqb x (chr c)
  | [] => false
  end.

(** The classification of the captured version number. *)
Definition classify (version_match : option text) : XSLTVersion :=
  match version_match with
  | Some version =>
      if startswith version "3" then V3_0
      else if startswith version "2" then V2_0
      else V1_0
  | None => V1_0
  end.

Module TransformerService.
Section TransformerService.
Context `{Python} `{Lxml} `{Saxon}.

(** The two class attributes that change: the cache of compiled stylesheets
    and the Saxon singleton. *)
Record State : Type := mkState {
  _lxml_cache : gmap string XSLT;
  _saxon_processor : option SaxonProcessor
}.

(** [TransformerService.get_saxon_processor] *)
Definition get_saxon_processor (st : State) : option SaxonProcessor * State :=
  if negb SAXON_AVAILABLE then (None, st)
  else
    match _saxon_processor st with
    | None => (Some PySaxonProcessor, mkState (_lxml_cache st) (Some PySaxonProcessor))
    | Some proc => (Some proc, st)
    end.

(** [TransformerService.detect_xslt_version] *)
Definition detect_xslt_version (xslt_content : bytes) : XSLTVersion :=
  let content_str := decode_utf8_ignore xslt_content in
  classify (re_search XSLT_VERSION_RE content_str).

Definition lxml_failure (msg : string) : TransformResult :=
  mkTransformResult false None (Some msg) (Some V1_0) (Some "lxml").

(** [TransformerService._transform_lxml].  [parameters] holds [str(v)] for
    each value. *)
Definition _transform_lxml (xml_bytes xslt_bytes : bytes)
    (parameters : option (list (string * string))) (st : State)
  : outcome TransformResult * State :=
  let cache_key := md5_hexdigest xslt_bytes in
  let compiled : TransformResult + (XSLT * State) :=
    match _lxml_cache st !! cache_key with
    | Some transform => inr (transform, st)
    | None =>
        match ET_fromstring xslt_bytes with
        | inl e => inl (lxml_failure ("XML parse error: " ++ xse_str e))
        | inr xslt_doc =>
            match ET_XSLT xslt_doc with
            | inl e => inl (lxml_failure ("XSLT parse error: " ++ e))
            | inr transform =>
                inr (transform,
                     mkState (<[cache_key := transform]> (_lxml_cache st))
                             (_saxon_processor st))
            end
        end
    end in
  match compiled with
  | inl failure => (Returned failure, st)
  | inr (transform, st1) =>
      match ET_fromstring xml_bytes with
      | inl e => (Returned (lxml_failure ("XML parse error: " ++ xse_str e)), st1)
      | inr xml_doc =>
          let applied :=
            match parameters with
            | Some ((_ :: _) as str_params) => XSLT_call transform xml_doc str_params
            | _ => XSLT_call transform xml_doc []
            end in
          match applied with
          | ApplyOk result =>
              (Returned (mkTransformResult true (ET_tostring result) None
                           (Some V1_0) (Some "lxml")),
               st1)
          | XSLTApplyError e =>
              (Returned (lxml_failure ("XSLT transform error: " ++ e)), st1)
          | ApplyRaised e => (Raised e, st1)
          end
      end
  end.

(** The [for key, value in parameters.items()] loop. *)
Fixpoint set_parameters (proc : SaxonProcessor) (executable : Executable)
    (parameters : list (string * string)) : outcome Executable :=
  match parameters with
  | [] => Returned executable
  | (key, value) :: rest =>
      executable1 ← set_parameter proc executable key value;
      set_parameters proc executable1 rest
  end.

(** The body of the [try] of [_transform_saxon]. *)
Definition saxon_run (proc : SaxonProcessor) (xml_bytes xslt_bytes : bytes)
    (version : XSLTVersion) (parameters : option (list (string * string)))
  : outcome TransformResult :=
  xslt_proc ← new_xslt30_processor proc;
  xml_text ← decode_utf8 xml_bytes;
  xml_node ← parse_xml proc xml_text;
  stylesheet_text ← decode_utf8 xslt_bytes;
  executable ← compile_stylesheet xslt_proc stylesheet_text;
  executable1 ← set_parameters proc executable (default [] parameters);
  result ← transform_to_string executable1 xml_node;
  match result with
  | None =>
      let errors := default "Unknown error" (error_message xslt_proc) in
      Returned (mkTransformResult false None
                  (Some ("Saxon transform failed: " ++ errors))
                  (Some version) (Some "saxon"))
  | Some result =>
      Returned (mkTransformResult true (Some (encode_utf8 result)) None
                  (Some version) (Some "saxon"))
  end.

(** [TransformerService._transform_saxon] *)
Definition _transform_saxon (xml_bytes xslt_bytes : bytes) (version : XSLTVersion)
    (parameters : option (list (string * string))) (st : State)
  : outcome TransformResult * State :=
  match get_saxon_processor st with
  | (None, st1) =>
      (Returned (mkTransformResult false None (Some "Saxon processor not available")
                   (Some version) None),
       st1)
  | (Some proc, st1) =>
      match saxon_run proc xml_bytes xslt_bytes version parameters with
      | Returned r => (Returned r, st1)
      | Raised e =>
          (Returned (mkTransformResult false None (Some ("Saxon error: " ++ e))
                       (Some version) (Some "saxon")),
           st1)
      end
  end.

(** [force_version or self.detect_xslt_version(xslt_bytes)] *)
Definition effective_version (force_version : option XSLTVersion) (xslt_bytes : bytes)
  : XSLTVersion :=
  match force_version with
  | Some v => v
  | None => detect_xslt_version xslt_bytes
  end.

(** [TransformerService.transform] *)
Definition transform (xml_bytes xslt_bytes : bytes)
    (force_version : option XSLTVersion)
    (parameters : option (list (string * string))) (st : State)
  : outcome TransformResult * State :=
  let version := effective_version force_version xslt_bytes in
  match version with
  | V1_0 => _transform_lxml xml_bytes xslt_bytes parameters st
  | _ =>
      if negb SAXON_AVAILABLE then
        (Returned (mkTransformResult false None
                     (Some ("XSLT " ++ XSLTVersion_value version
                            ++ " requires saxonche. Install with: pip install saxonche"))
                     (Some version) None),
         st)
      else _transform_saxon xml_bytes xslt_bytes version parameters st
  end.

End TransformerService.
End TransformerService.

(** ** Further operations of the services *)

(** The mapper directories behind [transform_with_mapper]. *)
Class MapperStore : Type := {
  (** [self.mappers_dir] *)
  mappers_dir : string;
  (** [path.read_bytes()] *)
  Path_read_bytes : string -> outcome bytes
}.

Section RegistryOperations.
Context `{Python} {World : Type}.

(** What [BaseValidator.get_info] returns. *)
Record ValidatorInfo : Type := mkInfo {
  info_name : string;
  info_type : string;
  info_description : string;
  info_is_local : bool;
  info_supported_formats : list string
}.

(** [BaseValidator.get_info] *)
Definition get_info (v : BaseValidator World) : ValidatorInfo :=
  mkInfo (v_name v) (v_validator_type v) (v_description v) (v_is_local v)
    (v_supported_formats v).

(** [ValidatorRegistry.get] *)
Definition get (reg : ValidatorRegistry World) (validator_type : string)
  : option (BaseValidator World) :=
  dict_get reg validator_type.

(** [ValidatorRegistry.list_validators] *)
Definition list_validators (reg : ValidatorRegistry World) : list ValidatorInfo :=
  map get_info (dict_values reg).

(** An issue as [ValidationResult.to_dict] writes it. *)
Record IssueDict : Type := mkIssueDict {
  d_severity : string;
  d_rule_id : string;
  d_message : string;
  d_location : option string;
  d_source : option string
}.

(** What [ValidationResult.to_dict] returns. *)
Record ResultDict : Type := mkResultDict {
  d_validator_name : string;
  d_validator_type : string;
  d_success : bool;
  error_count : nat;
  warning_count : nat;
  d_issues : list IssueDict;
  d_execution_time_ms : option Time
}.

(** [ValidationResult.to_dict] *)
Definition ValidationResult_to_dict (r : ValidationResult) : ResultDict :=
  mkResultDict (validator_name r) (validator_type r) (success r)
    (length (errors r)) (length (warnings r))
    (map (fun i => mkIssueDict (Severity_value (severity i)) (rule_id i) (message i)
                     (location i) (source i))
         (issues r))
    (execution_time_ms r).

(** An entry of [issues_by_rule]. *)
Record RuleEntry : Type := mkRuleEntry {
  entry_validator : string;
  entry_severity : string;
  entry_message : string;
  entry_location : option string
}.

(** The body of the inner loop of [_group_issues_by_rule]. *)
Definition group_issue (result : ValidationResult) (rule_map : pydict (list RuleEntry))
    (issue : ValidationIssue) : pydict (list RuleEntry) :=
  let rule_map1 :=
    match dict_get rule_map (rule_id issue) with
    | None => dict_set rule_map (rule_id issue) []
    | Some _ => rule_map
    end in
  dict_set rule_map1 (rule_id issue)
    (default [] (dict_get rule_map1 (rule_id issue))
     ++ [mkRuleEntry (validator_name result) (Severity_value (severity issue))
           (message issue) (location issue)])%list.

(** [MultiValidationResult._group_issues_by_rule] *)
Definition _group_issues_by_rule (rs : list ValidationResult) : pydict (list RuleEntry) :=
  foldl (fun rule_map result => foldl (group_issue result) rule_map (issues result)) [] rs.

(** What [MultiValidationResult.to_dict] returns. *)
Record MultiDict : Type := mkMultiDict {
  d_overall_success : bool;
  d_total_errors : nat;
  d_total_warnings : nat;
  validator_count : nat;
  d_results : list ResultDict;
  issues_by_rule : pydict (list RuleEntry)
}.

(** [MultiValidationResult.to_dict] *)
Definition MultiValidationResult_to_dict (m : MultiValidationResult) : MultiDict :=
  mkMultiDict (overall_success m) (total_errors m) (total_warnings m)
    (length (results m)) (map ValidationResult_to_dict (results m))
    (_group_issues_by_rule (results m)).

End RegistryOperations.

Section SchematronOperations.
Context `{Python} `{Lxml}.

(** An entry of [list_available_profiles]. *)
Record ProfileInfo : Type := mkProfileInfo {
  profile_name : string;
  profile_filename : string;
  profile_available : bool
}.

(** [SchematronValidator.list_available_profiles] *)
Definition list_available_profiles : list ProfileInfo :=
  map (fun kv => mkProfileInfo kv.1 kv.2
                   (Path_exists (Path_join SCHEMATRON_DIR kv.2)))
      SchematronValidator.SCHEMATRON_MAP.

End SchematronOperations.

Section MapperOperations.
Context `{Python} `{Lxml} `{Saxon} `{MapperStore}.
Import TransformerService.

(** [self.user_mappers_dir] *)
Definition user_mappers_dir : string := Path_join mappers_dir "user_uploads".

(** [TransformerService.transform_with_mapper] *)
Definition transform_with_mapper (xml_bytes : bytes) (mapper_name : string)
    (parameters : option (list (string * string))) (st : State)
  : outcome TransformResult * State :=
  let not_found :=
    (Returned (mkTransformResult false None (Some ("Mapper not found: " ++ mapper_name))
                 None None), st) in
  let run mapper_path :=
    match Path_read_bytes mapper_path with
    | Raised e => (Raised e, st)
    | Returned xslt_bytes => transform xml_bytes xslt_bytes None parameters st
    end in
  if Path_exists (Path_join mappers_dir mapper_name)
  then run (Path_join mappers_dir mapper_name)
  else if Path_exists (Path_join user_mappers_dir mapper_name)
  then run (Path_join user_mappers_dir mapper_name)
  else not_found.

(** [TransformerService.is_saxon_available] *)
Definition is_saxon_available : bool := SAXON_AVAILABLE.

End MapperOperations.

(** ** Vocabulary of the statements *)

Section RegistryVocabulary.
Context `{Python} {World : Type}.
Implicit Types (v : BaseValidator World).

(** The entry a validator contributes to the batch, from what its call
    produced. *)
Definition result_of v (o : outcome ValidationResult) : ValidationResult :=
  match o with
  | Returned r => r
  | Raised e =>
      if v_is_local v then error_result "Unknown" "error" e None
      else error_result (v_name v) (v_validator_type v) e (Some (v_name v))
  end.

(** The order in which a batch runs its validators: the local ones, then
    the external ones, each group in selection order. *)
Definition run_order (vs : list (BaseValidator World)) : list (BaseValidator World) :=
  filter (fun v => v_is_local v = true) vs ++ filter (fun v => v_is_local v = false) vs.

End RegistryVocabulary.

Section ValidatorVocabulary.
Context `{Python} `{Lxml}.

Definition is_error (i : ValidationIssue) : bool := Severity_eqb (severity i) ERROR.

(** The schema cache agrees with the disk: what it holds under a path is
    what the path loads. *)
Definition cache_coherent (_schema_cache : gmap string XMLSchema) : Prop :=
  ∀ p schema, _schema_cache !! p = Some schema →
              XSDValidator.load_from_disk p = Some schema.

End ValidatorVocabulary.

Section TransformerVocabulary.
Context `{Python} `{Lxml} `{Saxon}.
Import TransformerService.

(** Every cached entry is the compilation of any stylesheet with its key. *)
Definition lxml_cache_coherent (st : State) : Prop :=
  ∀ xslt t, _lxml_cache st !! md5_hexdigest xslt = Some t →
            ∃ xslt_doc, ET_fromstring xslt = inr xslt_doc ∧ ET_XSLT xslt_doc = inr t.

(** What every state reached from the initial one satisfies: a coherent
    cache, and a Saxon singleton that is absent or the one processor. *)
Definition state_ok (st : State) : Prop :=
  lxml_cache_coherent st
  ∧ (_saxon_processor st = None ∨ _saxon_processor st = Some PySaxonProcessor).

End TransformerVocabulary.

Section RegexVocabulary.
Local Open Scope N_scope.
Implicit Types (s t : text) (p : N -> bool).

(** A word of the text spells the pattern word [w], letter case aside. *)
Definition ci_word (w : string) (t : text) : Prop :=
  Forall2 (fun a c => ignorecase_eq a c = true) (text_of w) t.


(** Somewhere in the text a [<] is followed by [x] or [X]. *)
Fixpoint opens_x (s : text) : bool :=
  match s with
  | [] => false
  | c :: s' =>
      (c =? chr "<")
      && match s' with
         | d :: _ => ignorecase_eq (chr "x") d
         | [] => false
         end
      || opens_x s'
  end.

(** A version attribute, [version = Q major.minor Q], and its number. *)
Inductive version_attr : text → text → Prop :=
| VersionAttr vword ws1 ws2 q1 major minor q2 :
    ci_word "version" vword →
    forallb re_space ws1 = true → forallb re_space ws2 = true →
    quote q1 = true → quote q2 = true →
    major ≠ [] → forallb re_digit major = true →
    minor ≠ [] → forallb re_digit minor = true →
    version_attr
      (vword ++ ws1 ++ chr "=" :: ws2 ++ q1 :: major ++ chr "." :: minor ++ [q2])
      (major ++ chr "." :: minor).




End RegexVocabulary.

(** ** Further vocabulary *)

Section RegistryVocabulary2.
Context `{Python} {World : Type}.

(** A registry as [register] builds it: one entry per type, each stored
    under the type of its validator. *)
Definition registry_ok (reg : ValidatorRegistry World) : Prop :=
  NoDup (map fst reg) ∧ Forall (fun kv => kv.1 = v_validator_type kv.2) reg.

(** All issues of a batch, each with the result it belongs to, in order. *)
Definition all_issues (rs : list ValidationResult) : list (ValidationResult * ValidationIssue) :=
  flat_map (fun r => map (fun i => (r, i)) (issues r)) rs.

Definition rule_entry (ri : ValidationResult * ValidationIssue) : RuleEntry :=
  mkRuleEntry (validator_name ri.1) (Severity_value (severity ri.2)) (message ri.2)
    (location ri.2).

(** The number of entries a rule map holds. *)
Definition total_entries (d : pydict (list RuleEntry)) : nat :=
  sum_list (map (fun kv => length kv.2) d).

End RegistryVocabulary2.

Section ValidatorVocabulary2.
Context `{Python} `{Lxml} `{Zeep}.

(** What an entry must say to be an entry of validator [v]. *)
Definition labelled (v : BaseValidator Caches) (r : ValidationResult) : Prop :=
  validator_name r = v_name v
  ∧ validator_type r = v_validator_type v
  ∧ Forall (fun i => source i = Some (v_name v)) (issues r).

(** The items of a report that can become issues: the nested items of an
    item that has some, the item itself otherwise. *)
Definition candidates (items : list ReportItem) : list ReportItem :=
  flat_map (fun item =>
              match item with
              | mkReportItem _ _ _ _ _ ((_ :: _) as subs) => subs
              | _ => [item]
              end) items.

(** The level of an item: its error level, or else its most severe one. *)
Definition item_level (item : ReportItem) : option string :=
  match item with
  | mkReportItem errorLevel mostSevereErrorLevel _ _ _ _ =>
      or_else errorLevel mostSevereErrorLevel
  end.

Definition is_error_level (item : ReportItem) : bool :=
  truthy (item_level item) && String.eqb (default "" (item_level item)) "ERROR".

(** The cache a sequence of calls of [XSDValidator.validate] leaves. *)
Definition after_validations (calls : list (bytes * option string * bool))
    (cache : gmap string XMLSchema) : gmap string XMLSchema :=
  foldl (fun cache '(xml, schema_path, auto_detect) =>
           (XSDValidator.validate xml schema_path auto_detect cache).2) cache calls.

End ValidatorVocabulary2.

Section TransformerVocabulary2.
Context `{Python} `{Lxml} `{Saxon}.
Import TransformerService.

(** A failure has an error and no output; a success has no error (its
    output is what the processor serialised, which can be nothing). *)
Definition result_shape (r : TransformResult) : Prop :=
  if tr_success r then error r = None
  else output r = None ∧ is_Some (error r).

(** What compiling a stylesheet gives, when it compiles. *)
Definition compile (xslt_bytes : bytes) : option XSLT :=
  match ET_fromstring xslt_bytes with
  | inr xslt_doc =>
      match ET_XSLT xslt_doc with
      | inr transform => Some transform
      | inl _ => None
      end
  | inl _ => None
  end.

(** The arguments of one call of [transform]. *)
Definition transform_call : Type :=
  bytes * bytes * option XSLTVersion * option (list (string * string)).

(** The state a sequence of calls of [transform] leaves. *)
Definition after_transforms (calls : list transform_call) (st : State) : State :=
  foldl (fun st '(xml, xslt, force_version, parameters) =>
           (transform xml xslt force_version parameters st).2) st calls.

(** The stylesheets of a sequence of calls. *)
Definition stylesheets (calls : list transform_call) : list bytes :=
  map (fun '(_, xslt, _, _) => xslt) calls.

(** Every cached entry is the compilation of one of the stylesheets [used],
    under its digest. *)
Definition cache_from (used : list bytes) (st : State) : Prop :=
  ∀ key t, _lxml_cache st !! key = Some t →
           ∃ x, x ∈ used ∧ md5_hexdigest x = key ∧ compile x = Some t.

End TransformerVocabulary2.

(** ** A small concrete environment

    An instance of every interface, on which the statements below can be
    evaluated: a parser that knows two documents, a disk that holds the
    UBL invoice schema, a remote service that cannot be reached, and no
    Saxon. *)

Definition bytes_of (s : string) : bytes := String.list_byte_of_string s.

Module Demo.

Definition INVOICE_NS : string :=
  "urn:oasis:names:specification:ubl:schema:xsd:Invoice-2".

Definition starts_with_slash (p : string) : bool :=
  match p with
  | String c _ => Ascii.eqb c "/"
  | EmptyString => false
  end.

(** The ASCII characters of a byte string (the [ascii] codec with
    [errors="ignore"], which decodes ASCII input as UTF-8 does). *)
Definition decode_ascii_ignore (b : bytes) : text :=
  filter (fun c => (c < 128)%N) (map (fun x => N_of_ascii (ascii_of_byte x)) b).

#[export] Instance python : Python := {|
  Time := nat;
  elapsed_ms := 0;
  str_lower := id;
  str_strip := id;
  decode_utf8 := fun b => Returned (String.string_of_list_byte b);
  decode_utf8_ignore := decode_ascii_ignore;
  encode_utf8 := String.list_byte_of_string;
  md5_hexdigest := String.string_of_list_byte;
  Path_is_absolute := starts_with_slash;
  Path_join := fun d n => d ++ "/" ++ n;
  Path_exists := fun p => String.eqb p "/schemas/xsd/UBL-Invoice-2.1.xsd";
  XSD_DIR := "/schemas/xsd";
  SCHEMATRON_DIR := "/schemas/schematron"
|}.

(** An element is its tag. *)
#[export] Instance lxml : Lxml := {|
  Element := string;
  XMLSchema := unit;
  XSLT := unit;
  ResultTree := unit;
  ET_fromstring := fun b =>
    let s := String.string_of_list_byte b in
    if String.eqb s "<root/>" then inr "root"
    else if String.eqb s ("<Invoice xmlns='" ++ INVOICE_NS ++ "'/>")
    then inr ("{" ++ INVOICE_NS ++ "}Invoice")
    else inl (mkXMLSyntaxError "Premature end of data in tag" (Some 1%Z));
  Element_tag := id;
  ET_parse := fun p =>
    if String.eqb p "/schemas/xsd/UBL-Invoice-2.1.xsd" then Some "schema" else None;
  ET_XMLSchema := fun _ => Some tt;
  ET_XSLT := fun _ => inl "not a stylesheet";
  XMLSchema_assertValid := fun _ doc =>
    if String.eqb doc ("{" ++ INVOICE_NS ++ "}Invoice") then Valid else DocumentInvalid;
  XMLSchema_error_log := fun _ _ =>
    [mkLogEntry "No matching global declaration available for the validation root."
       1%Z 0%Z];
  XSLT_call := fun _ _ _ => XSLTApplyError "no template";
  ET_tostring := fun _ => Some [];
  ResultTree_getroot := fun _ => None;
  Element_iter := fun _ _ => [];
  Element_get := fun _ _ => None;
  Element_find := fun _ _ => None;
  Element_text := fun _ => None
|}.

#[export] Instance zeep : Zeep := {|
  service_validate := fun _ _ _ => Raised "Connection refused"
|}.

#[export] Instance saxon : Saxon := {|
  SAXON_AVAILABLE := false;
  SaxonProcessor := unit;
  Xslt30Processor := unit;
  XdmNode := unit;
  Executable := unit;
  PySaxonProcessor := tt;
  new_xslt30_processor := fun _ => Raised "saxonche is not installed";
  parse_xml := fun _ _ => Raised "saxonche is not installed";
  compile_stylesheet := fun _ _ => Raised "saxonche is not installed";
  set_parameter := fun _ _ _ _ => Raised "saxonche is not installed";
  transform_to_string := fun _ _ => Raised "saxonche is not installed";
  error_message := fun _ => None
|}.

Definition no_kwargs : Kwargs := mkKwargs None None None None None.

Definition empty_caches : Caches := mkCaches ∅ ∅.

Definition malformed : bytes := bytes_of "<invalid><unclosed>".

(** Two validators registered under different types with one display name:
    the first reports rule [R1], the second reports nothing. *)
Definition flags_R1 : BaseValidator unit :=
  mkValidator unit "Checker" "first" "" true ["xml"]
    (fun _ _ w =>
       (Returned (mkResult "Checker" "first" false
                    [mkIssue ERROR "R1" "rule R1 failed" None (Some "Checker")]
                    None None), w)).

Definition flags_nothing : BaseValidator unit :=
  mkValidator unit "Checker" "second" "" true ["xml"]
    (fun _ _ w => (Returned (mkResult "Checker" "second" true [] None None), w)).

Definition two_checkers : ValidatorRegistry unit :=
  register (register [] flags_R1) flags_nothing.

(** The invoice of the small environment has a namespace whose schema is on
    the disk: auto-detection would validate it. *)
Definition invoice : bytes :=
  bytes_of ("<Invoice xmlns='" ++ INVOICE_NS ++ "'/>").

(** A stylesheet as they are written: an XML declaration, then the root
    tag with the namespace before and another attribute after the version. *)
Definition stylesheet_2_0 : bytes :=
  bytes_of ("<?xml version='1.0'?> <xsl:stylesheet"
            ++ " xmlns:xsl='http://www.w3.org/1999/XSL/Transform' version = '2.0'"
            ++ " id='a'><xsl:template match='/'/></xsl:stylesheet>").

End Demo.

(** More of the small environment: a validator that raises, and registries
    with it and with the remote validator alone. *)
Module Demo2.
Import Demo.

Definition raises : BaseValidator unit :=
  mkValidator unit "Remote" "remote" "" false ["xml"]
    (fun _ _ w => (Raised "timed out", w)).

Definition with_raiser : ValidatorRegistry unit :=
  register (register [] flags_nothing) raises.

Definition remote_only : ValidatorRegistry Caches := register [] helger.

End Demo2.

(** A second environment, in which stylesheets compile.  The digest keeps
    the first sixteen bytes only, so different stylesheets can share it; an
    element is its text and every text that opens with [<] parses; any
    text that opens with [<xsl:] compiles; the result tree of a stylesheet
    is the document, except that the stylesheet [no_output] produces a tree
    without a root, which has no serialisation; Saxon is installed. *)
Module Workshop.

Definition opens_tag (s : string) : bool :=
  match s with
  | String c _ => Ascii.eqb c "<"
  | EmptyString => false
  end.

Definition document : bytes := bytes_of "<root/>".

Definition copy_1_0 : bytes := bytes_of "<xsl:transform version='1.0' id='copy'/>".

Definition no_output : bytes := bytes_of "<xsl:stylesheet version='1.0' id='none'/>".

Definition copy_2_0 : bytes := bytes_of "<xsl:stylesheet version='2.0' id='copy'/>".

#[export] Instance python : Python := {|
  Time := nat;
  elapsed_ms := 0;
  str_lower := id;
  str_strip := id;
  decode_utf8 := fun b => Returned (String.string_of_list_byte b);
  decode_utf8_ignore := Demo.decode_ascii_ignore;
  encode_utf8 := String.list_byte_of_string;
  md5_hexdigest := fun b => String.string_of_list_byte (take 16 b);
  Path_is_absolute := Demo.starts_with_slash;
  Path_join := fun d n => d ++ "/" ++ n;
  Path_exists := fun _ => false;
  XSD_DIR := "/schemas/xsd";
  SCHEMATRON_DIR := "/schemas/schematron"
|}.

#[export] Instance lxml : Lxml := {|
  Element := string;
  XMLSchema := unit;
  XSLT := string;
  ResultTree := string;
  ET_fromstring := fun b =>
    let s := String.string_of_list_byte b in
    if opens_tag s then inr s
    else inl (mkXMLSyntaxError "Start tag expected, '<' not found" (Some 1%Z));
  Element_tag := id;
  ET_parse := fun _ => None;
  ET_XMLSchema := fun _ => Some tt;
  ET_XSLT := fun doc =>
    if String.prefix "<xsl:" doc then inr doc else inl "not a stylesheet";
  XMLSchema_assertValid := fun _ _ => Valid;
  XMLSchema_error_log := fun _ _ => [];
  XSLT_call := fun t doc _ =>
    ApplyOk (if String.eqb t (String.string_of_list_byte no_output) then "" else doc);
  ET_tostring := fun r => if String.eqb r "" then None else Some (bytes_of r);
  ResultTree_getroot := fun _ => None;
  Element_iter := fun _ _ => [];
  Element_get := fun _ _ => None;
  Element_find := fun _ _ => None;
  Element_text := fun _ => None
|}.

#[export] Instance saxon : Saxon := {|
  SAXON_AVAILABLE := true;
  SaxonProcessor := unit;
  Xslt30Processor := unit;
  XdmNode := string;
  Executable := unit;
  PySaxonProcessor := tt;
  new_xslt30_processor := fun _ => Returned tt;
  parse_xml := fun _ xml_text => Returned xml_text;
  compile_stylesheet := fun _ _ => Returned tt;
  set_parameter := fun _ executable _ _ => Returned executable;
  transform_to_string := fun _ xml_node => Returned (Some xml_node);
  error_message := fun _ => None
|}.

(** The calls made before the one that is examined. *)
Definition earlier_calls : list transform_call :=
  [ (document, copy_1_0, None, None);
    (document, no_output, Some V1_0, None);
    (document, copy_2_0, None, None);
    (bytes_of "not a document", copy_1_0, None, None) ].

End Workshop.

(** * Properties *)

Local Open Scope list_scope.

(** ** Dictionaries and sorting *)

#[global] Instance str_le_total : Total str_le.
Proof. intros a b. unfold str_le. apply String.leb_total. Qed.

Lemma sorted_Sorted (s : gset string) : Sorted str_le (sorted s).
Proof. apply (Sorted_merge_sort str_le). Qed.

Lemma sorted_Permutation (s : gset string) : sorted s ≡ₚ elements s.
Proof. apply merge_sort_Permutation. Qed.

Lemma sorted_NoDup (s : gset string) : NoDup (sorted s).
Proof. rewrite sorted_Permutation. apply NoDup_elements. Qed.

Lemma elem_of_sorted (s : gset string) x : x ∈ sorted s ↔ x ∈ s.
Proof. rewrite sorted_Permutation. apply elem_of_elements. Qed.

(** ** The registry *)

Section RegistryFacts.
Context `{Python} {World : Type}.
Implicit Types (v : BaseValidator World) (w : World) (r : ValidationResult).

Lemma gather_length (vs : list (BaseValidator World)) xml kw w :
  length (gather vs xml kw w).1 = length vs.
Proof.
  revert w. induction vs as [|v vs IH]; intros w; simpl; [done|].
  destruct (v_validate v xml kw w) as [o w1].
  specialize (IH w1). destruct (gather vs xml kw w1) as [os w2]. simpl in *.
  by rewrite IH.
Qed.

Lemma gather_app (l1 l2 : list (BaseValidator World)) xml kw w :
  gather (l1 ++ l2) xml kw w =
    ((gather l1 xml kw w).1 ++ (gather l2 xml kw (gather l1 xml kw w).2).1,
     (gather l2 xml kw (gather l1 xml kw w).2).2).
Proof.
  revert w. induction l1 as [|v l1 IH]; intros w; simpl.
  - by destruct (gather l2 xml kw w).
  - destruct (v_validate v xml kw w) as [o w1]. rewrite IH.
    destruct (gather l1 xml kw w1) as [os w2]. simpl.
    by destruct (gather l2 xml kw w2).
Qed.

Lemma collect_local_spec (local : list (BaseValidator World)) os acc :
  Forall (fun v => v_is_local v = true) local →
  length os = length local →
  collect_local os acc = acc ++ zip_with result_of local os.
Proof.
  intros Hloc. revert os acc.
  induction Hloc as [|v local Hv _ IH]; intros [|o os] acc Hlen; simplify_eq/=.
  - by rewrite app_nil_r.
  - destruct o as [r|e]; simpl; rewrite ?Hv, (IH os) by done;
      by rewrite <- app_assoc.
Qed.

Lemma run_external_spec (external : list (BaseValidator World)) xml kw acc w :
  Forall (fun v => v_is_local v = false) external →
  run_external external xml kw acc w =
    (acc ++ zip_with result_of external (gather external xml kw w).1,
     (gather external xml kw w).2).
Proof.
  intros Hext. revert acc w.
  induction Hext as [|v external Hv _ IH]; intros acc w; simpl.
  - by rewrite app_nil_r.
  - destruct (v_validate v xml kw w) as [[r|e] w1]; rewrite IH;
      destruct (gather external xml kw w1) as [os w2]; simpl;
      rewrite ?Hv, <- app_assoc; done.
Qed.

Lemma filter_local_length (vs : list (BaseValidator World)) :
  length (filter (fun v => v_is_local v = true) vs)
  + length (filter (fun v => v_is_local v = false) vs) = length vs.
Proof.
  induction vs as [|v vs IH]; [done|].
  rewrite !filter_cons. destruct (v_is_local v) eqn:Hv;
    repeat case_decide; try done; simpl; lia.
Qed.

Lemma Forall_filter_local (vs : list (BaseValidator World)) b :
  Forall (fun v => v_is_local v = b) (filter (fun v => v_is_local v = b) vs).
Proof. apply Forall_forall. intros v Hv. by apply list_elem_of_filter in Hv as [? _]. Qed.

Lemma run_order_length (vs : list (BaseValidator World)) :
  length (run_order vs) = length vs.
Proof. unfold run_order. rewrite length_app. apply filter_local_length. Qed.

(** The batch is the sequential run of the resolved validators in run
    order, each outcome turned into one entry. *)
Lemma validate_results reg xml sel kw w :
  results (validate reg xml sel kw w).1 =
    zip_with result_of (run_order (resolve reg sel))
      (gather (run_order (resolve reg sel)) xml kw w).1
  ∧ (validate reg xml sel kw w).2 = (gather (run_order (resolve reg sel)) xml kw w).2.
Proof.
  unfold validate. destruct (resolve reg sel) as [|v0 vs0] eqn:Hres; [done|].
  set (vs := v0 :: vs0). unfold run_order.
  set (local := filter (fun v => v_is_local v = true) vs).
  set (external := filter (fun v => v_is_local v = false) vs).
  rewrite gather_app.
  pose proof (gather_length local xml kw w) as Hlen.
  destruct (gather local xml kw w) as [os w1]. simpl in *.
  rewrite (collect_local_spec local) by (done || apply Forall_filter_local).
  rewrite run_external_spec by apply Forall_filter_local.
  simpl. by rewrite zip_with_app.
Qed.

Lemma validate_aggregation reg xml sel kw w :
  let res := (validate reg xml sel kw w).1 in
  total_errors res = sum_list (map (fun r => length (errors r)) (results res))
  ∧ total_warnings res = sum_list (map (fun r => length (warnings r)) (results res))
  ∧ overall_success res =
      forallb success (results res) && negb (bool_decide (resolve reg sel = [])).
Proof.
  unfold validate. destruct (resolve reg sel) as [|v0 vs0]; [done|].
  destruct (gather _ xml kw w) as [os w1].
  destruct (run_external _ xml kw _ w1) as [rs w2]. simpl.
  by rewrite andb_true_r.
Qed.




(** C2, as the code has it.  The two totals are the sums over the entries
    for every selection; [overall_success] is the conjunction of the
    entries' [success] whenever some validator resolves, and it is false,
    with no entry, when none does. *)
Theorem multi_result_aggregates (reg : ValidatorRegistry World) xml sel kw w :
  let res := (validate reg xml sel kw w).1 in
  total_errors res = sum_list (map (fun r => length (errors r)) (results res))
  ∧ total_warnings res = sum_list (map (fun r => length (warnings r)) (results res))
  ∧ (if bool_decide (resolve reg sel = [])
     then results res = [] ∧ overall_success res = false
     else overall_success res = forallb success (results res)).
Proof.
  intros res. destruct (validate_aggregation reg xml sel kw w) as (He & Hw & Hs).
  fold res in He, Hw, Hs. split; [done|]. split; [done|].
  case_bool_decide as Hres.
  - subst res. unfold validate. by rewrite Hres.
  - by rewrite Hs, andb_true_r.
Qed.

(** *** The comparison matrix *)

Lemma elem_of_issue_ids (iss : list ValidationIssue) (s : gset string) rid :
  rid ∈ foldl (fun s i => s ∪ {[rule_id i]}) s iss
  ↔ rid ∈ s ∨ ∃ i, i ∈ iss ∧ rule_id i = rid.
Proof.
  revert s. induction iss as [|i iss IH]; intros s; simpl.
  - split; [by left|]. intros [?|(i & Hi & _)]; [done|]. by apply elem_of_nil in Hi.
  - rewrite IH, elem_of_union, elem_of_singleton. split.
    + intros [[?| ->]|(j & Hj & Hr)]; [by left| |].
      * right. exists i. split; [left|done].
      * right. exists j. split; [by right|done].
    + intros [?|(j & Hj & Hr)]; [by left; left|].
      apply elem_of_cons in Hj as [-> |Hj]; [by left; right|].
      right. by exists j.
Qed.

Lemma elem_of_all_rule_ids_acc (rs : list ValidationResult) (s : gset string) rid :
  rid ∈ foldl (fun s r => foldl (fun s i => s ∪ {[rule_id i]}) s (issues r)) s rs
  ↔ rid ∈ s ∨ ∃ r i, r ∈ rs ∧ i ∈ issues r ∧ rule_id i = rid.
Proof.
  revert s. induction rs as [|r rs IH]; intros s; simpl.
  - split; [by left|]. intros [?|(r & i & Hr & _)]; [done|]. by apply elem_of_nil in Hr.
  - rewrite IH, elem_of_issue_ids. split.
    + intros [[?|(i & Hi & Hid)]|(r' & i & Hr' & Hi & Hid)]; [by left| |].
      * right. exists r, i. split; [left|done].
      * right. exists r', i. split; [by right|done].
    + intros [?|(r' & i & Hr' & Hi & Hid)]; [by left; left|].
      apply elem_of_cons in Hr' as [-> |Hr'].
      * left; right. by exists i.
      * right. by exists r', i.
Qed.

Lemma elem_of_all_rule_ids (rs : list ValidationResult) rid :
  rid ∈ all_rule_ids rs ↔ ∃ r i, r ∈ rs ∧ i ∈ issues r ∧ rule_id i = rid.
Proof.
  unfold all_rule_ids. rewrite elem_of_all_rule_ids_acc. split; [|by right].
  intros [Hin|?]; [|done]. by apply not_elem_of_empty in Hin.
Qed.

(** The cell under a name is that of the last entry with this name. *)
Lemma fill_row_lookup (rs : list ValidationResult) rid n :
  fill_row rs rid !! n =
    (fun r => cell_of r rid) <$> last (filter (fun r => validator_name r = n) rs).
Proof.
  unfold fill_row. induction rs as [|r rs IH] using rev_ind; [done|].
  rewrite foldl_app, filter_app, filter_cons, filter_nil. simpl.
  case_decide as Hn.
  - subst n. by rewrite lookup_insert_eq, last_snoc.
  - by rewrite lookup_insert_ne, app_nil_r.
Qed.

Lemma cell_of_head r rid :
  cell_of r rid =
    match head (filter (fun i => rule_id i = rid) (issues r)) with
    | Some m => mkCell true (Some (Severity_value (severity m))) (Some (message m))
    | None => mkCell false None None
    end.
Proof. unfold cell_of. by destruct (filter _ (issues r)). Qed.

Lemma cell_of_found r rid :
  found (cell_of r rid) = true ↔ ∃ i, i ∈ issues r ∧ rule_id i = rid.
Proof.
  unfold cell_of. destruct (filter _ (issues r)) as [|m ms] eqn:Hf; simpl.
  - split; [done|]. intros (i & Hi & Hid).
    assert (i ∈ filter (fun i => rule_id i = rid) (issues r)) as Hin
      by (by apply list_elem_of_filter).
    rewrite Hf in Hin. by apply elem_of_nil in Hin.
  - split; [|done]. intros _. exists m.
    assert (m ∈ filter (fun i => rule_id i = rid) (issues r)) as Hin
      by (rewrite Hf; left).
    apply list_elem_of_filter in Hin as [? ?]. done.
Qed.

(** C8, as the code has it.  The rows are the distinct rule ids of all
    entries, in ascending order; the cells of a row are stored by
    validator name, so the cell under a name is that of the last entry
    with this name, and an entry that no later entry shares its name with
    has its own cell; a cell says [found] exactly when its entry has an
    issue with the row's rule id, and then carries the severity and
    message of the first such issue. *)
Theorem comparison_matrix_by_validator_name
    (reg : ValidatorRegistry World) xml sel kw w :
  let out := (validate_with_comparison reg xml sel kw w).1 in
  let rs := results (cmp_result out) in
  let ids := map row_rule_id (comparison out) in
  cmp_result out = (validate reg xml (Some sel) kw w).1
  ∧ NoDup ids ∧ Sorted str_le ids
  ∧ (∀ rid, rid ∈ ids ↔ ∃ r i, r ∈ rs ∧ i ∈ issues r ∧ rule_id i = rid)
  ∧ Forall (fun row => ∀ n,
       row_validators row !! n =
         (fun r => cell_of r (row_rule_id row))
           <$> last (filter (fun r => validator_name r = n) rs))
      (comparison out)
  ∧ (∀ before r later, rs = before ++ r :: later →
       Forall (fun r' => validator_name r' ≠ validator_name r) later →
       Forall (fun row =>
          row_validators row !! validator_name r = Some (cell_of r (row_rule_id row)))
         (comparison out))
  ∧ (∀ r rid, found (cell_of r rid) = true ↔ ∃ i, i ∈ issues r ∧ rule_id i = rid)
  ∧ (∀ r rid, cell_of r rid =
       match head (filter (fun i => rule_id i = rid) (issues r)) with
       | Some m => mkCell true (Some (Severity_value (severity m))) (Some (message m))
       | None => mkCell false None None
       end).
Proof.
  intros out rs ids.
  assert (Hout : out = mkComparison (validate reg xml (Some sel) kw w).1
                         (comparison_matrix (results (validate reg xml (Some sel) kw w).1))).
  { subst out. unfold validate_with_comparison.
    by destruct (validate reg xml (Some sel) kw w). }
  assert (Hids : ids = sorted (all_rule_ids rs)).
  { subst ids rs. rewrite Hout. simpl. unfold comparison_matrix.
    rewrite map_map. simpl. apply map_id. }
  assert (Hrows : Forall (fun row => ∀ n,
       row_validators row !! n =
         (fun r => cell_of r (row_rule_id row))
           <$> last (filter (fun r => validator_name r = n) rs))
      (comparison out)).
  { subst rs. rewrite Hout. simpl. unfold comparison_matrix.
    apply Forall_forall. intros row Hrow.
    apply list_elem_of_fmap in Hrow as (rid & -> & _). simpl.
    intros n. apply fill_row_lookup. }
  split; [by rewrite Hout|].
  split; [rewrite Hids; apply sorted_NoDup|].
  split; [rewrite Hids; apply sorted_Sorted|].
  split; [intros rid; rewrite Hids, elem_of_sorted; apply elem_of_all_rule_ids|].
  split; [done|].
  split; [|split; [apply cell_of_found|apply cell_of_head]].
  intros before r later Hrs Hlater.
  eapply Forall_impl; [exact Hrows|]. intros row Hrow. simpl in Hrow.
  rewrite Hrow, Hrs, filter_app, filter_cons.
  rewrite decide_True by done.
  assert (filter (fun r0 => validator_name r0 = validator_name r) later = []) as ->.
  { clear -Hlater. induction Hlater as [|r' later Hr' _ IH]; [done|].
    rewrite filter_cons, decide_False by done. done. }
  by rewrite last_snoc.
Qed.

End RegistryFacts.

(** ** The validators *)

Section ValidatorFacts.
Context `{Python} `{Lxml} `{Zeep}.

Lemma load_schema_None p cache :
  cache !! p = None → XSDValidator.load_from_disk p = None →
  XSDValidator._load_schema p cache = (None, cache).
Proof. intros Hc Hd. unfold XSDValidator._load_schema. by rewrite Hc, Hd. Qed.

Lemma load_from_disk_None p :
  XSDValidator.load_from_disk p = None ↔
    let path := if Path_is_absolute p then p else Path_join XSD_DIR p in
    Path_exists path = false
    ∨ ET_parse path = None
    ∨ ∃ schema_doc, ET_parse path = Some schema_doc ∧ ET_XMLSchema schema_doc = None.
Proof.
  unfold XSDValidator.load_from_disk. simpl.
  destruct (Path_exists _) eqn:He; simpl; [|naive_solver].
  destruct (ET_parse _) as [d|] eqn:Hp; [|naive_solver].
  split; [naive_solver|]. intros [?|[?|(d' & [= <-] & ?)]]; done.
Qed.

Lemma cache_coherent_empty : cache_coherent ∅.
Proof. intros p schema Hp. by rewrite lookup_empty in Hp. Qed.

Lemma load_schema_coherent p cache :
  cache_coherent cache → cache_coherent (XSDValidator._load_schema p cache).2.
Proof.
  intros Hc. unfold XSDValidator._load_schema.
  destruct (cache !! p) eqn:Hp; [done|].
  destruct (XSDValidator.load_from_disk p) as [schema|] eqn:Hd; [|done].
  intros q schema' Hq. simpl in Hq.
  destruct (decide (p = q)) as [<-|Hne].
  - rewrite lookup_insert_eq in Hq. by simplify_eq.
  - rewrite lookup_insert_ne in Hq by done. by apply Hc.
Qed.

Lemma get_schema_coherent sp ad doc cache :
  cache_coherent cache → cache_coherent (XSDValidator.get_schema sp ad doc cache).2.
Proof.
  intros Hc. unfold XSDValidator.get_schema, XSDValidator._detect_schema.
  repeat (case_match; try done); by apply load_schema_coherent.
Qed.

(** Every call leaves the cache coherent, so it is coherent in every state
    reached from the empty cache. *)
Lemma validate_coherent xml sp ad cache :
  cache_coherent cache → cache_coherent (XSDValidator.validate xml sp ad cache).2.
Proof.
  intros Hc. unfold XSDValidator.validate.
  destruct (ET_fromstring xml) as [e|doc]; [done|].
  pose proof (get_schema_coherent sp ad doc cache Hc) as Hc1.
  destruct (XSDValidator.get_schema sp ad doc cache) as [[schema|] cache1]; [|done].
  by destruct (XMLSchema_assertValid schema doc).
Qed.

Lemma validate_no_schema xml doc sp ad cache cache1 :
  ET_fromstring xml = inr doc →
  XSDValidator.get_schema sp ad doc cache = (None, cache1) →
  XSDValidator.validate xml sp ad cache = (Returned XSDValidator.no_schema_result, cache1).
Proof. intros Hp Hs. unfold XSDValidator.validate. by rewrite Hp, Hs. Qed.

(** C1, as the code has it.  On an input that does not parse, the two
    local validators return a failed result whose only issue is the error
    XML_SYNTAX, and leave the caches as they were: no schema or rule set is
    looked up.  The remote validator has no parsing step: it raises when
    the bytes are not valid UTF-8, and otherwise its result is the
    connection error or the flattened report of the service. *)
Theorem local_validators_stop_at_syntax_error xml e kwargs w
    (Hsyntax : ET_fromstring xml = inl e) :
  let location := (fun n => ("line " ++ str_of_Z n)%string) <$> xse_lineno e in
  let message := ("XML parsing error: " ++ xse_str e)%string in
  v_validate xsd xml kwargs w =
    (Returned (mkResult "XSD Schema" "xsd" false
                 [mkIssue ERROR "XML_SYNTAX" message location (Some "XSD Schema")]
                 None (Some elapsed_ms)), w)
  ∧ v_validate schematron xml kwargs w =
    (Returned (mkResult "Schematron" "schematron" false
                 [mkIssue ERROR "XML_SYNTAX" message location (Some "Schematron")]
                 None (Some elapsed_ms)), w)
  ∧ v_validate helger xml kwargs w =
      (match decode_utf8 xml with
       | Raised err => Raised err
       | Returned xml_string =>
           let vesid :=
             if truthy (kw_vesid kwargs) then default ""%string (kw_vesid kwargs)
             else "eu.peppol.bis3:invoice:2025.5"%string in
           match service_validate xml_string vesid "en" with
           | Raised err =>
               Returned (mkResult "Helger WSDVS" "helger" false
                  [mkIssue ERROR "HELGER_CONNECTION"
                     ("Validation service error: " ++ err)%string None
                     (Some "Helger WSDVS"%string)]
                  None (Some elapsed_ms))
           | Returned report =>
               let issues := HelgerValidator.flatten (Result report) in
               Returned (mkResult "Helger WSDVS" "helger"
                  (negb (existsb is_error issues)) issues
                  (Some report) (Some elapsed_ms))
           end
       end, w).
Proof.
  intros location message. destruct w as [sc xc]. simpl.
  unfold XSDValidator.validate, SchematronValidator.validate. rewrite Hsyntax.
  split; [|split].
  - unfold XSDValidator.syntax_issue. subst location. by destruct (xse_lineno e).
  - unfold SchematronValidator.syntax_issue, XSDValidator.syntax_issue.
    subst location. by destruct (xse_lineno e).
  - unfold HelgerValidator.validate. f_equal.
    destruct (decode_utf8 xml) as [xml_string|err]; [|done].
    destruct (truthy (kw_vesid kwargs)); simpl;
      destruct (service_validate _ _ _) as [report|err]; try done;
      f_equal; f_equal;
      induction (HelgerValidator.flatten (Result report)) as [|i l IH]; try done;
      rewrite filter_cons; unfold is_error in *; simpl;
      destruct (Severity_eqb (severity i) ERROR) eqn:Hs;
      case_decide; simplify_eq/=; done.
Qed.

(** C6.  Provided a failed schema validation logs at least one error, the
    result either local validator returns has [success] exactly when none
    of its issues is an error; and a local validator returns a result
    unless the engine itself raised (an internal schema validation error,
    or an exception of the rule stylesheet other than [XSLTApplyError]). *)
Theorem local_validators_success_iff_no_error
    (Hlog : ∀ schema doc, XMLSchema_assertValid schema doc = DocumentInvalid →
                          XMLSchema_error_log schema doc ≠ [])
    xml schema_path auto_detect schema_cache schematron_path profile xslt_cache :
  match (XSDValidator.validate xml schema_path auto_detect schema_cache).1 with
  | Returned r => success r = negb (existsb is_error (issues r))
  | Raised e =>
      ∃ doc schema, ET_fromstring xml = inr doc
                    ∧ XMLSchema_assertValid schema doc = ValidateRaised e
  end
  ∧ match (SchematronValidator.validate xml schematron_path profile xslt_cache).1 with
    | Returned r => success r = negb (existsb is_error (issues r))
    | Raised e =>
        ∃ doc xslt, ET_fromstring xml = inr doc ∧ XSLT_call xslt doc [] = ApplyRaised e
    end.
Proof.
  split.
  - unfold XSDValidator.validate.
    destruct (ET_fromstring xml) as [e|doc] eqn:Hp; [done|].
    destruct (XSDValidator.get_schema _ _ _ _) as [[schema|] cache1]; [|done].
    destruct (XMLSchema_assertValid schema doc) eqn:Hv; simpl; [done| |eauto].
    specialize (Hlog _ _ Hv). by destruct (XMLSchema_error_log schema doc).
  - unfold SchematronValidator.validate.
    destruct (ET_fromstring xml) as [e|doc] eqn:Hp; [done|].
    destruct (SchematronValidator.get_xslt _ _ _ _) as [[xslt|] cache1]; [|done].
    destruct (XSLT_call xslt doc []) eqn:Hv; simpl; eauto.
Qed.

(** C7.  A well-formed document, no schema path given, and either no
    auto-detection or a root namespace that is absent or not in the schema
    table: the structural validator succeeds with exactly one issue, of
    severity Info, saying that the document is well-formed and no schema
    was found; the cache is untouched. *)
Theorem xsd_no_schema_is_lenient xml doc schema_path auto_detect cache
    (Hparse : ET_fromstring xml = inr doc)
    (Hno_override : truthy schema_path = false)
    (Hno_match : auto_detect = false
                 ∨ tag_namespace (Element_tag doc) ≫= dict_get XSDValidator.SCHEMA_MAP
                   = None) :
  XSDValidator.validate xml schema_path auto_detect cache =
    (Returned (mkResult "XSD Schema" "xsd" true
                 [mkIssue INFO "XSD_NO_SCHEMA"
                    "XML is well-formed. No XSD schema found for validation."
                    None (Some "XSD Schema"%string)]
                 None (Some elapsed_ms)), cache).
Proof.
  apply (validate_no_schema xml doc); [done|].
  unfold XSDValidator.get_schema. rewrite Hno_override.
  destruct auto_detect; [|done]. destruct Hno_match as [?|Hns]; [done|].
  unfold XSDValidator._detect_schema.
  destruct (tag_namespace (Element_tag doc)) as [ns|]; [|done].
  change (dict_get XSDValidator.SCHEMA_MAP ns = None) in Hns.
  rewrite Hns. by destruct (truthy (Some ns)).
Qed.

(** C10.  A well-formed document and an explicit schema path that loads
    nothing (the file does not exist, or it does not parse or compile), in
    a cache that agrees with the disk: whatever [auto_detect] and the
    document's namespace are, the structural validator returns the same
    successful single-Info result as when no schema is requested, and
    loads nothing. *)
Theorem xsd_unloadable_schema_path_is_no_schema xml doc p auto_detect cache
    (Hparse : ET_fromstring xml = inr doc)
    (Hpath : p ≠ ""%string)
    (Hload : XSDValidator.load_from_disk p = None)
    (Hcache : cache_coherent cache) :
  XSDValidator.validate xml (Some p) auto_detect cache =
    (Returned (mkResult "XSD Schema" "xsd" true
                 [mkIssue INFO "XSD_NO_SCHEMA"
                    "XML is well-formed. No XSD schema found for validation."
                    None (Some "XSD Schema"%string)]
                 None (Some elapsed_ms)), cache)
  ∧ XSDValidator.validate xml (Some p) auto_detect cache =
      XSDValidator.validate xml None false cache.
Proof.
  assert (Hc : cache !! p = None).
  { destruct (cache !! p) as [schema|] eqn:Hc; [|done].
    apply Hcache in Hc. congruence. }
  assert (Ht : truthy (Some p) = true).
  { simpl. by destruct (String.eqb_spec p ""). }
  assert (XSDValidator.validate xml (Some p) auto_detect cache =
            (Returned XSDValidator.no_schema_result, cache)) as Hv.
  { apply (validate_no_schema xml doc); [done|].
    unfold XSDValidator.get_schema. rewrite Ht. simpl. by apply load_schema_None. }
  split; [exact Hv|]. rewrite Hv. symmetry.
  by apply (validate_no_schema xml doc).
Qed.

End ValidatorFacts.

(** ** Regular expressions *)

Section RegexFacts.
Local Open Scope N_scope.
Implicit Types (s t : text) (p : N → bool) (g : text).

(** *** Characters *)


Lemma ci_other_inv a c :
  is_lower a = false → is_upper a = false → ignorecase_eq a c = true → c = a.
Proof.
  intros Hl Hu H. unfold ignorecase_eq in H. rewrite Hl, Hu in H. simpl in H.
  rewrite orb_false_r in H. by apply N.eqb_eq.
Qed.



(** *** The matcher *)





Lemma rmatch_Cat_cons {R} r rs s g (k : text → text → option R) :
  rmatch (Cat (r :: rs)) s g k = rmatch r s g (fun s1 g1 => rmatch (Cat rs) s1 g1 k).
Proof. done. Qed.

Lemma rmatch_Cat_nil {R} s g (k : text → text → option R) :
  rmatch (Cat []) s g k = k s g.
Proof. done. Qed.







(** A word does not match where the text ends or goes on with a character
    other than its first letter. *)
Lemma rmatch_word_mismatch {R} a (w : list N) s g (k : text → text → option R) :
  match s with
  | [] => True
  | c :: _ => ignorecase_eq a c = false
  end →
  rmatch (Cat (map Lit (a :: w))) s g k = None.
Proof.
  cbn [map]. rewrite rmatch_Cat_cons. destruct s as [|c s]; simpl; [done|].
  by intros ->.
Qed.


(** *** The version attribute *)




Lemma take_captured (x y : text) : take (length (x ++ y) - length y) (x ++ y) = x.
Proof.
  rewrite length_app. replace (length x + length y - length y)%nat with (length x) by lia.
  by rewrite take_app_length.
Qed.


Lemma rmatch_Group {R} r1 s g (k : text → text → option R) :
  rmatch (Group r1) s g k =
    rmatch r1 s g (fun s1 _ => k s1 (take (length s - length s1) s)).
Proof. done. Qed.



(** *** The search *)

Lemma xslt_version_mismatch s :
  match s with
  | c :: d :: _ => (c =? chr "<") && ignorecase_eq (chr "x") d = false
  | _ => True
  end →
  match_here XSLT_VERSION_RE s = None.
Proof.
  intros Hs. unfold match_here, XSLT_VERSION_RE. rewrite rmatch_Cat_cons.
  change (lit "<xsl:") with (Cat (Lit (chr "<") :: map Lit (chr "x" :: text_of "sl:"))).
  rewrite rmatch_Cat_cons. destruct s as [|c [|d s]]; [done| |].
  - simpl. by destruct (ignorecase_eq _ c).
  - cbn [rmatch]. destruct (ignorecase_eq (chr "<") c) eqn:Hc; [|done].
    apply rmatch_word_mismatch.
    apply ci_other_inv in Hc as ->; [|done..]. by rewrite N.eqb_refl in Hs.
Qed.

Lemma opens_x_cons c s :
  opens_x (c :: s) = false →
  opens_x s = false
  ∧ match s with
    | d :: _ => (c =? chr "<") && ignorecase_eq (chr "x") d = false
    | [] => True
    end.
Proof.
  simpl. intros [H1 H2]%orb_false_iff. split; [done|]. by destruct s.
Qed.

(** The search passes over text in which no [<] is followed by an [x]. *)
Lemma re_search_skip before s :
  opens_x before = false →
  match s with
  | d :: _ => ignorecase_eq (chr "x") d = false
  | [] => True
  end →
  re_search XSLT_VERSION_RE (before ++ s) = re_search XSLT_VERSION_RE s.
Proof.
  intros Hb Hs. induction before as [|c before IH]; [done|].
  apply opens_x_cons in Hb as [Hb Hc]. cbn [app re_search].
  rewrite (xslt_version_mismatch (c :: before ++ s)); [by apply IH|].
  destruct before as [|d before]; cbn [app]; [|done].
  destruct s as [|d s]; [done|]. rewrite Hs. apply andb_false_r.
Qed.

Lemma re_search_no_tag s : opens_x s = false → re_search XSLT_VERSION_RE s = None.
Proof.
  intros Hs. rewrite <- (app_nil_r s), re_search_skip by done.
  cbn [re_search]. by rewrite (xslt_version_mismatch []).
Qed.




End RegexFacts.

(** ** The transformer *)

Section TransformerFacts.
Context `{Python} `{Lxml} `{Saxon}.
Import TransformerService.

(** C4.  Without Saxon, a stylesheet whose version (forced, or else
    detected) is 2.0 or 3.0 is not transformed: the result is a failure
    that names this version in its message and in its [xslt_version], with
    no output and no processor; lxml is not tried, and the stylesheet cache
    and the Saxon singleton are left as they were. *)
Theorem transform_without_saxon_fails_closed xml xslt force_version parameters st
    (Hunavailable : SAXON_AVAILABLE = false)
    (Hversion : effective_version force_version xslt ≠ V1_0) :
  let version := effective_version force_version xslt in
  (version = V2_0 ∨ version = V3_0)
  ∧ transform xml xslt force_version parameters st =
      (Returned (mkTransformResult false None
                   (Some ("XSLT " ++ XSLTVersion_value version
                          ++ " requires saxonche. Install with: pip install saxonche")%string)
                   (Some version) None), st).
Proof.
  intros version. unfold transform. fold version. rewrite Hunavailable.
  subst version. destruct (effective_version force_version xslt); [done| |];
    (split; [auto|reflexivity]).
Qed.

Lemma _transform_lxml_twice xml xslt parameters st :
  _transform_lxml xml xslt parameters (_transform_lxml xml xslt parameters st).2
    = _transform_lxml xml xslt parameters st.
Proof.
  (* a call that leaves the state alone can be repeated *)
  assert (Hsame : (_transform_lxml xml xslt parameters st).2 = st →
                  _transform_lxml xml xslt parameters
                    (_transform_lxml xml xslt parameters st).2
                  = _transform_lxml xml xslt parameters st) by (by intros ->).
  destruct (_lxml_cache st !! md5_hexdigest xslt) as [t|] eqn:Hc.
  { apply Hsame. unfold _transform_lxml. rewrite Hc.
    destruct (ET_fromstring xml); [done|]. destruct parameters as [[|? ?]|]; by destruct (XSLT_call _ _ _). }
  destruct (ET_fromstring xslt) as [e|xslt_doc] eqn:Hx.
  { apply Hsame. unfold _transform_lxml. by rewrite Hc, Hx. }
  destruct (ET_XSLT xslt_doc) as [e|t] eqn:Ht.
  { apply Hsame. unfold _transform_lxml. by rewrite Hc, Hx, Ht. }
  (* the stylesheet was compiled and stored: the second call finds it *)
  clear Hsame. unfold _transform_lxml at 2 3. rewrite Hc, Hx, Ht.
  destruct (ET_fromstring xml) as [e|doc] eqn:Hd; simpl.
  { unfold _transform_lxml. simpl. by rewrite lookup_insert_eq, Hd. }
  destruct (match parameters with
            | Some ((_ :: _) as str_params) => XSLT_call t doc str_params
            | _ => XSLT_call t doc []
            end) eqn:Ha; simpl; unfold _transform_lxml; simpl;
    by rewrite lookup_insert_eq, Hd, Ha.
Qed.

Lemma _transform_saxon_twice xml xslt version parameters st :
  _transform_saxon xml xslt version parameters
      (_transform_saxon xml xslt version parameters st).2
    = _transform_saxon xml xslt version parameters st.
Proof.
  unfold _transform_saxon, get_saxon_processor.
  destruct SAXON_AVAILABLE; simpl; [|done].
  destruct (_saxon_processor st) as [proc|] eqn:Hp.
  - destruct (saxon_run proc xml xslt version parameters) eqn:Hr; simpl;
      by rewrite Hp, Hr.
  - destruct (saxon_run PySaxonProcessor xml xslt version parameters) eqn:Hr; simpl;
      by rewrite Hr.
Qed.

(** C9.  A second call with the same document, stylesheet, forced version
    and parameters, made in the state the first call left, has the same
    outcome as the first (the same result, hence the same output bytes, or
    the same exception) and changes nothing more: whether the compiled
    stylesheet was compiled by the call or served from the cache makes no
    difference. *)
Theorem transform_twice_same_result xml xslt force_version parameters st :
  let first := transform xml xslt force_version parameters st in
  let second := transform xml xslt force_version parameters first.2 in
  second.1 = first.1
  ∧ second.2 = first.2
  ∧ match first.1, second.1 with
    | Returned r1, Returned r2 => output r1 = output r2
    | Raised e1, Raised e2 => e1 = e2
    | _, _ => False
    end.
Proof.
  intros first second.
  assert (Heq : second = first).
  { subst first second. unfold transform.
    destruct (effective_version force_version xslt).
    - apply _transform_lxml_twice.
    - destruct SAXON_AVAILABLE; simpl; [apply _transform_saxon_twice|done].
    - destruct SAXON_AVAILABLE; simpl; [apply _transform_saxon_twice|done]. }
  rewrite Heq. split; [done|]. split; [done|]. by destruct first.1.
Qed.

(** A stylesheet in which no [<] is followed by [x] or [X] is of version
    1.0: nothing matches. *)
Lemma detect_xslt_version_no_tag xslt_content :
  opens_x (decode_utf8_ignore xslt_content) = false →
  detect_xslt_version xslt_content = V1_0.
Proof. intros Hx. unfold detect_xslt_version. by rewrite re_search_no_tag. Qed.


(** *** The cache is transparent as long as its keys identify stylesheets *)

Lemma _transform_lxml_cache_transparent xml xslt parameters st :
  lxml_cache_coherent st →
  (_transform_lxml xml xslt parameters st).1
    = (_transform_lxml xml xslt parameters (mkState ∅ (_saxon_processor st))).1.
Proof.
  intros Hc. unfold _transform_lxml. simpl. rewrite lookup_empty.
  destruct (_lxml_cache st !! md5_hexdigest xslt) as [t|] eqn:Hk.
  - destruct (Hc _ _ Hk) as (xslt_doc & -> & ->).
    destruct (ET_fromstring xml); [done|]. destruct parameters as [[|? ?]|]; by destruct (XSLT_call _ _ _).
  - destruct (ET_fromstring xslt); [done|]. destruct (ET_XSLT _); [done|].
    destruct (ET_fromstring xml); [done|]. destruct parameters as [[|? ?]|]; by destruct (XSLT_call _ _ _).
Qed.

(** Calls keep the cache coherent when no two stylesheets share a digest. *)
Lemma _transform_lxml_coherent xml xslt parameters st :
  (∀ a b, md5_hexdigest a = md5_hexdigest b → a = b) →
  lxml_cache_coherent st →
  lxml_cache_coherent (_transform_lxml xml xslt parameters st).2.
Proof.
  intros Hinj Hc. unfold _transform_lxml.
  destruct (_lxml_cache st !! md5_hexdigest xslt) as [t|] eqn:Hk.
  - destruct (ET_fromstring xml); [done|]. destruct parameters as [[|? ?]|]; by destruct (XSLT_call _ _ _).
  - destruct (ET_fromstring xslt) as [e|xslt_doc] eqn:Hx; [done|].
    destruct (ET_XSLT xslt_doc) as [e|t] eqn:Ht; [done|].
    assert (lxml_cache_coherent
              (mkState (<[md5_hexdigest xslt := t]> (_lxml_cache st))
                 (_saxon_processor st))) as Hc1.
    { intros y t' Hy. simpl in Hy.
      destruct (decide (md5_hexdigest xslt = md5_hexdigest y)) as [Hm|Hm].
      - rewrite Hm, lookup_insert_eq in Hy. apply Hinj in Hm as <-.
        simplify_eq. eauto.
      - rewrite lookup_insert_ne in Hy by done. by apply Hc. }
    destruct (ET_fromstring xml); [done|]. destruct parameters as [[|? ?]|]; by destruct (XSLT_call _ _ _).
Qed.

Lemma _transform_saxon_processor_transparent xml xslt version parameters st :
  _saxon_processor st = None ∨ _saxon_processor st = Some PySaxonProcessor →
  (_transform_saxon xml xslt version parameters st).1
    = (_transform_saxon xml xslt version parameters (mkState ∅ None)).1
  ∧ (_saxon_processor (_transform_saxon xml xslt version parameters st).2 = None
     ∨ _saxon_processor (_transform_saxon xml xslt version parameters st).2
       = Some PySaxonProcessor)
  ∧ _lxml_cache (_transform_saxon xml xslt version parameters st).2 = _lxml_cache st.
Proof.
  intros Hp. unfold _transform_saxon, get_saxon_processor.
  destruct st as [cache proc]. simpl in *.
  destruct SAXON_AVAILABLE; simpl; [|by auto].
  destruct Hp as [-> | ->];
    destruct (saxon_run PySaxonProcessor xml xslt version parameters); simpl; auto.
Qed.

(** In a state that calls have reached, a transformation has the result it
    has in the initial state: it is a function of its arguments. *)
Lemma transform_cache_transparent xml xslt force_version parameters st :
  state_ok st →
  (transform xml xslt force_version parameters st).1
    = (transform xml xslt force_version parameters (mkState ∅ None)).1.
Proof.
  intros [Hc Hp]. unfold transform.
  destruct (effective_version force_version xslt).
  - rewrite (_transform_lxml_cache_transparent _ _ _ st) by done.
    unfold _transform_lxml. simpl. rewrite lookup_empty.
    destruct (ET_fromstring xslt); [done|]. destruct (ET_XSLT _); [done|].
    destruct (ET_fromstring xml); [done|].
    destruct parameters as [[|? ?]|]; by destruct (XSLT_call _ _ _).
  - destruct SAXON_AVAILABLE; simpl; [|done].
    by apply _transform_saxon_processor_transparent.
  - destruct SAXON_AVAILABLE; simpl; [|done].
    by apply _transform_saxon_processor_transparent.
Qed.

(** Calls keep the state in that shape, digests being free of collisions;
    the initial state has it. *)
Lemma transform_state_ok xml xslt force_version parameters st :
  (∀ a b, md5_hexdigest a = md5_hexdigest b → a = b) →
  state_ok st → state_ok (transform xml xslt force_version parameters st).2.
Proof.
  intros Hinj [Hc Hp]. unfold transform.
  assert (Hlxml : state_ok (_transform_lxml xml xslt parameters st).2).
  { split; [by apply _transform_lxml_coherent|].
    unfold _transform_lxml.
    destruct (_lxml_cache st !! md5_hexdigest xslt).
    - destruct (ET_fromstring xml); [done|].
      destruct parameters as [[|? ?]|]; by destruct (XSLT_call _ _ _).
    - destruct (ET_fromstring xslt); [done|]. destruct (ET_XSLT _); [done|].
      destruct (ET_fromstring xml); [done|].
      destruct parameters as [[|? ?]|]; by destruct (XSLT_call _ _ _). }
  assert (Hsaxon : ∀ version, state_ok (_transform_saxon xml xslt version parameters st).2).
  { intros version.
    destruct (_transform_saxon_processor_transparent xml xslt version parameters st Hp)
      as (_ & Hp' & Hcache).
    split; [|done]. intros y t Hy. rewrite Hcache in Hy. by apply Hc. }
  destruct (effective_version force_version xslt); [done| |];
    destruct SAXON_AVAILABLE; simpl; done.
Qed.

Lemma state_ok_initial : state_ok (mkState ∅ None).
Proof. split; [|by left]. intros y t Hy. simpl in Hy. by rewrite lookup_empty in Hy. Qed.

End TransformerFacts.

(** ** The statements evaluated on the small environment *)

Module Examples.
Import Demo.

(** C2 fails as stated: a selection of which no name is registered yields
    no entry, so the conjunction over the entries is true, while
    [overall_success] is false. *)
Lemma unresolved_selection_is_not_success :
  let res := (validate _register_defaults (bytes_of "<root/>") (Some ["nope"])
                Demo.no_kwargs Demo.empty_caches).1 in
  results res = []
  ∧ overall_success res = false
  ∧ forallb success (results res) = true.
Proof. by vm_compute. Qed.

(** C8 fails as stated: of two entries with one validator name, the first
    has an issue with rule id R1, and the cell the row R1 keeps under that
    name says it was not found, since the second entry has none. *)
Lemma shared_name_hides_a_finding :
  let out := (validate_with_comparison Demo.two_checkers [] ["first"; "second"]
                Demo.no_kwargs tt).1 in
  map (fun r => (validator_name r, map rule_id (issues r))) (results (cmp_result out))
    = [("Checker", ["R1"]); ("Checker", [])]
  ∧ map (fun row => (row_rule_id row, found <$> row_validators row !! "Checker"))
      (comparison out)
    = [("R1", Some false)].
Proof. by vm_compute. Qed.

(** C1 fails as stated: the remote validator, given an input that does
    not parse, reports a connection error of its own, not XML_SYNTAX. *)
Lemma remote_validator_does_not_parse :
  ET_fromstring malformed
    = inl (mkXMLSyntaxError "Premature end of data in tag" (Some 1%Z))
  ∧ v_validate helger malformed no_kwargs empty_caches =
      (Returned (mkResult "Helger WSDVS" "helger" false
                   [mkIssue ERROR "HELGER_CONNECTION"
                      "Validation service error: Connection refused" None
                      (Some "Helger WSDVS"%string)]
                   None (Some 0)), empty_caches).
Proof. by vm_compute. Qed.

Lemma local_validators_stop_at_syntax_error_witness :
  ET_fromstring malformed
    = inl (mkXMLSyntaxError "Premature end of data in tag" (Some 1%Z))
  ∧ v_validate xsd malformed no_kwargs empty_caches =
      (Returned (mkResult "XSD Schema" "xsd" false
                   [mkIssue ERROR "XML_SYNTAX"
                      "XML parsing error: Premature end of data in tag"
                      (Some "line 1"%string) (Some "XSD Schema"%string)]
                   None (Some 0)), empty_caches)
  ∧ v_validate schematron malformed no_kwargs empty_caches =
      (Returned (mkResult "Schematron" "schematron" false
                   [mkIssue ERROR "XML_SYNTAX"
                      "XML parsing error: Premature end of data in tag"
                      (Some "line 1"%string) (Some "Schematron"%string)]
                   None (Some 0)), empty_caches).
Proof.
  split; [reflexivity|].
  destruct (local_validators_stop_at_syntax_error malformed
              (mkXMLSyntaxError "Premature end of data in tag" (Some 1%Z))
              no_kwargs empty_caches eq_refl) as (Hx & Hs & _).
  split; [exact Hx|exact Hs].
Defined.

Lemma local_validators_success_iff_no_error_witness :
  (∀ schema doc, XMLSchema_assertValid schema doc = DocumentInvalid →
                 XMLSchema_error_log schema doc ≠ [])
  ∧ ∃ r, (XSDValidator.validate (bytes_of "<root/>") (Some "UBL-Invoice-2.1.xsd"%string)
            true ∅).1 = Returned r
         ∧ map rule_id (issues r) = ["XSD_INVALID"%string]
         ∧ success r = negb (existsb is_error (issues r)).
Proof.
  assert (Hlog : ∀ schema doc, XMLSchema_assertValid schema doc = DocumentInvalid →
                               XMLSchema_error_log schema doc ≠ [])
    by (intros ? ? _; discriminate).
  split; [exact Hlog|].
  destruct (local_validators_success_iff_no_error Hlog (bytes_of "<root/>")
              (Some "UBL-Invoice-2.1.xsd"%string) true ∅ None None ∅) as [Hx _].
  destruct (XSDValidator.validate _ _ _ _).1 as [r|e] eqn:Hr; [|discriminate Hr].
  exists r. split; [reflexivity|]. split; [|exact Hx].
  injection Hr as <-. reflexivity.
Defined.

Lemma xsd_no_schema_is_lenient_witness :
  ET_fromstring (bytes_of "<root/>") = inr "root"%string
  ∧ tag_namespace "root" ≫= dict_get XSDValidator.SCHEMA_MAP = None
  ∧ XSDValidator.validate (bytes_of "<root/>") None true ∅ =
      (Returned (mkResult "XSD Schema" "xsd" true
                   [mkIssue INFO "XSD_NO_SCHEMA"
                      "XML is well-formed. No XSD schema found for validation."
                      None (Some "XSD Schema"%string)]
                   None (Some 0)), ∅).
Proof.
  split; [reflexivity|]. split; [reflexivity|].
  exact (xsd_no_schema_is_lenient (bytes_of "<root/>") _ None true ∅
           eq_refl eq_refl (or_intror eq_refl)).
Defined.

Lemma xsd_unloadable_schema_path_is_no_schema_witness :
  (XSDValidator.validate invoice None true ∅).1
    = Returned (mkResult "XSD Schema" "xsd" true [] None (Some 0))
  ∧ XSDValidator.load_from_disk "missing.xsd" = None
  ∧ XSDValidator.validate invoice (Some "missing.xsd"%string) true ∅ =
      (Returned (mkResult "XSD Schema" "xsd" true
                   [mkIssue INFO "XSD_NO_SCHEMA"
                      "XML is well-formed. No XSD schema found for validation."
                      None (Some "XSD Schema"%string)]
                   None (Some 0)), ∅).
Proof.
  split; [by vm_compute|]. split; [reflexivity|].
  assert (Hne : "missing.xsd"%string ≠ ""%string) by discriminate.
  exact (proj1 (xsd_unloadable_schema_path_is_no_schema invoice _
                  "missing.xsd"%string true ∅ eq_refl Hne eq_refl
                  cache_coherent_empty)).
Defined.

Lemma transform_without_saxon_fails_closed_witness :
  SAXON_AVAILABLE = false
  ∧ TransformerService.transform (bytes_of "<root/>")
      (bytes_of "<xsl:stylesheet version='2.0' xmlns:xsl='http://www.w3.org/1999/XSL/Transform'/>")
      None None (TransformerService.mkState ∅ None) =
      (Returned (mkTransformResult false None
                   (Some "XSLT 2.0 requires saxonche. Install with: pip install saxonche"%string)
                   (Some V2_0) None),
       TransformerService.mkState ∅ None).
Proof.
  split; [reflexivity|].
  assert (Hv : TransformerService.effective_version None
                 (bytes_of "<xsl:stylesheet version='2.0' xmlns:xsl='http://www.w3.org/1999/XSL/Transform'/>")
               ≠ V1_0) by (vm_compute; discriminate).
  exact (proj2 (transform_without_saxon_fails_closed (bytes_of "<root/>") _ None None
                  (TransformerService.mkState ∅ None) eq_refl Hv)).
Defined.



End Examples.

(** * Further properties *)

(** ** Dictionaries *)

Section DictFacts.
Context {V : Type}.
Implicit Types (d : pydict V) (k : string) (v : V).

Lemma dict_get_set_eq d k v : dict_get (dict_set d k v) k = Some v.
Proof.
  induction d as [|[k' v'] d IH]; simpl.
  - by rewrite String.eqb_refl.
  - destruct (String.eqb_spec k' k) as [->|Hne]; simpl.
    + by rewrite String.eqb_refl.
    + by destruct (String.eqb_spec k' k).
Qed.

Lemma dict_get_set_ne d k k' v : k ≠ k' → dict_get (dict_set d k v) k' = dict_get d k'.
Proof.
  intros Hne. induction d as [|[k0 v0] d IH]; simpl.
  - by destruct (String.eqb_spec k k').
  - destruct (String.eqb_spec k0 k) as [->|Hk]; simpl.
    + by destruct (String.eqb_spec k k').
    + by rewrite IH.
Qed.

Lemma dict_get_None d k : dict_get d k = None ↔ k ∉ map fst d.
Proof.
  induction d as [|[k' v'] d IH]; simpl.
  - split; [intros _; apply not_elem_of_nil|done].
  - rewrite not_elem_of_cons. destruct (String.eqb_spec k' k) as [->|Hne].
    + split; [done|]. by intros [? _].
    + rewrite IH. split; [by intros ?; split|by intros [_ ?]].
Qed.

Lemma dict_set_keys d k v :
  map fst (dict_set d k v) =
    if bool_decide (k ∈ map fst d) then map fst d else map fst d ++ [k].
Proof.
  induction d as [|[k' v'] d IH]; cbn [dict_set map fst].
  - case_bool_decide as Hin; [by apply elem_of_nil in Hin|done].
  - destruct (String.eqb_spec k' k) as [->|Hne]; cbn [map fst].
    + rewrite bool_decide_eq_true_2; [reflexivity|left].
    + rewrite IH. repeat case_bool_decide; try done.
      * exfalso. match goal with Hn : _ ∉ _ :: _ |- _ => apply Hn end. by right.
      * exfalso. match goal with Hi : _ ∈ _ :: _ |- _ =>
          apply elem_of_cons in Hi as [->|Hi] end; done.
Qed.

Lemma dict_get_Some_NoDup d k v :
  NoDup (map fst d) → (k, v) ∈ d → dict_get d k = Some v.
Proof.
  induction d as [|[k' v'] d IH]; simpl; intros Hnd Hin.
  - by apply elem_of_nil in Hin.
  - apply NoDup_cons in Hnd as [Hk' Hnd].
    apply elem_of_cons in Hin as [[= <- <-]|Hin].
    + by rewrite String.eqb_refl.
    + destruct (String.eqb_spec k' k) as [->|Hne]; [|by apply IH].
      destruct Hk'. apply list_elem_of_fmap. by exists (k, v).
Qed.

End DictFacts.

(** ** The registry, further *)

Section RegistryFacts2.
Context `{Python} {World : Type}.
Implicit Types (v : BaseValidator World) (reg : ValidatorRegistry World).

(** X1.  Registering and looking up: the validator just registered is the
    one found under its type, lookups of other types are as before, and the
    types keep their order, a new type going last and a type registered
    again keeping its place. *)
Theorem register_then_get reg v :
  get (register reg v) (v_validator_type v) = Some v
  ∧ (∀ t, t ≠ v_validator_type v → get (register reg v) t = get reg t)
  ∧ map fst (register reg v) =
      if bool_decide (v_validator_type v ∈ map fst reg) then map fst reg
      else map fst reg ++ [v_validator_type v].
Proof.
  unfold get, register. split; [apply dict_get_set_eq|].
  split; [|apply dict_set_keys].
  intros t Ht. by apply dict_get_set_ne.
Qed.

Lemma registry_ok_nil : registry_ok ([] : ValidatorRegistry World).
Proof. split; [apply NoDup_nil_2|apply Forall_nil_2]. Qed.

Lemma dict_set_Forall {V} (P : string * V → Prop) (d : pydict V) k x :
  Forall P d → P (k, x) → (∀ x', P (k, x') → P (k, x)) → Forall P (dict_set d k x).
Proof.
  intros Hd Hk _. induction Hd as [|[k' v'] d Hkv Hd IH]; simpl.
  - by apply Forall_singleton.
  - destruct (String.eqb_spec k' k) as [->|Hne]; by apply Forall_cons.
Qed.

Lemma register_ok reg v : registry_ok reg → registry_ok (register reg v).
Proof.
  intros [Hnd Hty]. unfold register. split.
  - rewrite dict_set_keys. case_bool_decide as Hin; [done|].
    apply NoDup_app. split; [done|]. split; [|apply NoDup_singleton].
    intros t Ht Ht'. apply list_elem_of_singleton in Ht' as ->. done.
  - by apply dict_set_Forall.
Qed.

Lemma registry_ok_get reg v :
  registry_ok reg → v ∈ dict_values reg → dict_get reg (v_validator_type v) = Some v.
Proof.
  intros [Hnd Hty] Hv. apply list_elem_of_fmap in Hv as ([k v'] & -> & Hin).
  rewrite Forall_forall in Hty. pose proof (Hty _ Hin) as Hk. simpl in *. subst k.
  by apply dict_get_Some_NoDup.
Qed.

(** X2.  A registry built by [register] lists every type once: registering
    keeps the entries' types distinct and each entry under its own type, so
    [list_validators] never shows a type twice and [get] of a listed
    validator's type returns that validator. *)
Theorem register_keeps_types_distinct reg v
    (Hreg : registry_ok reg) :
  registry_ok (register reg v)
  ∧ NoDup (map info_type (list_validators (register reg v)))
  ∧ Forall (fun v' => get (register reg v) (v_validator_type v') = Some v')
      (dict_values (register reg v)).
Proof.
  pose proof (register_ok reg v Hreg) as Hok. split; [done|]. split.
  - destruct Hok as [Hnd Hty]. unfold list_validators, dict_values.
    rewrite !map_map. simpl.
    replace (map (fun x => v_validator_type x.2) (register reg v))
      with (map fst (register reg v)); [exact Hnd|].
    apply Forall_fmap_ext_1. eapply Forall_impl; [exact Hty|]. by intros [k x].
  - apply Forall_forall. intros v' Hv'. by apply registry_ok_get.
Qed.

End RegistryFacts2.

Section RegistryFacts3.
Context `{Python} {World : Type}.
Implicit Types (v : BaseValidator World) (reg : ValidatorRegistry World).

Lemma omap_fmap_Some {A B} (f : B → option A) (g : A → B) (l : list A) :
  Forall (fun x => f (g x) = Some x) l → omap f (map g l) = l.
Proof.
  induction 1 as [|x l Hx _ IH]; simpl; [done|]. rewrite Hx. simpl. f_equal. exact IH.
Qed.

Lemma filter_all {A} (P : A → Prop) `{∀ x, Decision (P x)} (l : list A) :
  Forall P l → filter P l = l.
Proof.
  induction 1 as [|x l Hx _ IH]; [done|]. by rewrite filter_cons_True, IH.
Qed.

Lemma filter_none {A} (P : A → Prop) `{∀ x, Decision (P x)} (l : list A) :
  Forall (fun x => ¬ P x) l → filter P l = [].
Proof.
  induction 1 as [|x l Hx _ IH]; [done|]. by rewrite filter_cons_False, IH.
Qed.

Lemma run_order_all_local (vs : list (BaseValidator World)) :
  Forall (fun v => v_is_local v = true) vs → run_order vs = vs.
Proof.
  intros Hvs. unfold run_order. rewrite filter_all by done.
  rewrite filter_none; [apply app_nil_r|].
  eapply Forall_impl; [exact Hvs|]. simpl. congruence.
Qed.

Lemma run_order_all_external (vs : list (BaseValidator World)) :
  Forall (fun v => v_is_local v = false) vs → run_order vs = vs.
Proof.
  intros Hvs. unfold run_order. rewrite (filter_all (fun v => v_is_local v = false)) by done.
  rewrite filter_none; [done|].
  eapply Forall_impl; [exact Hvs|]. simpl. congruence.
Qed.

(** X3.  Local-only mode, in a registry built by [register] that holds at
    least one local validator, runs exactly the local validators, in
    registration order, and nothing else: one entry each, and the state is
    the one their sequential run leaves. *)
Theorem validate_local_only_runs_the_local_validators reg xml kw w
    (Hreg : registry_ok reg)
    (Hlocal : get_local_validators reg ≠ []) :
  let vs := get_local_validators reg in
  resolve reg (Some (map v_validator_type vs)) = vs
  ∧ results (validate_local_only reg xml kw w).1
      = zip_with result_of vs (gather vs xml kw w).1
  ∧ length (results (validate_local_only reg xml kw w).1) = length vs
  ∧ (validate_local_only reg xml kw w).2 = (gather vs xml kw w).2.
Proof.
  intros vs.
  assert (Hloc : Forall (fun v => v_is_local v = true) vs).
  { apply Forall_forall. intros v Hv. by apply list_elem_of_filter in Hv as [? _]. }
  assert (Hres : resolve reg (Some (map v_validator_type vs)) = vs).
  { unfold resolve.
    destruct (map v_validator_type vs) as [|t ts] eqn:Hts.
    - apply fmap_nil_inv in Hts. by destruct Hlocal.
    - rewrite <- Hts. apply omap_fmap_Some. apply Forall_forall. intros v Hv.
      apply registry_ok_get; [done|]. by apply list_elem_of_filter in Hv as [_ ?]. }
  unfold validate_local_only. fold vs.
  destruct (validate_results reg xml (Some (map v_validator_type vs)) kw w) as [Hr Hw].
  rewrite Hres, run_order_all_local in Hr, Hw by done.
  split; [done|]. split; [done|]. split; [|done].
  by rewrite Hr, length_zip_with, gather_length, Nat.min_id.
Qed.

(** X4.  Local-only mode in a registry without local validators: the list
    of local types is empty, an empty selection means every validator, and
    so every registered (external) validator is run, one entry each. *)
Theorem validate_local_only_without_local_runs_all reg xml kw w
    (Hnone : get_local_validators reg = []) :
  validate_local_only reg xml kw w = validate reg xml None kw w
  ∧ results (validate_local_only reg xml kw w).1
      = zip_with result_of (dict_values reg) (gather (dict_values reg) xml kw w).1
  ∧ length (results (validate_local_only reg xml kw w).1) = length reg.
Proof.
  assert (Heq : validate_local_only reg xml kw w = validate reg xml None kw w).
  { unfold validate_local_only. by rewrite Hnone. }
  assert (Hext : Forall (fun v => v_is_local v = false) (dict_values reg)).
  { apply Forall_forall. intros v Hv. destruct (v_is_local v) eqn:Hl; [|done].
    assert (v ∈ get_local_validators reg) as Hin by (by apply list_elem_of_filter).
    rewrite Hnone in Hin. by apply elem_of_nil in Hin. }
  split; [done|]. rewrite Heq.
  destruct (validate_results reg xml None kw w) as [Hr _].
  change (resolve reg None) with (dict_values reg) in Hr.
  rewrite run_order_all_external in Hr by done. split; [done|].
  rewrite Hr, length_zip_with, gather_length, Nat.min_id.
  unfold dict_values. by rewrite length_map.
Qed.

End RegistryFacts3.

(** X5.  Local-only mode of the built-in registry never uses the remote
    service: whatever the service does, the batch and the caches it leaves
    are the same, and the batch has the two entries of the structural and
    the rule-based validator. *)
Theorem validate_local_only_ignores_the_service `{Python} `{Lxml}
    (service1 service2 : Zeep) xml kw w :
  validate_local_only (@_register_defaults _ _ service1) xml kw w
    = validate_local_only (@_register_defaults _ _ service2) xml kw w
  ∧ length (results (validate_local_only (@_register_defaults _ _ service1) xml kw w).1)
    = 2.
Proof.
  split.
  - reflexivity.
  - unfold validate_local_only.
    destruct (validate_results (@_register_defaults _ _ service1) xml
                (Some (map v_validator_type
                         (get_local_validators (@_register_defaults _ _ service1))))
                kw w) as [Hr _].
    rewrite Hr, length_zip_with, gather_length. reflexivity.
Qed.

(** ** Grouping by rule *)

Section GroupFacts.
Context `{Python}.
Implicit Types (d : pydict (list RuleEntry)) (ri : ValidationResult * ValidationIssue).

Lemma group_issue_lookup r d i k :
  dict_get (group_issue r d i) k =
    if bool_decide (k = rule_id i)
    then Some (default [] (dict_get d k) ++ [rule_entry (r, i)])
    else dict_get d k.
Proof.
  unfold group_issue. case_bool_decide as Hk.
  - subst k. rewrite dict_get_set_eq. f_equal. f_equal.
    destruct (dict_get d (rule_id i)) as [l|] eqn:Hd; [by rewrite Hd|].
    by rewrite dict_get_set_eq.
  - rewrite dict_get_set_ne by done.
    destruct (dict_get d (rule_id i)); [done|]. by rewrite dict_get_set_ne.
Qed.

Lemma group_issue_keys r d i :
  map fst (group_issue r d i) =
    if bool_decide (rule_id i ∈ map fst d) then map fst d
    else map fst d ++ [rule_id i].
Proof.
  unfold group_issue. rewrite dict_set_keys.
  destruct (dict_get d (rule_id i)) as [l|] eqn:Hd.
  - assert (rule_id i ∈ map fst d) as Hin.
    { destruct (decide (rule_id i ∈ map fst d)) as [|Hn]; [done|].
      apply dict_get_None in Hn. congruence. }
    by rewrite !bool_decide_eq_true_2.
  - apply dict_get_None in Hd. rewrite dict_set_keys.
    rewrite (bool_decide_eq_false_2 _ Hd).
    rewrite bool_decide_eq_true_2; [done|].
    apply elem_of_app. right. left.
Qed.

Lemma total_entries_set_new d k l :
  dict_get d k = None → total_entries (dict_set d k l) = total_entries d + length l.
Proof.
  unfold total_entries. induction d as [|[k' l'] d IH]; simpl; [lia|].
  destruct (String.eqb_spec k' k) as [->|Hne]; [done|]. intros Hd. simpl.
  rewrite IH by done. lia.
Qed.

Lemma total_entries_set_old d k l l0 :
  dict_get d k = Some l0 →
  total_entries (dict_set d k l) + length l0 = total_entries d + length l.
Proof.
  unfold total_entries. induction d as [|[k' l'] d IH]; simpl; [done|].
  destruct (String.eqb_spec k' k) as [->|Hne]; simpl.
  - intros [= ->]. lia.
  - intros Hd. specialize (IH Hd). lia.
Qed.

Lemma group_issue_total r d i : total_entries (group_issue r d i) = S (total_entries d).
Proof.
  unfold group_issue. destruct (dict_get d (rule_id i)) as [l|] eqn:Hd.
  - rewrite Hd. simpl.
    pose proof (total_entries_set_old d (rule_id i)
                  (l ++ [rule_entry (r, i)]) l Hd) as Ht.
    rewrite length_app in Ht. simpl in Ht. unfold rule_entry in Ht. simpl in Ht. lia.
  - rewrite dict_get_set_eq. simpl.
    pose proof (total_entries_set_old (dict_set d (rule_id i) []) (rule_id i)
                  [rule_entry (r, i)] [] (dict_get_set_eq _ _ _)) as Ht.
    rewrite (total_entries_set_new d) in Ht by done. simpl in Ht.
    unfold rule_entry in Ht. simpl in Ht. lia.
Qed.

(** The two nested loops are one loop over all issues. *)
Lemma group_as_one_loop (rs : list ValidationResult) d :
  foldl (fun rule_map result => foldl (group_issue result) rule_map (issues result)) d rs
  = foldl (fun rule_map ri => group_issue ri.1 rule_map ri.2) d (all_issues rs).
Proof.
  revert d. induction rs as [|r rs IH]; intros d; simpl; [done|].
  unfold all_issues in *. simpl. rewrite foldl_app, IH. f_equal.
  generalize (issues r). intros l. revert d.
  induction l as [|i l IHl]; intros d; simpl; [done|]. apply IHl.
Qed.

Lemma group_loop_lookup (l : list (ValidationResult * ValidationIssue)) d k :
  dict_get (foldl (fun rule_map ri => group_issue ri.1 rule_map ri.2) d l) k =
    match dict_get d k, filter (fun ri => rule_id ri.2 = k) l with
    | None, [] => None
    | o, m => Some (default [] o ++ map rule_entry m)
    end.
Proof.
  revert d. induction l as [|[r i] l IH]; intros d; simpl.
  - destruct (dict_get d k); simpl; [by rewrite app_nil_r|done].
  - rewrite IH, group_issue_lookup, filter_cons. simpl.
    case_bool_decide as Hk.
    + subst k. rewrite decide_True by done.
      destruct (filter _ l) as [|m ms]; simpl;
        destruct (dict_get d (rule_id i)); simpl; by rewrite <- ?app_assoc.
    + rewrite decide_False by congruence. done.
Qed.

Lemma group_loop_keys (l : list (ValidationResult * ValidationIssue)) d :
  NoDup (map fst d) →
  NoDup (map fst (foldl (fun rule_map ri => group_issue ri.1 rule_map ri.2) d l)).
Proof.
  revert d. induction l as [|[r i] l IH]; intros d Hd; simpl; [done|].
  apply IH. rewrite group_issue_keys. case_bool_decide as Hin; [done|].
  apply NoDup_app. split; [done|]. split; [|apply NoDup_singleton].
  intros t Ht Ht'. apply list_elem_of_singleton in Ht' as ->. done.
Qed.

Lemma group_loop_total (l : list (ValidationResult * ValidationIssue)) d :
  total_entries (foldl (fun rule_map ri => group_issue ri.1 rule_map ri.2) d l)
  = total_entries d + length l.
Proof.
  revert d. induction l as [|[r i] l IH]; intros d; simpl; [lia|].
  rewrite IH, group_issue_total. lia.
Qed.

Lemma group_total (rs : list ValidationResult) :
  total_entries (_group_issues_by_rule rs) = sum_list (map (fun r => length (issues r)) rs).
Proof.
  unfold _group_issues_by_rule. rewrite group_as_one_loop, group_loop_total. simpl.
  unfold all_issues. induction rs as [|r rs IH]; simpl; [done|].
  by rewrite length_app, length_map, IH.
Qed.

Lemma elem_of_all_issues (rs : list ValidationResult) r i :
  (r, i) ∈ all_issues rs ↔ r ∈ rs ∧ i ∈ issues r.
Proof.
  unfold all_issues. rewrite list_elem_of_In, in_flat_map. split.
  - intros (r' & Hr' & Hi). apply list_elem_of_In, list_elem_of_fmap in Hi
      as (i' & [= -> ->] & Hi'). split; [by apply list_elem_of_In|done].
  - intros [Hr Hi]. exists r. split; [by apply list_elem_of_In|].
    apply list_elem_of_In, list_elem_of_fmap. by exists i.
Qed.

(** X6.  The view grouped by rule id: under a rule id stand the entries of
    exactly the issues with this rule id, in the order of the results and
    of their issues, and a rule id without issue has no key; no key occurs
    twice; the keys are the rule ids of the rows of the comparison matrix;
    and the groups together hold as many entries as there are issues. *)
Theorem group_issues_by_rule_collects_every_issue (rs : list ValidationResult) :
  (∀ k, dict_get (_group_issues_by_rule rs) k =
        match filter (fun ri => rule_id ri.2 = k) (all_issues rs) with
        | [] => None
        | m => Some (map rule_entry m)
        end)
  ∧ NoDup (map fst (_group_issues_by_rule rs))
  ∧ map fst (_group_issues_by_rule rs) ≡ₚ map row_rule_id (comparison_matrix rs)
  ∧ total_entries (_group_issues_by_rule rs) = sum_list (map (fun r => length (issues r)) rs).
Proof.
  unfold _group_issues_by_rule. rewrite group_as_one_loop.
  assert (Hlookup : ∀ k,
    dict_get (foldl (fun rule_map ri => group_issue ri.1 rule_map ri.2) [] (all_issues rs)) k =
      match filter (fun ri => rule_id ri.2 = k) (all_issues rs) with
      | [] => None
      | m => Some (map rule_entry m)
      end).
  { intros k. rewrite group_loop_lookup. simpl. by destruct (filter _ _). }
  assert (Hnd : NoDup (map fst (foldl (fun rule_map ri => group_issue ri.1 rule_map ri.2)
                                  [] (all_issues rs))))
    by (apply group_loop_keys, NoDup_nil_2).
  split; [done|]. split; [done|]. split.
  - apply NoDup_Permutation; [done| |].
    + unfold comparison_matrix. rewrite map_map. simpl. rewrite map_id.
      apply sorted_NoDup.
    + intros k. unfold comparison_matrix. rewrite map_map. simpl. rewrite map_id.
      rewrite elem_of_sorted, elem_of_all_rule_ids.
      destruct (decide (k ∈ map fst (foldl (fun rule_map ri => group_issue ri.1 rule_map ri.2)
                                       [] (all_issues rs)))) as [Hin|Hn].
      * split; [intros _|done].
        destruct (dict_get (foldl (fun rule_map ri => group_issue ri.1 rule_map ri.2)
                              [] (all_issues rs)) k) as [l|] eqn:Hd.
        2:{ apply dict_get_None in Hd. done. }
        rewrite Hlookup in Hd.
        destruct (filter _ (all_issues rs)) as [|[r i] m] eqn:Hf; [done|].
        assert ((r, i) ∈ filter (fun ri => rule_id ri.2 = k) (all_issues rs)) as Hri
          by (rewrite Hf; left).
        apply list_elem_of_filter in Hri as [Hk Hri]. simpl in Hk.
        apply elem_of_all_issues in Hri as [Hr Hi]. by exists r, i.
      * split; [done|]. intros (r & i & Hr & Hi & Hk). exfalso.
        apply dict_get_None in Hn. rewrite Hlookup in Hn.
        assert ((r, i) ∈ filter (fun ri => rule_id ri.2 = k) (all_issues rs)) as Hri.
        { apply list_elem_of_filter. split; [done|]. by apply elem_of_all_issues. }
        destruct (filter _ (all_issues rs)); [by apply elem_of_nil in Hri|done].
  - rewrite <- group_as_one_loop. apply group_total.
Qed.

(** X7.  The report of a batch is consistent: its validator count is the
    number of validators the selection resolved to, its totals are the sums
    of the entries' error and warning counts, its grouped view holds as many
    entries as the results hold issues, and when it says overall success
    every entry says success. *)
Theorem batch_report_is_consistent {World : Type} (reg : ValidatorRegistry World)
    xml sel kw w :
  let report := MultiValidationResult_to_dict (validate reg xml sel kw w).1 in
  validator_count report = length (resolve reg sel)
  ∧ length (d_results report) = validator_count report
  ∧ d_total_errors report = sum_list (map error_count (d_results report))
  ∧ d_total_warnings report = sum_list (map warning_count (d_results report))
  ∧ total_entries (issues_by_rule report)
    = sum_list (map (fun r => length (d_issues r)) (d_results report))
  ∧ (if d_overall_success report
     then forallb d_success (d_results report) = true
     else True).
Proof.
  intros report. subst report. unfold MultiValidationResult_to_dict. simpl.
  destruct (validate_aggregation reg xml sel kw w) as (He & Hw & Hs).
  destruct (validate_results reg xml sel kw w) as [Hr _].
  split; [|split; [|split; [|split; [|split]]]].
  - by rewrite Hr, length_zip_with, gather_length, run_order_length, Nat.min_id.
  - by rewrite length_map.
  - rewrite He, map_map. done.
  - rewrite Hw, map_map. done.
  - rewrite group_total, map_map. f_equal. apply map_ext. intros r. simpl.
    by rewrite length_map.
  - rewrite Hs. destruct (forallb success _) eqn:Hall; simpl; [|done].
    destruct (negb _); [|done]. rewrite forallb_forall in Hall.
    apply forallb_forall. intros rd Hrd. apply in_map_iff in Hrd as (r & <- & Hr').
    simpl. by apply Hall.
Qed.

End GroupFacts.

(** ** Namespaces of tags *)

Section TagFacts.
Local Open Scope string_scope.

Lemma before_char_app c (s t : string) :
  contains_char c s = false → before_char c (s ++ String c t) = s.
Proof.
  induction s as [|a s IH]; simpl.
  - by rewrite Ascii.eqb_refl.
  - destruct (Ascii.eqb a c); [done|]. intros Hs. by rewrite IH.
Qed.

Lemma contains_char_app c (s t : string) :
  contains_char c (s ++ t) = contains_char c s || contains_char c t.
Proof. induction s as [|a s IH]; simpl; [done|]. by destruct (Ascii.eqb a c). Qed.

Lemma lstrip_char_id c (s : string) : contains_char c s = false → lstrip_char c s = s.
Proof. destruct s as [|a s]; simpl; [done|]. by destruct (Ascii.eqb a c). Qed.

Lemma rstrip_char_id c (s : string) : contains_char c s = false → rstrip_char c s = s.
Proof.
  induction s as [|a s IH]; simpl; [done|].
  destruct (Ascii.eqb a c) eqn:Ha; [done|]. intros Hs. rewrite IH by done.
  by destruct s.
Qed.

(** X8.  The namespace of a tag: a tag in Clark notation, a namespace in
    braces before the local name, has that namespace whenever the namespace
    holds no brace; a tag without a closing brace has none. *)
Theorem tag_namespace_of_clark_notation (ns local : string)
    (Hopen : contains_char "{" ns = false)
    (Hclose : contains_char "}" ns = false) :
  tag_namespace ("{" ++ ns ++ "}" ++ local) = Some ns
  ∧ (∀ tag, contains_char "}" tag = false → tag_namespace tag = None).
Proof.
  split.
  - unfold tag_namespace.
    change ("{" ++ ns ++ "}" ++ local) with (String "{" (ns ++ String "}" local)).
    cbn [contains_char]. change (Ascii.eqb "{" "}") with false. cbn iota.
    rewrite contains_char_app. cbn [contains_char]. rewrite Ascii.eqb_refl, orb_true_r.
    cbn [before_char]. change (Ascii.eqb "{" "}") with false. cbn iota.
    rewrite before_char_app by done. unfold strip_char.
    cbn [lstrip_char]. rewrite Ascii.eqb_refl.
    by rewrite lstrip_char_id, rstrip_char_id.
  - intros tag Htag. unfold tag_namespace. by rewrite Htag.
Qed.

End TagFacts.

(** ** The validators, further *)

Section ValidatorFacts2.
Context `{Python} `{Lxml} `{Zeep}.

Lemma helger_flatten_source items :
  Forall (fun i => source i = Some HelgerValidator.name) (HelgerValidator.flatten items).
Proof.
  assert (Hp : ∀ item i, HelgerValidator._parse_issue item = Some i →
                         source i = Some HelgerValidator.name).
  { intros [l1 l2 id tx loc subs] i. unfold HelgerValidator._parse_issue.
    destruct (negb _); [done|]. by intros [= <-]. }
  unfold HelgerValidator.flatten. apply Forall_forall. intros i Hi.
  apply list_elem_of_In, in_flat_map in Hi as (item & _ & Hi).
  destruct item as [l1 l2 id tx loc [|sub subs]].
  - destruct (HelgerValidator._parse_issue _) as [i'|] eqn:Hi'; simpl in Hi; [|done].
    destruct Hi as [<-|[]]. by eapply Hp.
  - apply list_elem_of_In, list_elem_of_omap in Hi as (item & _ & Hi). by eapply Hp.
Qed.

(** X9.  Each built-in validator labels what it returns: the result carries
    the validator's own name and type, and every issue names the validator
    as its source. *)
Theorem builtin_validators_label_their_results xml kwargs w :
  Forall (fun v =>
            match (v_validate v xml kwargs w).1 with
            | Returned r => labelled v r
            | Raised _ => True
            end)
         (dict_values _register_defaults).
Proof.
  repeat apply Forall_cons_2; [| | |apply Forall_nil_2]; simpl.
  - unfold HelgerValidator.validate.
    destruct (decode_utf8 xml); [|done].
    destruct (service_validate _ _ _); repeat split; simpl;
      [apply helger_flatten_source|by apply Forall_singleton].
  - unfold XSDValidator.validate.
    destruct (ET_fromstring xml) as [e|doc]; simpl.
    { repeat split. by apply Forall_singleton. }
    destruct (XSDValidator.get_schema _ _ _ _) as [[schema|] c]; simpl.
    + destruct (XMLSchema_assertValid schema doc); simpl; [by repeat split| |done].
      repeat split. simpl. apply Forall_fmap, Forall_forall. by intros.
    + repeat split. by apply Forall_singleton.
  - unfold SchematronValidator.validate.
    destruct (ET_fromstring xml) as [e|doc]; simpl.
    { repeat split. by apply Forall_singleton. }
    destruct (SchematronValidator.get_xslt _ _ _ _) as [[xslt|] c]; simpl.
    + destruct (XSLT_call xslt doc []) as [tree|e|e]; simpl; [| |done].
      * repeat split. simpl. unfold SchematronValidator._parse_svrl.
        destruct (ResultTree_getroot tree); [|done].
        apply Forall_app. split; apply Forall_fmap, Forall_forall; by intros.
      * repeat split. by apply Forall_singleton.
    + repeat split. by apply Forall_singleton.
Qed.

End ValidatorFacts2.

Section ValidatorFacts3.
Context `{Python} `{Lxml} `{Zeep}.

(** *** The structural validator *)

(** X10.  What the structural validator returns has one of four shapes: the
    single syntax error, failed; the single Info that no schema was found,
    successful; no issue at all, successful; or one error XSD_INVALID per
    entry of the schema's error log, failed.  It never reports a warning
    and never attaches a raw response. *)
Theorem xsd_result_shapes xml schema_path auto_detect cache :
  match (XSDValidator.validate xml schema_path auto_detect cache).1 with
  | Raised _ => True
  | Returned r =>
      warnings r = [] ∧ raw_response r = None
      ∧ ((success r = false
          ∧ ∃ i, issues r = [i] ∧ severity i = ERROR ∧ rule_id i = "XML_SYNTAX")
         ∨ (success r = true
            ∧ ∃ i, issues r = [i] ∧ severity i = INFO ∧ rule_id i = "XSD_NO_SCHEMA")
         ∨ (success r = true ∧ issues r = [])
         ∨ (success r = false
            ∧ ∃ schema doc,
                ET_fromstring xml = inr doc
                ∧ length (issues r) = length (XMLSchema_error_log schema doc)
                ∧ Forall (fun i => severity i = ERROR ∧ rule_id i = "XSD_INVALID")
                    (issues r)))
  end.
Proof.
  unfold XSDValidator.validate.
  destruct (ET_fromstring xml) as [e|doc] eqn:Hp; simpl.
  { split; [done|]. split; [done|]. left. split; [done|]. by eexists. }
  destruct (XSDValidator.get_schema _ _ _ _) as [[schema|] c]; simpl.
  2:{ split; [done|]. split; [done|]. right; left. split; [done|]. by eexists. }
  destruct (XMLSchema_assertValid schema doc); simpl; [| |done].
  { split; [done|]. split; [done|]. right; right; left. done. }
  split.
  { unfold warnings. simpl. induction (XMLSchema_error_log schema doc); [done|].
    simpl. by rewrite filter_cons_False. }
  split; [done|]. right; right; right. split; [done|].
  exists schema, doc. split; [done|]. split; [by rewrite length_map|].
  apply Forall_fmap, Forall_forall. by intros.
Qed.

Lemma _load_schema_twice p cache :
  XSDValidator._load_schema p (XSDValidator._load_schema p cache).2
    = XSDValidator._load_schema p cache.
Proof.
  unfold XSDValidator._load_schema.
  destruct (cache !! p) as [schema|] eqn:Hc; cbn [snd]; [by rewrite Hc|].
  destruct (XSDValidator.load_from_disk p) as [schema|] eqn:Hd; cbn [snd].
  - by rewrite lookup_insert_eq.
  - by rewrite Hc.
Qed.

Lemma get_schema_twice sp ad doc cache :
  XSDValidator.get_schema sp ad doc (XSDValidator.get_schema sp ad doc cache).2
    = XSDValidator.get_schema sp ad doc cache.
Proof.
  unfold XSDValidator.get_schema, XSDValidator._detect_schema.
  repeat (case_match; try done); apply _load_schema_twice.
Qed.

(** X11.  Validating the same document with the same options again, in the
    cache the first call left, gives the same outcome and leaves the cache
    as it is: a schema loaded by the first call is served from the cache by
    the second. *)
Theorem xsd_validate_twice xml schema_path auto_detect cache :
  XSDValidator.validate xml schema_path auto_detect
      (XSDValidator.validate xml schema_path auto_detect cache).2
    = XSDValidator.validate xml schema_path auto_detect cache.
Proof.
  unfold XSDValidator.validate.
  destruct (ET_fromstring xml) as [e|doc]; simpl; [done|].
  pose proof (get_schema_twice schema_path auto_detect doc cache) as Ht.
  destruct (XSDValidator.get_schema schema_path auto_detect doc cache)
    as [[schema|] c] eqn:Hs; simpl in *.
  - destruct (XMLSchema_assertValid schema doc) eqn:Hv; simpl;
      rewrite Ht; simpl; by rewrite ?Hv.
  - by rewrite Ht.
Qed.

Lemma _load_schema_grows p cache :
  let cache' := (XSDValidator._load_schema p cache).2 in
  cache' = cache
  ∨ ∃ schema, cache !! p = None ∧ XSDValidator.load_from_disk p = Some schema
              ∧ (XSDValidator._load_schema p cache).1 = Some schema
              ∧ cache' = <[p := schema]> cache.
Proof.
  unfold XSDValidator._load_schema.
  destruct (cache !! p) as [schema|] eqn:Hc; cbn [fst snd]; [by left|].
  destruct (XSDValidator.load_from_disk p) as [schema|] eqn:Hd; cbn [fst snd]; [|by left].
  right. by exists schema.
Qed.

(** X12.  The schema cache only grows, by at most one schema per call: a
    call keeps every entry as it was, and what it adds is the schema loaded
    from the disk for a path that was not cached, the explicit schema path
    or a file name of the schema table.  A path that loads nothing is not
    cached. *)
Theorem xsd_cache_only_grows xml schema_path auto_detect cache :
  let cache' := (XSDValidator.validate xml schema_path auto_detect cache).2 in
  cache ⊆ cache'
  ∧ (cache' = cache
     ∨ ∃ p schema,
         cache !! p = None ∧ XSDValidator.load_from_disk p = Some schema
         ∧ cache' = <[p := schema]> cache
         ∧ (schema_path = Some p ∨ p ∈ map snd XSDValidator.SCHEMA_MAP)).
Proof.
  intros cache'.
  assert (Hcases : cache' = cache
     ∨ ∃ p schema,
         cache !! p = None ∧ XSDValidator.load_from_disk p = Some schema
         ∧ cache' = <[p := schema]> cache
         ∧ (schema_path = Some p ∨ p ∈ map snd XSDValidator.SCHEMA_MAP)).
  { subst cache'. unfold XSDValidator.validate.
    destruct (ET_fromstring xml) as [e|doc]; simpl; [by left|].
    assert (Hg : (XSDValidator.get_schema schema_path auto_detect doc cache).2 = cache
       ∨ ∃ p schema,
           cache !! p = None ∧ XSDValidator.load_from_disk p = Some schema
           ∧ (XSDValidator.get_schema schema_path auto_detect doc cache).2
             = <[p := schema]> cache
           ∧ (schema_path = Some p ∨ p ∈ map snd XSDValidator.SCHEMA_MAP)).
    { unfold XSDValidator.get_schema.
      destruct (truthy schema_path) eqn:Ht.
      - destruct schema_path as [p|]; [|done]. simpl.
        destruct (_load_schema_grows p cache) as [?|(schema & ? & ? & _ & ?)];
          [by left|]. right. exists p, schema. auto.
      - destruct auto_detect; [|by left]. unfold XSDValidator._detect_schema.
        destruct (tag_namespace _) as [ns|]; [|by left].
        destruct (truthy (Some ns)); [|by left].
        destruct (dict_get XSDValidator.SCHEMA_MAP ns) as [file|] eqn:Hf; [|by left].
        destruct (truthy (Some file)); [|by left].
        destruct (_load_schema_grows file cache) as [?|(schema & ? & ? & _ & ?)];
          [by left|]. right. exists file, schema. split; [done|]. split; [done|].
        split; [done|]. right.
        clear -Hf. generalize dependent XSDValidator.SCHEMA_MAP. intros m.
        induction m as [|[k v] m IH]; simpl; [done|].
        destruct (String.eqb k ns); [intros [= ->]; left|intros Hm; right; by apply IH]. }
    destruct (XSDValidator.get_schema schema_path auto_detect doc cache)
      as [[schema|] c]; simpl in *; [|done].
    by destruct (XMLSchema_assertValid schema doc). }
  split; [|done].
  destruct Hcases as [->|(p & schema & Hc & _ & -> & _)]; [done|].
  by apply insert_subseteq.
Qed.

(** *** The rule-based validator *)

(** X13.  A profile name that is not in the profile table: with no explicit
    rule file, a well-formed document gets the successful single-Info
    result that there are no rules, whatever its namespace is (no
    auto-detection is tried), and the cache is left alone. *)
Theorem schematron_unknown_profile_is_no_rules xml doc schematron_path profile cache
    (Hparse : ET_fromstring xml = inr doc)
    (Hno_path : truthy schematron_path = false)
    (Hprofile : profile ≠ "")
    (Hunknown : dict_get SchematronValidator.SCHEMATRON_MAP profile = None) :
  SchematronValidator.validate xml schematron_path (Some profile) cache =
    (Returned (mkResult "Schematron" "schematron" true
                 [mkIssue INFO "SCH_NO_RULES"
                    "No Schematron rules found for this document type."
                    None (Some "Schematron")]
                 None (Some elapsed_ms)), cache).
Proof.
  unfold SchematronValidator.validate, SchematronValidator.get_xslt. rewrite Hparse, Hno_path.
  assert (truthy (Some profile) = true) as ->.
  { simpl. by destruct (String.eqb_spec profile ""). }
  unfold SchematronValidator._load_profile. cbn [default from_option]. unfold id.
  by rewrite Hunknown.
Qed.

Lemma _load_xslt_twice p cache :
  SchematronValidator._load_xslt p (SchematronValidator._load_xslt p cache).2
    = SchematronValidator._load_xslt p cache.
Proof.
  unfold SchematronValidator._load_xslt. cbv zeta.
  destruct (cache !! p) as [xslt|] eqn:Hc; cbn [snd]; [by rewrite Hc|].
  destruct (negb (Path_exists _)) eqn:He; cbn [snd]; [by rewrite Hc|].
  destruct (ET_parse _) as [d|] eqn:Hd; cbn [snd]; [|by rewrite Hc].
  destruct (ET_XSLT d) as [e|xslt] eqn:Hx; cbn [snd]; [by rewrite Hc|].
  by rewrite lookup_insert_eq.
Qed.

Lemma get_xslt_twice sp pr doc cache :
  SchematronValidator.get_xslt sp pr doc (SchematronValidator.get_xslt sp pr doc cache).2
    = SchematronValidator.get_xslt sp pr doc cache.
Proof.
  unfold SchematronValidator.get_xslt, SchematronValidator._detect_profile,
    SchematronValidator._load_profile.
  repeat (case_match; try done); apply _load_xslt_twice.
Qed.

Lemma _load_xslt_subseteq p cache : cache ⊆ (SchematronValidator._load_xslt p cache).2.
Proof.
  unfold SchematronValidator._load_xslt. cbv zeta.
  destruct (cache !! p) as [xslt|] eqn:Hc; cbn [snd]; [done|].
  destruct (negb (Path_exists _)); cbn [snd]; [done|].
  destruct (ET_parse _) as [d|]; cbn [snd]; [|done].
  destruct (ET_XSLT d) as [e|xslt]; cbn [snd]; [done|]. by apply insert_subseteq.
Qed.

(** X14.  Validating against the rules again, with the same document and
    options in the cache the first call left, gives the same outcome and
    leaves the cache as it is; and a call never removes or replaces a
    compiled rule set. *)
Theorem schematron_validate_twice xml schematron_path profile cache :
  SchematronValidator.validate xml schematron_path profile
      (SchematronValidator.validate xml schematron_path profile cache).2
    = SchematronValidator.validate xml schematron_path profile cache
  ∧ cache ⊆ (SchematronValidator.validate xml schematron_path profile cache).2.
Proof.
  unfold SchematronValidator.validate.
  destruct (ET_fromstring xml) as [e|doc]; simpl; [done|].
  pose proof (get_xslt_twice schematron_path profile doc cache) as Ht.
  assert (Hsub : cache ⊆ (SchematronValidator.get_xslt schematron_path profile doc cache).2).
  { unfold SchematronValidator.get_xslt, SchematronValidator._detect_profile,
      SchematronValidator._load_profile.
    repeat (case_match; try done); apply _load_xslt_subseteq. }
  destruct (SchematronValidator.get_xslt schematron_path profile doc cache)
    as [[xslt|] c] eqn:Hs; simpl in *.
  - destruct (XSLT_call xslt doc []) eqn:Hv; simpl;
      (split; [|done]); rewrite Ht; simpl; by rewrite ?Hv.
  - by rewrite Ht.
Qed.

(** X15.  The list of profiles names the three built-in profiles, and a
    profile it reports as unavailable validates leniently: when its file
    name is a relative path and its rule set is not cached, a well-formed
    document validated under that profile gets the no-rules result. *)
Theorem unavailable_profile_is_no_rules xml doc cache
    (Hparse : ET_fromstring xml = inr doc) :
  map profile_name list_available_profiles = ["peppol-bis3"; "en16931-ubl"; "en16931-cii"]
  ∧ Forall (fun info =>
              profile_available info = false →
              Path_is_absolute (profile_filename info) = false →
              cache !! profile_filename info = None →
              SchematronValidator.validate xml None (Some (profile_name info)) cache
                = (Returned SchematronValidator.no_rules_result, cache))
      list_available_profiles.
Proof.
  split; [done|].
  assert (Hone : ∀ profile file,
            dict_get SchematronValidator.SCHEMATRON_MAP profile = Some file →
            profile ≠ "" → file ≠ "" →
            Path_exists (Path_join SCHEMATRON_DIR file) = false →
            Path_is_absolute file = false →
            cache !! file = None →
            SchematronValidator.validate xml None (Some profile) cache
              = (Returned SchematronValidator.no_rules_result, cache)).
  { intros profile file Hd Hp Hf He Ha Hc.
    unfold SchematronValidator.validate, SchematronValidator.get_xslt. rewrite Hparse.
    simpl. destruct (String.eqb_spec profile ""); [done|]. simpl.
    unfold SchematronValidator._load_profile. rewrite Hd. simpl.
    destruct (String.eqb_spec file ""); [done|]. simpl.
    unfold SchematronValidator._load_xslt. by rewrite Hc, Ha, He. }
  unfold list_available_profiles.
  repeat apply Forall_cons_2; [| | |apply Forall_nil_2]; cbn [fst snd profile_name
    profile_filename profile_available]; intros He Ha Hc;
    (eapply Hone; [reflexivity|done..]).
Qed.

(** *** The remote validator *)

Lemma flatten_errors items :
  existsb is_error (HelgerValidator.flatten items) = existsb is_error_level (candidates items).
Proof.
  assert (Hp : ∀ item,
    existsb is_error (option_list (HelgerValidator._parse_issue item))
    = is_error_level item).
  { intros [l1 l2 id tx loc subs]. unfold HelgerValidator._parse_issue, is_error_level.
    simpl. destruct (truthy (or_else l1 l2)); simpl; [|done].
    unfold is_error. simpl.
    destruct (String.eqb _ "ERROR"); simpl; [done|].
    by destruct (String.eqb _ "WARN"). }
  unfold HelgerValidator.flatten, candidates.
  induction items as [|item items IH]; simpl; [done|].
  rewrite !existsb_app, IH. f_equal.
  destruct item as [l1 l2 id tx loc [|sub subs]].
  - rewrite Hp. simpl. by rewrite orb_false_r.
  - clear -Hp. generalize (sub :: subs). intros l.
    induction l as [|x l IHl]; [done|].
    cbn [existsb]. rewrite <- Hp, <- IHl. simpl.
    destruct (HelgerValidator._parse_issue x); simpl; [by rewrite orb_false_r|done].
Qed.

(** X16.  The remote validator raises only when the document is not valid
    UTF-8; a failure of the service is a result.  A result is a success
    exactly when it holds no error issue: after a failed call it holds the
    single error HELGER_CONNECTION, and after an answer it is a success
    exactly when no item of the report that can become an issue (a nested
    item, or an item without nested items) has the level ERROR.  Without a
    VESID, or with an empty one, the Peppol invoice VESID is used. *)
Theorem helger_outcomes xml vesid :
  match HelgerValidator.validate xml vesid with
  | Raised e => decode_utf8 xml = Raised e
  | Returned r =>
      (∃ xml_string, decode_utf8 xml = Returned xml_string)
      ∧ success r = negb (existsb is_error (issues r))
      ∧ match raw_response r with
        | None =>
            success r = false
            ∧ ∃ msg, issues r = [mkIssue ERROR "HELGER_CONNECTION" msg None
                                   (Some "Helger WSDVS")]
        | Some report =>
            success r = negb (existsb is_error_level (candidates (Result report)))
        end
  end
  ∧ HelgerValidator.validate xml None
    = HelgerValidator.validate xml (Some "eu.peppol.bis3:invoice:2025.5")
  ∧ HelgerValidator.validate xml (Some "")
    = HelgerValidator.validate xml (Some "eu.peppol.bis3:invoice:2025.5").
Proof.
  split; [|done].
  unfold HelgerValidator.validate.
  destruct (decode_utf8 xml) as [xml_string|e]; [|done].
  destruct (service_validate _ _ _) as [report|e]; simpl.
  - assert (Hlen : ∀ l : list ValidationIssue,
      (length (filter (fun i => Severity_eqb (severity i) ERROR = true) l) =? 0)%nat
      = negb (existsb is_error l)).
    { induction l as [|i l IH]; [done|]. rewrite filter_cons. unfold is_error in *.
      simpl. destruct (Severity_eqb (severity i) ERROR) eqn:Hs;
        case_decide; simplify_eq/=; done. }
    split; [by eexists|]. split; [apply Hlen|]. by rewrite Hlen, flatten_errors.
  - split; [by eexists|]. split; [done|]. split; [done|]. by eexists.
Qed.

End ValidatorFacts3.

(** ** More on the transformer *)

Section TransformerFacts2.
Context `{Python} `{Lxml} `{Saxon}.
Import TransformerService.

Lemma _transform_lxml_shape xml xslt parameters st r :
  (_transform_lxml xml xslt parameters st).1 = Returned r →
  result_shape r ∧ xslt_version r = Some V1_0 ∧ processor r = Some "lxml"
  ∧ (tr_success r = true → output r = None →
     ∃ t doc ps result, XSLT_call t doc ps = ApplyOk result ∧ ET_tostring result = None).
Proof.
  assert (Hf : ∀ msg, result_shape (lxml_failure msg)) by (intros; split; by eauto).
  assert (Happly : ∀ t doc (st1 : State),
    (match (match parameters with
            | Some ((_ :: _) as str_params) => XSLT_call t doc str_params
            | _ => XSLT_call t doc []
            end) with
     | ApplyOk result =>
         (Returned (mkTransformResult true (ET_tostring result) None
                      (Some V1_0) (Some "lxml")), st1)
     | XSLTApplyError e =>
         (Returned (lxml_failure ("XSLT transform error: " ++ e)%string), st1)
     | ApplyRaised e => (Raised e, st1)
     end).1 = Returned r →
    result_shape r ∧ xslt_version r = Some V1_0 ∧ processor r = Some "lxml"
    ∧ (tr_success r = true → output r = None →
       ∃ t doc ps result, XSLT_call t doc ps = ApplyOk result ∧ ET_tostring result = None)).
  { intros t doc st1.
    set (ps := match parameters with Some ((_ :: _) as str_params) => str_params | _ => [] end).
    assert (match parameters with
            | Some ((_ :: _) as str_params) => XSLT_call t doc str_params
            | _ => XSLT_call t doc []
            end = XSLT_call t doc ps) as -> by (by destruct parameters as [[|? ?]|]).
    destruct (XSLT_call t doc ps) as [result|e|e] eqn:Ha; simpl; [| |done].
    - intros [= <-]. simpl. repeat (split; [done|]). intros _ Hnone. by exists t, doc, ps, result.
    - intros [= <-]. repeat (split; [done|]). done. }
  unfold _transform_lxml.
  destruct (_lxml_cache st !! md5_hexdigest xslt) as [t|].
  - destruct (ET_fromstring xml); [|by apply Happly].
    simpl. intros [= <-]. repeat (split; [done|]). done.
  - destruct (ET_fromstring xslt); simpl; [intros [= <-]; repeat (split; [done|]); done|].
    destruct (ET_XSLT _); simpl; [intros [= <-]; repeat (split; [done|]); done|].
    destruct (ET_fromstring xml); [|by apply Happly].
    simpl. intros [= <-]. repeat (split; [done|]). done.
Qed.

Lemma saxon_run_shape proc xml xslt version parameters r :
  saxon_run proc xml xslt version parameters = Returned r →
  result_shape r ∧ xslt_version r = Some version ∧ processor r = Some "saxon"
  ∧ (tr_success r = true → is_Some (output r)).
Proof.
  unfold saxon_run, mbind, outcome_bind.
  repeat (case_match; try done); intros [= <-]; simpl;
    (split; [first [done | split; by eauto]|]); (split; [done|]); (split; [done|]);
    by eauto.
Qed.

Lemma _transform_saxon_shape xml xslt version parameters st :
  ∃ r, (_transform_saxon xml xslt version parameters st).1 = Returned r
       ∧ result_shape r ∧ xslt_version r = Some version
       ∧ processor r = (if SAXON_AVAILABLE then Some "saxon" else None)
       ∧ (tr_success r = true → is_Some (output r)).
Proof.
  unfold _transform_saxon, get_saxon_processor.
  destruct SAXON_AVAILABLE; simpl.
  - destruct (_saxon_processor st) as [proc|];
      [destruct (saxon_run proc xml xslt version parameters) as [r|e] eqn:Hr
      |destruct (saxon_run PySaxonProcessor xml xslt version parameters) as [r|e] eqn:Hr];
      simpl; eexists; (split; [reflexivity|]);
      try (apply saxon_run_shape in Hr as (? & ? & ? & ?); done);
      (split; [split; by eauto|done]).
  - eexists. split; [reflexivity|]. split; [split; by eauto|done].
Qed.

Lemma transform_shape xml xslt force_version parameters st r :
  (transform xml xslt force_version parameters st).1 = Returned r →
  result_shape r ∧ xslt_version r = Some (effective_version force_version xslt).
Proof.
  unfold transform.
  assert (Hsaxon : ∀ v,
    (if negb SAXON_AVAILABLE
     then (Returned (mkTransformResult false None
             (Some ("XSLT " ++ XSLTVersion_value v
                    ++ " requires saxonche. Install with: pip install saxonche")%string)
             (Some v) None), st)
     else _transform_saxon xml xslt v parameters st).1 = Returned r →
    result_shape r ∧ xslt_version r = Some v).
  { intros v.
    destruct (_transform_saxon_shape xml xslt v parameters st) as (r' & Hr & Hs & Hv & _).
    destruct SAXON_AVAILABLE; simpl.
    - rewrite Hr. by intros [= <-].
    - intros [= <-]. split; [split; by eauto|done]. }
  destruct (effective_version force_version xslt); [|apply Hsaxon..].
  intros Hr. by apply _transform_lxml_shape in Hr as (? & -> & _).
Qed.

(** X17.  What a transformation returns is well formed: a failure has an
    error and no output, a success has no error; a success of Saxon always
    has an output, and a success of lxml has the serialisation of the
    result tree, which is missing when the tree has none (a result without
    a root).  The result always carries the version that was used (the
    forced one, or else the detected one) and names the processor that ran,
    lxml for 1.0 and Saxon otherwise, or none when Saxon is missing.  A
    failure of Saxon is never raised: only a stylesheet of version 1.0 can
    end in an exception. *)
Theorem transform_result_is_well_formed xml xslt force_version parameters st :
  let version := effective_version force_version xslt in
  match (transform xml xslt force_version parameters st).1 with
  | Raised _ => version = V1_0
  | Returned r =>
      result_shape r
      ∧ (tr_success r = true → output r = None →
         version = V1_0
         ∧ ∃ t doc ps result,
             XSLT_call t doc ps = ApplyOk result ∧ ET_tostring result = None)
      ∧ xslt_version r = Some version
      ∧ processor r = match version with
                      | V1_0 => Some "lxml"
                      | _ => if SAXON_AVAILABLE then Some "saxon" else None
                      end
  end.
Proof.
  intros version. unfold transform. fold version.
  assert (Hsaxon : ∀ v, v ≠ V1_0 →
    match (if negb SAXON_AVAILABLE
           then (Returned (mkTransformResult false None
                   (Some ("XSLT " ++ XSLTVersion_value v
                          ++ " requires saxonche. Install with: pip install saxonche")%string)
                   (Some v) None), st)
           else _transform_saxon xml xslt v parameters st).1 with
    | Raised _ => v = V1_0
    | Returned r =>
        result_shape r
        ∧ (tr_success r = true → output r = None →
           v = V1_0
           ∧ ∃ t doc ps result,
               XSLT_call t doc ps = ApplyOk result ∧ ET_tostring result = None)
        ∧ xslt_version r = Some v
        ∧ processor r = if SAXON_AVAILABLE then Some "saxon" else None
    end).
  { intros v Hv.
    destruct (_transform_saxon_shape xml xslt v parameters st)
      as (r & Hr & Hs & Hver & Hproc & Hout).
    destruct SAXON_AVAILABLE eqn:Ha; simpl.
    - rewrite Hr. split; [done|]. split; [|done].
      intros Ht Hnone. destruct (Hout Ht) as [out Ho]. congruence.
    - split; [split; by eauto|]. split; [|done]. by intros [=]. }
  destruct version.
  - destruct (_transform_lxml xml xslt parameters st).1 as [r|e] eqn:Hr; [|done].
    apply _transform_lxml_shape in Hr as (? & ? & ? & Hout).
    split; [done|]. split; [|done]. intros Ht Hnone. split; [done|]. by apply Hout.
  - by apply (Hsaxon V2_0).
  - by apply (Hsaxon V3_0).
Qed.

(** X18.  What a transformation changes in the state.  The stylesheet cache
    changes only on a miss for a stylesheet of version 1.0 that compiles:
    its compilation is stored under the digest of its bytes, also when the
    document then fails to parse or to transform; nothing cached is ever
    removed or replaced.  The Saxon singleton changes only on its first use:
    it is created for a stylesheet of version 2.0 or 3.0 when Saxon is
    installed, and kept from then on. *)
Theorem transform_state_change xml xslt force_version parameters st :
  let version := effective_version force_version xslt in
  let st' := (transform xml xslt force_version parameters st).2 in
  _lxml_cache st' =
    match version, _lxml_cache st !! md5_hexdigest xslt, compile xslt with
    | V1_0, None, Some transform => <[md5_hexdigest xslt := transform]> (_lxml_cache st)
    | _, _, _ => _lxml_cache st
    end
  ∧ _lxml_cache st ⊆ _lxml_cache st'
  ∧ _saxon_processor st' =
      match version, _saxon_processor st with
      | V1_0, _ => _saxon_processor st
      | _, Some proc => Some proc
      | _, None => if SAXON_AVAILABLE then Some PySaxonProcessor else None
      end.
Proof.
  intros version st'.
  assert (Hcache : _lxml_cache st' =
    match version, _lxml_cache st !! md5_hexdigest xslt, compile xslt with
    | V1_0, None, Some transform => <[md5_hexdigest xslt := transform]> (_lxml_cache st)
    | _, _, _ => _lxml_cache st
    end
  ∧ _saxon_processor st' =
      match version, _saxon_processor st with
      | V1_0, _ => _saxon_processor st
      | _, Some proc => Some proc
      | _, None => if SAXON_AVAILABLE then Some PySaxonProcessor else None
      end).
  { subst st'. unfold transform. fold version.
    assert (Hsaxon : ∀ v,
      let st1 := (if negb SAXON_AVAILABLE
                  then (Returned (mkTransformResult false None
                          (Some ("XSLT " ++ XSLTVersion_value v
                                 ++ " requires saxonche. Install with: pip install saxonche")%string)
                          (Some v) None), st)
                  else _transform_saxon xml xslt v parameters st).2 in
      _lxml_cache st1 = _lxml_cache st
      ∧ _saxon_processor st1 =
          match _saxon_processor st with
          | Some proc => Some proc
          | None => if SAXON_AVAILABLE then Some PySaxonProcessor else None
          end).
    { intros v. unfold _transform_saxon, get_saxon_processor.
      destruct SAXON_AVAILABLE; simpl; [|by destruct (_saxon_processor st)].
      destruct (_saxon_processor st) as [proc|] eqn:Hp;
        [destruct (saxon_run proc xml xslt v parameters)
        |destruct (saxon_run PySaxonProcessor xml xslt v parameters)]; simpl; by rewrite ?Hp. }
    destruct version.
    - unfold _transform_lxml, compile.
      destruct (_lxml_cache st !! md5_hexdigest xslt) as [t|].
      + destruct (ET_fromstring xml); simpl; [done|].
        by destruct (match parameters with Some (_ :: _ as ps) => _ | _ => _ end).
      + destruct (ET_fromstring xslt); simpl; [done|].
        destruct (ET_XSLT _); simpl; [done|].
        destruct (ET_fromstring xml); simpl; [done|].
        by destruct (match parameters with Some (_ :: _ as ps) => _ | _ => _ end).
    - by destruct (Hsaxon V2_0) as [-> ->].
    - by destruct (Hsaxon V3_0) as [-> ->]. }
  destruct Hcache as [Hc Hp]. split; [done|]. split; [|done].
  rewrite Hc. destruct version; try done.
  destruct (_lxml_cache st !! md5_hexdigest xslt) eqn:Hk; [done|].
  destruct (compile xslt); [|done]. by apply insert_subseteq.
Qed.

Lemma transform_cache_step xml xslt force_version parameters st :
  let st' := (transform xml xslt force_version parameters st).2 in
  (_lxml_cache st' = _lxml_cache st
   ∨ ∃ t, compile xslt = Some t
          ∧ _lxml_cache st' = <[md5_hexdigest xslt := t]> (_lxml_cache st))
  ∧ (_saxon_processor st' = _saxon_processor st
     ∨ _saxon_processor st' = Some PySaxonProcessor).
Proof.
  unfold transform.
  assert (Hsaxon : ∀ v,
    let st1 := (if negb SAXON_AVAILABLE
                then (Returned (mkTransformResult false None
                        (Some ("XSLT " ++ XSLTVersion_value v
                               ++ " requires saxonche. Install with: pip install saxonche")%string)
                        (Some v) None), st)
                else _transform_saxon xml xslt v parameters st).2 in
    (_lxml_cache st1 = _lxml_cache st
     ∨ ∃ t, compile xslt = Some t
            ∧ _lxml_cache st1 = <[md5_hexdigest xslt := t]> (_lxml_cache st))
    ∧ (_saxon_processor st1 = _saxon_processor st
       ∨ _saxon_processor st1 = Some PySaxonProcessor)).
  { intros v. unfold _transform_saxon, get_saxon_processor.
    destruct SAXON_AVAILABLE; simpl; [|by auto].
    destruct (_saxon_processor st) as [proc|] eqn:Hp;
      [destruct (saxon_run proc xml xslt v parameters)
      |destruct (saxon_run PySaxonProcessor xml xslt v parameters)]; simpl; auto. }
  destruct (effective_version force_version xslt); [|apply Hsaxon..].
  unfold _transform_lxml, compile.
  destruct (_lxml_cache st !! md5_hexdigest xslt) as [t|].
  - destruct (ET_fromstring xml); simpl; [by auto|].
    destruct (match parameters with Some (_ :: _ as ps) => _ | _ => _ end); simpl; auto.
  - destruct (ET_fromstring xslt) as [e1|xslt_doc]; simpl; [by auto|].
    destruct (ET_XSLT xslt_doc) as [e2|t]; simpl; [by auto|].
    assert (∃ t0, Some t = Some t0
                  ∧ <[md5_hexdigest xslt := t]> (_lxml_cache st)
                    = <[md5_hexdigest xslt := t0]> (_lxml_cache st)) by (by exists t).
    destruct (ET_fromstring xml) as [e3|xml_doc]; simpl; [by auto|].
    destruct (match parameters with Some (_ :: _ as ps) => _ | _ => _ end); simpl; auto.
Qed.

Lemma cache_from_mono used used' st :
  used ⊆ used' → cache_from used st → cache_from used' st.
Proof.
  intros Hsub Hc key t Hk. destruct (Hc key t Hk) as (x & Hx & ? & ?).
  exists x. split; [by apply Hsub|done].
Qed.

Lemma transform_cache_from used xml xslt force_version parameters st :
  cache_from used st →
  cache_from (used ++ [xslt]) (transform xml xslt force_version parameters st).2.
Proof.
  intros Hc.
  destruct (transform_cache_step xml xslt force_version parameters st)
    as [[Hsame|(t & Ht & Hnew)] _]; intros key t' Hk.
  - rewrite Hsame in Hk. destruct (Hc key t' Hk) as (x & Hx & ? & ?).
    exists x. split; [|done]. apply elem_of_app. by left.
  - rewrite Hnew in Hk. destruct (decide (md5_hexdigest xslt = key)) as [<-|Hne].
    + rewrite lookup_insert_eq in Hk. injection Hk as <-.
      exists xslt. split; [|done]. apply elem_of_app. right. by apply list_elem_of_singleton.
    + rewrite lookup_insert_ne in Hk by done. destruct (Hc key t' Hk) as (x & Hx & ? & ?).
      exists x. split; [|done]. apply elem_of_app. by left.
Qed.

Lemma transform_processor_ok xml xslt force_version parameters st :
  _saxon_processor st = None ∨ _saxon_processor st = Some PySaxonProcessor →
  _saxon_processor (transform xml xslt force_version parameters st).2 = None
  ∨ _saxon_processor (transform xml xslt force_version parameters st).2
    = Some PySaxonProcessor.
Proof.
  intros Hp.
  destruct (transform_cache_step xml xslt force_version parameters st) as [_ [-> | ->]];
    auto.
Qed.

Lemma after_transforms_from calls used st :
  cache_from used st →
  _saxon_processor st = None ∨ _saxon_processor st = Some PySaxonProcessor →
  cache_from (used ++ stylesheets calls) (after_transforms calls st)
  ∧ (_saxon_processor (after_transforms calls st) = None
     ∨ _saxon_processor (after_transforms calls st) = Some PySaxonProcessor).
Proof.
  revert used st. induction calls as [|[[[xml xslt] fv] ps] calls IH];
    intros used st Hc Hp.
  - simpl. by rewrite app_nil_r.
  - cbn [stylesheets map after_transforms foldl].
    replace (used ++ xslt :: map (fun '(_, xslt0, _, _) => xslt0) calls)
      with ((used ++ [xslt]) ++ stylesheets calls)
      by (by rewrite <- app_assoc).
    apply IH; [by apply transform_cache_from|by apply transform_processor_ok].
Qed.

(** The stylesheet cache is transparent when no stylesheet used before
    shares the digest of this one without being this one. *)
Lemma transform_transparent_from used xml xslt force_version parameters st :
  cache_from used st →
  _saxon_processor st = None ∨ _saxon_processor st = Some PySaxonProcessor →
  (∀ x, x ∈ used → md5_hexdigest x = md5_hexdigest xslt → x = xslt) →
  (transform xml xslt force_version parameters st).1
  = (transform xml xslt force_version parameters (mkState ∅ None)).1.
Proof.
  intros Hc Hp Hdigest. unfold transform.
  destruct (effective_version force_version xslt).
  - unfold _transform_lxml. simpl. rewrite lookup_empty.
    destruct (_lxml_cache st !! md5_hexdigest xslt) as [t|] eqn:Hk.
    + destruct (Hc _ _ Hk) as (x & Hx & Hd & Ht).
      apply Hdigest in Hd as ->; [|done]. unfold compile in Ht.
      destruct (ET_fromstring xslt) as [e|xslt_doc]; [done|].
      destruct (ET_XSLT xslt_doc) as [e|t0]; [done|]. injection Ht as ->.
      destruct (ET_fromstring xml); [done|].
      destruct parameters as [[|? ?]|]; by destruct (XSLT_call _ _ _).
    + destruct (ET_fromstring xslt); [done|]. destruct (ET_XSLT _); [done|].
      destruct (ET_fromstring xml); [done|].
      destruct parameters as [[|? ?]|]; by destruct (XSLT_call _ _ _).
  - destruct SAXON_AVAILABLE; simpl; [|done].
    by apply _transform_saxon_processor_transparent.
  - destruct SAXON_AVAILABLE; simpl; [|done].
    by apply _transform_saxon_processor_transparent.
Qed.

(** X19.  A transformation does not depend on the calls made before it:
    after any sequence of calls from the initial state, it has the outcome
    it has in the initial state, provided no stylesheet of an earlier call
    has the digest of this stylesheet without being this stylesheet (the
    cache is keyed by the digest alone). *)
Theorem transform_is_history_independent calls xml xslt force_version parameters
    (Hdigest : ∀ x, x ∈ stylesheets calls →
                    md5_hexdigest x = md5_hexdigest xslt → x = xslt) :
  (transform xml xslt force_version parameters
     (after_transforms calls (mkState ∅ None))).1
  = (transform xml xslt force_version parameters (mkState ∅ None)).1.
Proof.
  destruct (after_transforms_from calls [] (mkState ∅ None)) as [Hc Hp].
  - intros key t Hk. simpl in Hk. by rewrite lookup_empty in Hk.
  - by left.
  - by apply (transform_transparent_from (stylesheets calls)).
Qed.

(** X20.  The Saxon processor is a singleton that exists exactly when Saxon
    is installed: the first request creates it, every later request returns
    the same processor and changes nothing, and a request never touches the
    stylesheet cache. *)
Theorem saxon_processor_is_a_singleton st :
  let first := get_saxon_processor st in
  get_saxon_processor first.2 = (first.1, first.2)
  ∧ (is_Some first.1 ↔ is_saxon_available = true)
  ∧ _saxon_processor first.2
    = (if is_saxon_available then first.1 else _saxon_processor st)
  ∧ _lxml_cache first.2 = _lxml_cache st.
Proof.
  unfold get_saxon_processor, is_saxon_available.
  destruct SAXON_AVAILABLE eqn:Ha; simpl.
  - destruct (_saxon_processor st) as [proc|] eqn:Hp; simpl; rewrite ?Ha, ?Hp; simpl;
      (split; [done|]); (split; [|done]); split; eauto.
  - split; [done|]. split; [|done]. split; [by intros [? ?]|done].
Qed.

End TransformerFacts2.

Section MapperFacts.
Context `{Python} `{Lxml} `{Saxon} `{MapperStore}.
Import TransformerService.

(** X21.  A mapper is looked up among the built-in mappers first, then among
    the uploaded ones, so that a built-in mapper hides an uploaded one of
    the same name.  A name found in neither place gives the failure that the
    mapper was not found, the only result without a version, and leaves the
    state alone.  The mapper found is read and applied with the version
    detected from its bytes, which the result carries: no version can be
    forced.  Every result is well formed. *)
Theorem transform_with_mapper_lookup xml mapper_name parameters st :
  let builtin := Path_join mappers_dir mapper_name in
  let user := Path_join user_mappers_dir mapper_name in
  let found := Path_exists builtin || Path_exists user in
  let mapper_path := if Path_exists builtin then builtin else user in
  let out := transform_with_mapper xml mapper_name parameters st in
  (found = false →
   out = (Returned (mkTransformResult false None
                      (Some ("Mapper not found: " ++ mapper_name)%string) None None), st))
  ∧ (found = true →
     out = match Path_read_bytes mapper_path with
           | Raised e => (Raised e, st)
           | Returned xslt => transform xml xslt None parameters st
           end)
  ∧ ∀ r, out.1 = Returned r →
         result_shape r
         ∧ (xslt_version r = None ↔ found = false)
         ∧ (∀ xslt, found = true → Path_read_bytes mapper_path = Returned xslt →
                    xslt_version r = Some (detect_xslt_version xslt)).
Proof.
  intros builtin user found mapper_path out.
  subst found mapper_path out. unfold transform_with_mapper. fold builtin user.
  destruct (Path_exists builtin) eqn:Hb; [|destruct (Path_exists user) eqn:Hu]; simpl.
  - split; [done|]. split; [done|]. intros r.
    destruct (Path_read_bytes builtin) as [xslt|e]; [|done].
    intros [Hs Hv]%transform_shape. split; [done|]. rewrite Hv. split; [done|].
    by intros xslt' _ [= <-].
  - split; [done|]. split; [done|]. intros r.
    destruct (Path_read_bytes user) as [xslt|e]; [|done].
    intros [Hs Hv]%transform_shape. split; [done|]. rewrite Hv. split; [done|].
    by intros xslt' _ [= <-].
  - split; [done|]. split; [done|]. intros r [= <-]. split; [split; by eauto|]. done.
Qed.

End MapperFacts.

Section ValidatorFacts4.
Context `{Python} `{Lxml}.

Lemma _load_schema_transparent p cache :
  cache_coherent cache →
  (XSDValidator._load_schema p cache).1 = XSDValidator.load_from_disk p.
Proof.
  intros Hc. unfold XSDValidator._load_schema.
  destruct (cache !! p) as [schema|] eqn:Hp; [symmetry; by apply Hc|].
  by destruct (XSDValidator.load_from_disk p).
Qed.

Lemma get_schema_transparent sp ad doc cache :
  cache_coherent cache →
  (XSDValidator.get_schema sp ad doc cache).1 = (XSDValidator.get_schema sp ad doc ∅).1.
Proof.
  intros Hc. unfold XSDValidator.get_schema, XSDValidator._detect_schema.
  repeat (case_match; try done);
    rewrite !_load_schema_transparent; done || apply cache_coherent_empty.
Qed.

Lemma after_validations_coherent calls cache :
  cache_coherent cache → cache_coherent (after_validations calls cache).
Proof.
  revert cache. induction calls as [|[[xml sp] ad] calls IH]; intros cache Hc; [done|].
  apply IH. by apply validate_coherent.
Qed.

(** X22.  Structural validation does not depend on the calls made before
    it: after any sequence of validations from the empty cache, a document
    has the outcome it has with the empty cache (the files on the disk
    being the same). *)
Theorem xsd_validate_is_history_independent calls xml schema_path auto_detect :
  (XSDValidator.validate xml schema_path auto_detect (after_validations calls ∅)).1
  = (XSDValidator.validate xml schema_path auto_detect ∅).1.
Proof.
  pose proof (after_validations_coherent calls ∅ cache_coherent_empty) as Hc.
  unfold XSDValidator.validate.
  destruct (ET_fromstring xml) as [e|doc]; [done|].
  pose proof (get_schema_transparent schema_path auto_detect doc _ Hc) as Ht.
  destruct (XSDValidator.get_schema schema_path auto_detect doc (after_validations calls ∅))
    as [s1 c1], (XSDValidator.get_schema schema_path auto_detect doc ∅) as [s2 c2].
  simpl in Ht. subst s2. destruct s1 as [schema|]; [|done].
  by destruct (XMLSchema_assertValid schema doc).
Qed.

End ValidatorFacts4.

(** ** What the detection never does *)

Section RegexFacts2.
Local Open Scope N_scope.

Lemma greedy_inv {R} p s (k : text → option R) r :
  greedy p s k = Some r →
  ∃ w s1, s = w ++ s1 ∧ forallb p w = true ∧ k s1 = Some r.
Proof.
  induction s as [|c s IH]; simpl.
  - intros Hk. by exists [], [].
  - destruct (p c) eqn:Hc.
    + destruct (greedy p s k) as [r'|] eqn:Hg.
      * intros [= ->]. destruct (IH eq_refl) as (w & s1 & -> & Hw & Hk).
        exists (c :: w), s1. simpl. by rewrite Hc, Hw.
      * intros Hk. by exists [], (c :: s).
    + intros Hk. by exists [], (c :: s).
Qed.

Lemma rmatch_Lit_inv {R} a s g (k : text → text → option R) r :
  rmatch (Lit a) s g k = Some r →
  ∃ c s1, s = c :: s1 ∧ ignorecase_eq a c = true ∧ k s1 g = Some r.
Proof.
  simpl. destruct s as [|c s]; [done|]. destruct (ignorecase_eq a c) eqn:Hc; [|done].
  intros Hk. by exists c, s.
Qed.

Lemma rmatch_Class_inv {R} p s g (k : text → text → option R) r :
  rmatch (Class p) s g k = Some r →
  ∃ c s1, s = c :: s1 ∧ p c = true ∧ k s1 g = Some r.
Proof.
  simpl. destruct s as [|c s]; [done|]. destruct (p c) eqn:Hc; [|done].
  intros Hk. by exists c, s.
Qed.

Lemma rmatch_Star_inv {R} p s g (k : text → text → option R) r :
  rmatch (Star p) s g k = Some r →
  ∃ w s1, s = w ++ s1 ∧ forallb p w = true ∧ k s1 g = Some r.
Proof. simpl. apply greedy_inv. Qed.

Lemma rmatch_Plus_inv {R} p s g (k : text → text → option R) r :
  rmatch (Plus p) s g k = Some r →
  ∃ w s1, s = w ++ s1 ∧ w ≠ [] ∧ forallb p w = true ∧ k s1 g = Some r.
Proof.
  simpl. destruct s as [|c s]; [done|]. destruct (p c) eqn:Hc; [|done].
  intros (w & s1 & -> & Hw & Hk)%greedy_inv.
  exists (c :: w), s1. simpl. by rewrite Hc, Hw.
Qed.

Lemma rmatch_word_inv {R} (w : list N) s g (k : text → text → option R) r :
  rmatch (Cat (map Lit w)) s g k = Some r →
  ∃ t s1, s = t ++ s1 ∧ Forall2 (fun a c => ignorecase_eq a c = true) w t
          ∧ k s1 g = Some r.
Proof.
  revert s. induction w as [|a w IH]; intros s.
  - intros Hk. by exists [], s.
  - cbn [map]. rewrite rmatch_Cat_cons.
    intros (c & s1 & -> & Hc & Hk)%rmatch_Lit_inv.
    apply IH in Hk as (t & s2 & -> & Ht & Hk).
    exists (c :: t), s2. split; [done|]. split; [by constructor|done].
Qed.

Lemma rmatch_lit_inv {R} w s g (k : text → text → option R) r :
  rmatch (lit w) s g k = Some r →
  ∃ t s1, s = t ++ s1 ∧ ci_word w t ∧ k s1 g = Some r.
Proof. apply rmatch_word_inv. Qed.

(** Where the pattern of the attribute matches there is a version attribute,
    and its number is what the group captures. *)
Lemma version_attr_inv {R} s g (k : text → text → option R) r :
  rmatch VERSION_ATTR_RE s g k = Some r →
  ∃ attr number tl, s = attr ++ tl ∧ version_attr attr number ∧ k tl number = Some r.
Proof.
  unfold VERSION_ATTR_RE. rewrite rmatch_Cat_cons.
  intros (vword & s1 & -> & Hv & Hk)%rmatch_lit_inv.
  rewrite rmatch_Cat_cons in Hk.
  apply rmatch_Star_inv in Hk as (ws1 & s2 & -> & Hw1 & Hk).
  rewrite rmatch_Cat_cons in Hk.
  apply rmatch_Lit_inv in Hk as (e & s3 & -> & He & Hk).
  apply ci_other_inv in He as ->; [|done..].
  rewrite rmatch_Cat_cons in Hk.
  apply rmatch_Star_inv in Hk as (ws2 & s4 & -> & Hw2 & Hk).
  rewrite rmatch_Cat_cons in Hk.
  apply rmatch_Class_inv in Hk as (q1 & s5 & -> & Hq1 & Hk).
  rewrite rmatch_Cat_cons, rmatch_Group, rmatch_Cat_cons in Hk.
  apply rmatch_Plus_inv in Hk as (major & s6 & -> & Hn1 & Hd1 & Hk).
  rewrite rmatch_Cat_cons in Hk.
  apply rmatch_Lit_inv in Hk as (dot & s7 & -> & Hdot & Hk).
  apply ci_other_inv in Hdot as ->; [|done..].
  rewrite rmatch_Cat_cons in Hk.
  apply rmatch_Plus_inv in Hk as (minor & s8 & -> & Hn2 & Hd2 & Hk).
  rewrite rmatch_Cat_nil in Hk.
  replace (major ++ chr "." :: minor ++ s8)
    with ((major ++ chr "." :: minor) ++ s8) in Hk
    by (by rewrite <- app_assoc).
  rewrite take_captured, rmatch_Cat_cons in Hk.
  apply rmatch_Class_inv in Hk as (q2 & tl & -> & Hq2 & Hk).
  rewrite rmatch_Cat_nil in Hk.
  exists (vword ++ ws1 ++ chr "=" :: ws2 ++ q1 :: major ++ chr "." :: minor ++ [q2]),
    (major ++ chr "." :: minor), tl.
  split; [|split; [by constructor|done]].
  by repeat (rewrite <- ?app_assoc; cbn [app]).
Qed.

(** Where the whole pattern matches there is an [xsl:stylesheet] or
    [xsl:transform] tag with a version attribute. *)
Lemma xslt_version_inv s number :
  match_here XSLT_VERSION_RE s = Some number →
  ∃ opening name attrs attr rest,
    s = opening ++ name ++ attrs ++ attr ++ rest
    ∧ ci_word "<xsl:" opening
    ∧ (ci_word "stylesheet" name ∨ ci_word "transform" name)
    ∧ attrs ≠ [] ∧ forallb not_gt attrs = true
    ∧ version_attr attr number.
Proof.
  unfold match_here, XSLT_VERSION_RE. rewrite rmatch_Cat_cons.
  intros (opening & s1 & -> & Ho & Hk)%rmatch_lit_inv.
  rewrite rmatch_Cat_cons in Hk.
  assert (Hname : ∃ name s2, s1 = name ++ s2
            ∧ (ci_word "stylesheet" name ∨ ci_word "transform" name)
            ∧ rmatch (Cat [Plus not_gt; VERSION_ATTR_RE]) s2 []
                (fun _ g => Some g) = Some number).
  { cbn [rmatch] in Hk.
    destruct (rmatch (lit "stylesheet") s1 [] _) as [x|] eqn:H1.
    - injection Hk as ->.
      apply rmatch_lit_inv in H1 as (name & s2 & -> & Hn & H1). exists name, s2. auto.
    - apply rmatch_lit_inv in Hk as (name & s2 & -> & Hn & Hk). exists name, s2. auto. }
  destruct Hname as (name & s2 & -> & Hname & Hk2).
  rewrite rmatch_Cat_cons in Hk2.
  apply rmatch_Plus_inv in Hk2 as (attrs & s3 & -> & Hne & Hattrs & Hk2).
  rewrite rmatch_Cat_cons in Hk2.
  apply version_attr_inv in Hk2 as (attr & number' & rest & -> & Hattr & Hk2).
  rewrite rmatch_Cat_nil in Hk2. injection Hk2 as ->.
  by exists opening, name, attrs, attr, rest.
Qed.

Lemma re_search_inv r s g :
  re_search r s = Some g → ∃ before s', s = before ++ s' ∧ match_here r s' = Some g.
Proof.
  induction s as [|c s IH]; simpl.
  - destruct (match_here r []) eqn:Hm; [|done]. intros [= ->]. by exists [], [].
  - destruct (match_here r (c :: s)) eqn:Hm.
    + intros [= ->]. by exists [], (c :: s).
    + intros (before & s' & -> & Hs)%IH. by exists (c :: before), s'.
Qed.

End RegexFacts2.

Section DetectionFacts.
Context `{Python}.
Import TransformerService.

(** X23.  Detection never reports 2.0 or 3.0 without cause: when it does,
    the decoded text holds an [xsl:stylesheet] or [xsl:transform] tag (in
    any letter case) with a version attribute after at least one other
    character, and the number of that attribute starts with the digit of
    the level reported. *)
Theorem detect_xslt_version_is_sound xslt_content
    (Hdetected : detect_xslt_version xslt_content ≠ V1_0) :
  ∃ before opening name attrs attr number rest,
    decode_utf8_ignore xslt_content = before ++ opening ++ name ++ attrs ++ attr ++ rest
    ∧ ci_word "<xsl:" opening
    ∧ (ci_word "stylesheet" name ∨ ci_word "transform" name)
    ∧ attrs ≠ [] ∧ forallb not_gt attrs = true
    ∧ version_attr attr number
    ∧ (startswith number "3" || startswith number "2" = true)
    ∧ detect_xslt_version xslt_content
      = if startswith number "3" then V3_0 else V2_0.
Proof.
  unfold detect_xslt_version in *.
  destruct (re_search XSLT_VERSION_RE (decode_utf8_ignore xslt_content))
    as [number|] eqn:Hs; [|done].
  apply re_search_inv in Hs as (before & s' & Htext & Hm).
  apply xslt_version_inv in Hm as (opening & name & attrs & attr & rest & -> & ? & ? & ? & ? & ?).
  exists before, opening, name, attrs, attr, number, rest.
  repeat (split; [done|]). simpl in *.
  destruct (startswith number "3"); [done|].
  by destruct (startswith number "2").
Qed.

End DetectionFacts.

Section RegistryFacts4.
Context `{Python} {World : Type}.
Implicit Types (v : BaseValidator World) (reg : ValidatorRegistry World).

Lemma sum_list_lookup_le (l : list nat) i (n : nat) :
  l !! i = Some n → (n ≤ sum_list l)%nat.
Proof.
  revert i. induction l as [|m l IH]; intros [|i] Hi; simplify_eq/=; [lia|].
  apply IH in Hi. lia.
Qed.

Lemma forallb_lookup_false {A} (f : A → bool) (l : list A) i x :
  l !! i = Some x → f x = false → forallb f l = false.
Proof.
  revert i. induction l as [|y l IH]; intros [|i] Hi Hx; simplify_eq/=.
  - by rewrite Hx.
  - rewrite (IH i) by done. apply andb_false_r.
Qed.

(** X24.  A validator that raises fails the batch without stopping it: its
    entry is a failed result whose single issue is the error
    VALIDATOR_ERROR with the text of the exception, the batch is not an
    overall success and counts at least one error, and every resolved
    validator still has its entry. *)
Theorem a_raising_validator_fails_the_batch reg xml sel kw w i v e
    (Hv : run_order (resolve reg sel) !! i = Some v)
    (Hraised : (gather (run_order (resolve reg sel)) xml kw w).1 !! i = Some (Raised e)) :
  let res := (validate reg xml sel kw w).1 in
  (∃ r, results res !! i = Some r
        ∧ success r = false
        ∧ map (fun x => (severity x, rule_id x, message x)) (issues r)
          = [(ERROR, "VALIDATOR_ERROR", e)])
  ∧ overall_success res = false
  ∧ (1 ≤ total_errors res)%nat
  ∧ length (results res) = length (resolve reg sel).
Proof.
  intros res. subst res.
  destruct (validate_results reg xml sel kw w) as [Hr _].
  destruct (validate_aggregation reg xml sel kw w) as (He & _ & Hs).
  assert (Hi : results (validate reg xml sel kw w).1 !! i = Some (result_of v (Raised e))).
  { rewrite Hr, lookup_zip_with, Hv. simpl. by rewrite Hraised. }
  assert (Hf : success (result_of v (Raised e)) = false
               ∧ length (errors (result_of v (Raised e))) = 1).
  { simpl. by destruct (v_is_local v). }
  destruct Hf as [Hf1 Hf2].
  split; [|split; [|split]].
  - eexists. split; [exact Hi|]. split; [done|]. simpl. by destruct (v_is_local v).
  - rewrite Hs, (forallb_lookup_false _ _ i _ Hi Hf1). done.
  - rewrite He, <- Hf2.
    apply (sum_list_lookup_le _ i). by rewrite list_lookup_fmap, Hi.
  - by rewrite Hr, length_zip_with, gather_length, run_order_length, Nat.min_id.
Qed.

(** X25.  Every registered validator is local or external, never both:
    the two lists split the registry, each keeping registration order, and
    a batch over the whole registry runs the local validators first, then
    the external ones. *)
Theorem local_and_external_split_the_registry reg xml kw w :
  let local := get_local_validators reg in
  let external := get_external_validators reg in
  local ++ external ≡ₚ dict_values reg
  ∧ (∀ v, v ∈ local → v ∉ external)
  ∧ length local + length external = length reg
  ∧ results (validate reg xml None kw w).1
    = zip_with result_of (local ++ external) (gather (local ++ external) xml kw w).1.
Proof.
  intros local external. subst local external.
  unfold get_local_validators, get_external_validators.
  split; [|split; [|split]].
  - induction (dict_values reg) as [|v vs IH]; [done|].
    rewrite !filter_cons. destruct (v_is_local v) eqn:Hv;
      repeat case_decide; try done; simpl.
    + by f_equiv.
    + rewrite <- Permutation_middle. by f_equiv.
  - intros v [Hl _]%list_elem_of_filter [He _]%list_elem_of_filter. congruence.
  - rewrite filter_local_length. unfold dict_values. by rewrite length_map.
  - by destruct (validate_results reg xml None kw w) as [-> _].
Qed.

End RegistryFacts4.

(** ** The further statements evaluated on the small environment *)

Module MoreExamples.
Import Demo Demo2.

Lemma register_keeps_types_distinct_witness :
  registry_ok two_checkers
  ∧ map info_type (list_validators (register two_checkers flags_R1)) = ["first"; "second"]
  ∧ NoDup (map info_type (list_validators (register two_checkers flags_R1))).
Proof.
  assert (Hok : registry_ok two_checkers)
    by (apply register_ok, register_ok, registry_ok_nil).
  split; [exact Hok|]. split; [reflexivity|].
  exact (proj1 (proj2 (register_keeps_types_distinct two_checkers flags_R1 Hok))).
Defined.

Lemma validate_local_only_runs_the_local_validators_witness :
  registry_ok _register_defaults
  ∧ map v_validator_type (get_local_validators _register_defaults) = ["xsd"; "schematron"]
  ∧ length (results (validate_local_only _register_defaults (bytes_of "<root/>")
                       no_kwargs empty_caches).1)
    = length (get_local_validators _register_defaults).
Proof.
  assert (Hok : registry_ok _register_defaults)
    by (apply register_ok, register_ok, register_ok, registry_ok_nil).
  assert (Hlocal : get_local_validators _register_defaults ≠ []) by discriminate.
  split; [exact Hok|]. split; [reflexivity|].
  exact (proj1 (proj2 (proj2
           (validate_local_only_runs_the_local_validators _register_defaults
              (bytes_of "<root/>") no_kwargs empty_caches Hok Hlocal)))).
Defined.

Lemma validate_local_only_without_local_runs_all_witness :
  get_local_validators remote_only = []
  ∧ validate_local_only remote_only (bytes_of "<root/>") no_kwargs empty_caches
    = validate remote_only (bytes_of "<root/>") None no_kwargs empty_caches.
Proof.
  split; [reflexivity|].
  exact (proj1 (validate_local_only_without_local_runs_all remote_only
                  (bytes_of "<root/>") no_kwargs empty_caches eq_refl)).
Defined.

Lemma tag_namespace_of_clark_notation_witness :
  tag_namespace ("{" ++ INVOICE_NS ++ "}" ++ "Invoice") = Some INVOICE_NS.
Proof.
  exact (proj1 (tag_namespace_of_clark_notation INVOICE_NS "Invoice" eq_refl eq_refl)).
Defined.

Lemma schematron_unknown_profile_is_no_rules_witness :
  ET_fromstring invoice = inr ("{" ++ INVOICE_NS ++ "}Invoice")%string
  ∧ dict_get SchematronValidator.SCHEMATRON_MAP "peppol" = None
  ∧ SchematronValidator.validate invoice None (Some "peppol"%string) ∅ =
      (Returned (mkResult "Schematron" "schematron" true
                   [mkIssue INFO "SCH_NO_RULES"
                      "No Schematron rules found for this document type."
                      None (Some "Schematron"%string)]
                   None (Some 0)), ∅).
Proof.
  split; [reflexivity|]. split; [reflexivity|].
  assert (Hne : "peppol"%string ≠ ""%string) by discriminate.
  exact (schematron_unknown_profile_is_no_rules invoice _ None "peppol"%string ∅
           eq_refl eq_refl Hne eq_refl).
Defined.

Lemma unavailable_profile_is_no_rules_witness :
  ET_fromstring invoice = inr ("{" ++ INVOICE_NS ++ "}Invoice")%string
  ∧ map profile_available list_available_profiles = [false; false; false]
  ∧ SchematronValidator.validate invoice None (Some "peppol-bis3"%string) ∅
    = (Returned SchematronValidator.no_rules_result, ∅).
Proof.
  split; [reflexivity|]. split; [reflexivity|].
  exact (Forall_inv (proj2 (unavailable_profile_is_no_rules invoice _ ∅ eq_refl))
           eq_refl eq_refl eq_refl).
Defined.

Lemma detect_xslt_version_is_sound_witness :
  TransformerService.detect_xslt_version stylesheet_2_0 = V2_0
  ∧ ∃ before opening name attrs attr number rest,
      decode_utf8_ignore stylesheet_2_0
        = before ++ opening ++ name ++ attrs ++ attr ++ rest
      ∧ ci_word "<xsl:" opening
      ∧ (ci_word "stylesheet" name ∨ ci_word "transform" name)
      ∧ attrs ≠ [] ∧ forallb not_gt attrs = true
      ∧ version_attr attr number
      ∧ (startswith number "3" || startswith number "2" = true)
      ∧ TransformerService.detect_xslt_version stylesheet_2_0
        = if startswith number "3" then V3_0 else V2_0.
Proof.
  split; [by vm_compute|].
  assert (Hv : TransformerService.detect_xslt_version stylesheet_2_0 ≠ V1_0)
    by (vm_compute; discriminate).
  exact (detect_xslt_version_is_sound stylesheet_2_0 Hv).
Defined.

Lemma a_raising_validator_fails_the_batch_witness :
  let res := (validate with_raiser (bytes_of "<root/>") None no_kwargs tt).1 in
  map validator_type (results res) = ["second"; "remote"]
  ∧ overall_success res = false
  ∧ (1 ≤ total_errors res)%nat.
Proof.
  split; [reflexivity|].
  destruct (a_raising_validator_fails_the_batch with_raiser (bytes_of "<root/>") None
              no_kwargs tt 1 raises "timed out" eq_refl eq_refl) as (_ & Hs & He & _).
  split; [exact Hs|exact He].
Defined.

End MoreExamples.

(** ** The transformer in the second environment *)

Module WorkshopExamples.
Import Workshop.

(** A success of lxml without an output: the result tree of [no_output]
    has no serialisation. *)
Lemma success_without_output :
  (TransformerService.transform document no_output None None
     (TransformerService.mkState ∅ None)).1
  = Returned (mkTransformResult true None None (Some V1_0) (Some "lxml"%string)).
Proof. by vm_compute. Qed.

Lemma transform_is_history_independent_witness :
  md5_hexdigest copy_2_0 = md5_hexdigest no_output
  ∧ TransformerService._lxml_cache
      (after_transforms earlier_calls (TransformerService.mkState ∅ None))
      !! md5_hexdigest copy_1_0
    = Some (String.string_of_list_byte copy_1_0)
  ∧ (TransformerService.transform document copy_1_0 None None
       (after_transforms earlier_calls (TransformerService.mkState ∅ None))).1
    = (TransformerService.transform document copy_1_0 None None
         (TransformerService.mkState ∅ None)).1.
Proof.
  split; [reflexivity|]. split; [by vm_compute|].
  assert (Hdigest : ∀ x, x ∈ stylesheets earlier_calls →
                         md5_hexdigest x = md5_hexdigest copy_1_0 → x = copy_1_0).
  { intros x Hx Hd. cbn [stylesheets earlier_calls map] in Hx.
    repeat (apply elem_of_cons in Hx as [-> |Hx];
            [first [reflexivity | vm_compute in Hd; discriminate Hd]|]).
    by apply elem_of_nil in Hx. }
  exact (transform_is_history_independent earlier_calls document copy_1_0 None None
           Hdigest).
Defined.

End WorkshopExamples.
